(** * AlphaPy, module [plots]: a shallow embedding and its properties

    The module is glue between a model container, the statistical
    routines of numpy/scikit-learn and three rendering libraries.  Its own
    logic is: dictionary lookups, the gates on the model type and on the
    partition, the loops over the algorithm list, the accumulation of the
    mean ROC curve, and the writer that names the output file.

    The embedding keeps that logic as it is written.  Python code runs in
    a small state-and-exception monad over a [world] that holds the trace
    of observable events (log records, rendering calls, files saved) and
    the store of the Python list objects that the module mutates.  The
    routines of the external libraries are parameters of the development:
    they are assumed to return, and the few facts used about them are
    stated as hypotheses where they are needed. *)

From Stdlib Require Import ZArith QArith.
From stdpp Require Import gmap strings list pretty.

Local Open Scope string_scope.
Local Open Scope list_scope.

(** ** Separators of module [globs] *)

(** Modelled from the spec: module [globs] is not part of the sources; the
    spec fixes the file name as [category + "_" + tag + ".png"], so the
    underscore separator [USEP] is ["_"]. *)
Definition USEP : string := "_".

(** Modelled from the spec: module [globs] is not part of the sources; the
    spec fixes the path as [<base_dir>/<project>/<file>], so the path
    separator [SSEP] is ["/"]. *)
Definition SSEP : string := "/".

(** ** Model types of module [estimators] *)

(** Modelled from the spec: the enumeration [ModelType] of module
    [estimators] is not part of the sources.  The module only ever names
    its member [classification]; every other member is kept apart from it
    and from the others by a tag. *)
Inductive ModelType : Type :=
| classification
| other_model_type (tag : nat).

(** ** Exceptions *)

(** The Python exceptions that the module's own code can raise.  An
    exception carries what Python puts in its [args]. *)
Inductive exn : Type :=
| TypeError (msg : string)
| ValueError (args : list string)
| KeyError (key : list string)
| NameError (name : string)
| AttributeError (msg : string)
| IndexError (msg : string)
| ZeroDivisionError (msg : string).

(** [str.join]: the items separated by [sep]. *)
Definition join (sep : string) (items : list string) : string :=
  String.concat sep items.

(** Python's [range(n)]. *)
Definition range (n : nat) : list nat := seq 0 n.

Section Plots.

(** ** The external world *)

(** Floating-point numbers and the opaque values of the external libraries
    (matrices, label vectors, index arrays, estimators, grids of scores). *)
Variable F : Type.
Variable Obj : Type.

(** Floating-point constants and operations used by the module itself. *)
Variable f0 : F.                       (* 0.0 *)
Variable f1 : F.                       (* 1.0 *)
Variable fadd : F -> F -> F.
Variable fsub : F -> F -> F.
Variable fdiv : F -> F -> F.
Variable fofnat : nat -> F.            (* int to float *)
Variable fnonzero : F -> bool.         (* truth value of a float *)
Variable flt : F -> F -> bool.         (* x < y *)
Variable flit : string -> F.           (* a decimal literal of the source *)

(** Blank separator of module [globs], used only inside plot titles. *)
Variable BSEP : string.

(** ** Python values *)

(** The values that the configuration dictionary [model.specs] holds. *)
Inductive value : Type :=
| VNone
| VBool (b : bool)
| VInt (n : Z)
| VFloat (x : F)
| VStr (s : string)
| VModelType (t : ModelType).

(** Truth value of a Python value, as tested by [if v:]. *)
Definition truthy (v : value) : bool :=
  match v with
  | VNone => false
  | VBool b => b
  | VInt n => negb (n =? 0)%Z
  | VFloat x => fnonzero x
  | VStr s => negb (String.eqb s "")
  | VModelType _ => true
  end.

(** [v != ModelType.classification]: members of an enumeration are equal
    only to themselves. *)
Definition not_classification (v : value) : bool :=
  match v with
  | VModelType classification => false
  | _ => true
  end.

(** Arguments of a logging or rendering call. *)
Inductive arg : Type :=
| AVal (v : value)
| ANat (n : nat)
| AArr (a : list F)
| AIdx (i : list nat)
| AObj (o : Obj).

(** The class of a rendered object.  The writer only ever calls
    [savefig] or [save] on the object it is given, so a class is known by
    which of the two its objects have: a seaborn grid and a matplotlib
    figure have [savefig] and no [save]; matplotlib axes have neither; the
    figure of [bokeh.plotting] has neither ([save] is a function of that
    module, not a method of its figures).  An object of any other class is
    described by the name of the class and the methods it has. *)
Inductive plot_class : Type :=
| SeabornGrid
| MatplotlibAxes
| MatplotlibFigure
| BokehFigure
| OtherClass (name : string) (with_savefig with_save : bool).

(** A rendered object handed to the writer: the position in the trace of
    the call that made it, and its class. *)
Record handle : Type := Handle {
  ident : nat;
  class : plot_class
}.

Definition class_name (c : plot_class) : string :=
  match c with
  | SeabornGrid => "PairGrid"
  | MatplotlibAxes => "AxesSubplot"
  | MatplotlibFigure => "Figure"
  | BokehFigure => "Figure"
  | OtherClass name _ _ => name
  end.

(** [hasattr(plot, 'savefig')] and [hasattr(plot, 'save')]. *)
Definition has_savefig (h : handle) : bool :=
  match class h with
  | SeabornGrid | MatplotlibFigure => true
  | MatplotlibAxes | BokehFigure => false
  | OtherClass _ b _ => b
  end.

Definition has_save (h : handle) : bool :=
  match class h with
  | OtherClass _ _ b => b
  | _ => false
  end.


(** ** Events and the world *)

Inductive event : Type :=
| Log (fmt : string) (args : list arg)        (* logger.info(fmt, args) *)
| Draw (call : string) (args : list arg)      (* a rendering primitive *)
| Save (vizlib : string) (plot : option handle) (path : string).
                                              (* a figure written to path *)

(** References to Python list objects. *)
Definition ref : Type := nat.

Record world : Type := World {
  events : list event;            (* oldest first *)
  lists : ref -> list string      (* the list objects, by reference *)
}.

Definition emit (e : event) (w : world) : world :=
  {| events := events w ++ [e]; lists := lists w |}.

Definition store_list (r : ref) (l : list string) (w : world) : world :=
  {| events := events w;
     lists := fun r' => if Nat.eqb r' r then l else lists w r' |}.

(** The files written so far, oldest first. *)
Fixpoint saved (t : list event) : list string :=
  match t with
  | [] => []
  | Save _ _ path :: t' => path :: saved t'
  | _ :: t' => saved t'
  end.

(** The rendering calls made so far. *)
Fixpoint drawn (t : list event) : list string :=
  match t with
  | [] => []
  | Draw call _ :: t' => call :: drawn t'
  | _ :: t' => drawn t'
  end.

(** The format strings of the log records so far. *)
Fixpoint logged (t : list event) : list string :=
  match t with
  | [] => []
  | Log fmt _ :: t' => fmt :: logged t'
  | _ :: t' => logged t'
  end.

(** ** The monad of Python code *)

(** A computation runs in a world and ends either with an exception or
    with a result; the effects made before an exception stay. *)
Definition M (A : Type) : Type := world -> (exn + A) * world.

Definition ret {A} (a : A) : M A := fun w => (inr a, w).

Definition bind {A B} (c : M A) (k : A -> M B) : M B :=
  fun w =>
    match c w with
    | (inl e, w') => (inl e, w')
    | (inr a, w') => k a w'
    end.

Definition raise {A} (e : exn) : M A := fun w => (inl e, w).

(** [try: body except: handler] with a bare [except]. *)
Definition try_except {A} (body : M A) (handler : M A) : M A :=
  fun w =>
    match body w with
    | (inl _, w') => handler w'
    | (inr a, w') => (inr a, w')
    end.

Notation "x <- c1 ;; c2" := (bind c1 (fun x => c2))
  (at level 100, c1 at next level, right associativity).
Notation "c1 ;;; c2" := (bind c1 (fun _ => c2))
  (at level 100, right associativity).

Definition logger_info (fmt : string) (args : list arg) : M unit :=
  fun w => (inr tt, emit (Log fmt args) w).

Definition draw (call : string) (args : list arg) : M unit :=
  fun w => (inr tt, emit (Draw call args) w).

Definition save (vizlib : string) (plot : option handle) (path : string) : M unit :=
  fun w => (inr tt, emit (Save vizlib plot path) w).

(** [for x in l: body x]. *)
Fixpoint for_each {A} (l : list A) (body : A -> M unit) : M unit :=
  match l with
  | [] => ret tt
  | x :: l' => body x ;;; for_each l' body
  end.

(** A [for] loop whose body rebinds a local variable: the variable is
    threaded through the iterations. *)
Fixpoint for_acc {A S} (l : list A) (body : A -> S -> M S) (s : S) : M S :=
  match l with
  | [] => ret s
  | x :: l' => s' <- body x s ;; for_acc l' body s'
  end.

(** [d[key]] on a dictionary with string keys. *)
Definition getitem {V} (d : gmap string V) (key : string) : M V :=
  match d !! key with
  | Some v => ret v
  | None => raise (KeyError [key])
  end.

(** [d[(a, b)]] on a dictionary keyed by pairs. *)
Definition getitem2 {V} (d : gmap (string * string) V) (a b : string) : M V :=
  match d !! (a, b) with
  | Some v => ret v
  | None => raise (KeyError [a; b])
  end.

(** [sep.join(items)] where the items are Python values: a value that is
    not a string is a [TypeError]. *)
Fixpoint strings_of (items : list value) : option (list string) :=
  match items with
  | [] => Some []
  | VStr s :: items' =>
      match strings_of items' with
      | Some l => Some (s :: l)
      | None => None
      end
  | _ :: _ => None
  end.

Definition py_join (sep : string) (items : list value) : M string :=
  match strings_of items with
  | Some l => ret (join sep l)
  | None => raise (TypeError "sequence item: expected str instance")
  end.

(** ** The model container *)

Record Model : Type := {
  specs : gmap string value;
  algolist : list string;
  estimators : gmap string Obj;
  probas : gmap (string * string) (list F);
  preds : gmap (string * string) Obj;
  importances : gmap string (list F);
  X_train : Obj;
  y_train : Obj;
  X_test : Obj;
  y_test : Obj
}.

(** ** Function get_partition_data *)

Definition get_partition_data (model : Model) (partition : string) : M (Obj * Obj) :=
  if String.eqb partition "train" then
    ret (X_train model, y_train model)
  else if String.eqb partition "test" then
    ret (X_test model, y_test model)
  else
    raise (TypeError "Partition must be train or test").

(** ** Function write_plot *)

(** The exception of an attribute lookup that fails. *)
Definition no_attribute (cls attr : string) : exn :=
  AttributeError ("'" +:+ cls +:+ "' object has no attribute '" +:+ attr +:+ "'").

Definition write_plot (model : Model) (vizlib : string) (plot : option handle)
    (plot_type tag : string) : M unit :=
  base_dir <- getitem (specs model) "base_dir" ;;
  project <- getitem (specs model) "project" ;;
  let file_only := join "" [plot_type; USEP; tag; ".png"] in
  file_all <- py_join SSEP [base_dir; project; VStr file_only] ;;
  logger_info "Writing plot to %s" [AVal (VStr file_all)] ;;;
  if String.eqb vizlib "matplotlib" then
    draw "plt.tight_layout" [] ;;;
    save "matplotlib" None file_all
  else if String.eqb vizlib "seaborn" then
    match plot with
    | Some h =>
        if has_savefig h then save "seaborn" (Some h) file_all
        else raise (no_attribute (class_name (class h)) "savefig")
    | None => raise (AttributeError "'NoneType' object has no attribute 'savefig'")
    end
  else if String.eqb vizlib "bokeh" then
    match plot with
    | Some h =>
        if has_save h then save "bokeh" (Some h) file_all
        else raise (no_attribute (class_name (class h)) "save")
    | None => raise (AttributeError "'NoneType' object has no attribute 'save'")
    end
  else if String.eqb vizlib "plotly" then
    raise (ValueError ["Unsupported data visualization library: %s"; vizlib])
  else
    raise (ValueError ["Unrecognized data visualization library: %s"; vizlib]).

(** ** The external libraries *)

(** numpy. *)
Variable linspace : F -> F -> nat -> list F.
Variable amin : list F -> F.
Variable amax : list F -> F.
Variable argsort : list F -> list nat.
Variable interp : list F -> list F -> list F -> list F.
Variable mean_axis1 : Obj -> list F.
Variable std_axis1 : Obj -> list F.
Variable unique_values : Obj -> list F.
Variable rows : Obj -> Obj -> Obj.             (* a[index_array] *)
Variable column1 : Obj -> list F.              (* a[:, 1] *)

(** scikit-learn estimators. *)
Variable has_predict_proba : Obj -> bool.      (* hasattr(clf, "predict_proba") *)
Variable decision_function : Obj -> Obj -> list F.
Variable fit : Obj -> Obj -> Obj -> Obj.       (* the estimator after fit(X, y) *)
Variable predict_proba : Obj -> Obj -> Obj.

(** scikit-learn cross-validation splitters. *)
Inductive CV : Type :=
| StratifiedShuffleSplit (n_splits test_size random_state : value)
| StratifiedKFold (n_splits : value) (shuffle : bool) (random_state : value).

Variable cv_split : CV -> Obj -> Obj -> list (Obj * Obj).
Variable get_n_splits : CV -> Obj -> Obj -> nat.

(** scikit-learn metrics and curves. *)
Variable calibration_curve : Obj -> list F -> nat -> list F * list F.
Variable roc_curve : Obj -> list F -> list F * list F * list F.
Variable auc : list F -> list F -> F.
Variable confusion_matrix : Obj -> Obj -> Obj.
Variable learning_curve :
  Obj -> Obj -> Obj -> list F -> CV -> value -> value -> value -> list F * Obj * Obj.
Variable validation_curve :
  Obj -> Obj -> Obj -> string -> list F -> value -> value -> value -> Obj * Obj.

(** Element-wise arithmetic of numpy on arrays of one shape. *)
Definition arr_add (a b : list F) : list F := zip_with fadd a b.
Definition arr_sub (a b : list F) : list F := zip_with fsub a b.

(** [a[i]] for a non-negative index. *)
Definition index {A} (a : list A) (i : nat) : M A :=
  match a !! i with
  | Some x => ret x
  | None => raise (IndexError "index out of range")
  end.

(** [a[idx]] where [idx] is an array of indices. *)
Fixpoint take_indices {A} (a : list A) (idx : list nat) : M (list A) :=
  match idx with
  | [] => ret []
  | i :: idx' =>
      x <- index a i ;;
      xs <- take_indices a idx' ;;
      ret (x :: xs)
  end.

(** ** Function plot_calibration *)

Definition calibration_algo (model : Model) (partition : string) (X y : Obj)
    (algo : string) : M unit :=
  logger_info "Calibration for Algorithm: %s" [AVal (VStr algo)] ;;;
  clf <- getitem (estimators model) algo ;;
  prob_pos <-
    (if has_predict_proba clf then
       getitem2 (probas model) algo partition
     else
       let prob_pos := decision_function clf X in
       ret (map (fun p => fdiv (fsub p (amin prob_pos))
                               (fsub (amax prob_pos) (amin prob_pos))) prob_pos)) ;;
  let fraction_of_positives := fst (calibration_curve y prob_pos 10) in
  let mean_predicted_value := snd (calibration_curve y prob_pos 10) in
  draw "ax1.plot" [AArr mean_predicted_value; AArr fraction_of_positives;
                   AVal (VStr "s-"); AVal (VStr algo)] ;;;
  draw "ax2.hist" [AArr prob_pos; AIdx [0; 1]; ANat 10; AVal (VStr algo);
                   AVal (VStr "step"); ANat 2].

Definition plot_calibration (model : Model) (partition : string) : M unit :=
  logger_info "Generating Calibration Plot" [] ;;;
  model_type <- getitem (specs model) "model_type" ;;
  if not_classification model_type then
    logger_info "Calibration plot is for classification only" []
  else
    Xy <- get_partition_data model partition ;;
    draw "plt.figure" [ANat 10; ANat 10] ;;;
    draw "plt.subplot2grid" [AIdx [3; 1]; AIdx [0; 0]; ANat 2] ;;;
    draw "plt.subplot2grid" [AIdx [3; 1]; AIdx [2; 0]] ;;;
    draw "ax1.plot" [AIdx [0; 1]; AIdx [0; 1]; AVal (VStr "k:");
                     AVal (VStr "Perfectly Calibrated")] ;;;
    for_each (algolist model) (calibration_algo model partition (fst Xy) (snd Xy)) ;;;
    draw "ax1.set_ylabel" [AVal (VStr "Fraction of Positives")] ;;;
    draw "ax1.set_ylim" [AArr [flit "-0.05"; flit "1.05"]] ;;;
    draw "ax1.legend" [AVal (VStr "lower right")] ;;;
    draw "ax1.set_title" [AVal (VStr "Calibration Plots [Reliability Curve]")] ;;;
    draw "ax2.set_xlabel" [AVal (VStr "Mean Predicted Value")] ;;;
    draw "ax2.set_ylabel" [AVal (VStr "Count")] ;;;
    draw "ax2.legend" [AVal (VStr "upper center"); ANat 2] ;;;
    write_plot model "matplotlib" None "calibration" partition.

(** ** Function plot_importance *)

Definition n_top : nat := 10.

(** The body of the [try] block for one algorithm.  The ranking record is
    formatted by the code itself; the model keeps its format and its
    arguments apart. *)
Definition importance_try (model : Model) (partition algo : string) : M unit :=
  importances_ <- getitem (importances model) algo ;;
  let indices := rev (argsort importances_) in
  logger_info "Feature Ranking:" [] ;;;
  for_each (range n_top) (fun f =>
    i <- index indices f ;;
    x <- index importances_ i ;;
    logger_info "%d. Feature %d (%f)" [ANat (f + 1); ANat i; AVal (VFloat x)]) ;;;
  let title := join BSEP [algo; "Feature Importances ["; partition; "]"] in
  draw "plt.figure" [] ;;;
  draw "plt.title" [AVal (VStr title)] ;;;
  sorted <- take_indices importances_ indices ;;
  draw "plt.bar" [AIdx (range n_top); AArr (take n_top sorted);
                  AVal (VStr "b"); AVal (VStr "center")] ;;;
  draw "plt.xticks" [AIdx (range n_top); AIdx (take n_top indices)] ;;;
  draw "plt.xlim" [AVal (VInt (-1)); ANat n_top] ;;;
  let tag := join USEP [partition; algo] in
  write_plot model "matplotlib" None "feature_importance" tag.

Definition importance_algo (model : Model) (partition algo : string) : M unit :=
  logger_info "Feature Importances for Algorithm: %s" [AVal (VStr algo)] ;;;
  try_except
    (importance_try model partition algo)
    (logger_info "%s does not have feature importances" [AVal (VStr algo)]).

Definition plot_importance (model : Model) (partition : string) : M unit :=
  logger_info "Generating Feature Importance Plots" [] ;;;
  Xy <- get_partition_data model partition ;;
  for_each (algolist model) (importance_algo model partition).

(** ** Function plot_learning_curve *)

Definition learning_curve_algo (model : Model) (partition : string) (X y : Obj)
    (cv : CV) (scorer n_jobs verbosity : value)
    (algo : string) (train_sizes : list F) : M (list F) :=
  logger_info "Learning Curve for Algorithm: %s" [AVal (VStr algo)] ;;;
  estimator <- getitem (estimators model) algo ;;
  let title := join BSEP [algo; "Learning Curve ["; partition; "]"] in
  draw "plt.figure" [] ;;;
  draw "plt.title" [AVal (VStr title)] ;;;
  draw "plt.ylim" [AArr [flit "0.0"; flit "1.01"]] ;;;
  draw "plt.xlabel" [AVal (VStr "Training Examples")] ;;;
  draw "plt.ylabel" [AVal (VStr "Score")] ;;;
  let result :=
    learning_curve estimator X y train_sizes cv scorer n_jobs verbosity in
  let train_sizes := fst (fst result) in
  let train_scores := snd (fst result) in
  let test_scores := snd result in
  let train_scores_mean := mean_axis1 train_scores in
  let train_scores_std := std_axis1 train_scores in
  let test_scores_mean := mean_axis1 test_scores in
  let test_scores_std := std_axis1 test_scores in
  draw "plt.grid" [] ;;;
  draw "plt.fill_between"
    [AArr train_sizes; AArr (arr_sub train_scores_mean train_scores_std);
     AArr (arr_add train_scores_mean train_scores_std);
     AVal (VFloat (flit "0.1")); AVal (VStr "r")] ;;;
  draw "plt.fill_between"
    [AArr train_sizes; AArr (arr_sub test_scores_mean test_scores_std);
     AArr (arr_add test_scores_mean test_scores_std);
     AVal (VFloat (flit "0.1")); AVal (VStr "g")] ;;;
  draw "plt.plot" [AArr train_sizes; AArr train_scores_mean; AVal (VStr "o-");
                   AVal (VStr "r"); AVal (VStr "Training Score")] ;;;
  draw "plt.plot" [AArr train_sizes; AArr test_scores_mean; AVal (VStr "o-");
                   AVal (VStr "g"); AVal (VStr "Cross-Validation Score")] ;;;
  draw "plt.legend" [AVal (VStr "best")] ;;;
  let tag := join USEP [partition; algo] in
  write_plot model "matplotlib" None "learning_curve" tag ;;;
  ret train_sizes.

Definition plot_learning_curve (model : Model) (partition : string) : M unit :=
  logger_info "Generating Learning Curves" [] ;;;
  cv_folds <- getitem (specs model) "cv_folds" ;;
  n_jobs <- getitem (specs model) "n_jobs" ;;
  scorer <- getitem (specs model) "scorer" ;;
  seed <- getitem (specs model) "seed" ;;
  shuffle <- getitem (specs model) "shuffle" ;;
  split <- getitem (specs model) "split" ;;
  verbosity <- getitem (specs model) "verbosity" ;;
  Xy <- get_partition_data model partition ;;
  let cv := StratifiedShuffleSplit cv_folds split seed in
  let train_sizes := linspace (flit "0.1") (flit "1.0") 5 in
  for_acc (algolist model)
    (learning_curve_algo model partition (fst Xy) (snd Xy) cv scorer n_jobs verbosity)
    train_sizes ;;;
  ret tt.

(** ** Function plot_roc_curve *)

(** The variable [mean_tpr] starts as the Python float [0.0] and becomes a
    numpy array at the first [+=]. *)
Inductive ndval : Type :=
| Scalar (x : F)
| Array (a : list F).

(** [v += a]: a float is added to every element; two arrays must have the
    same shape. *)
Definition iadd (v : ndval) (a : list F) : M ndval :=
  match v with
  | Scalar x => ret (Array (map (fadd x) a))
  | Array b =>
      if Nat.eqb (length b) (length a) then ret (Array (arr_add b a))
      else raise (ValueError ["operands could not be broadcast together"])
  end.

(** [v[0] = x]. *)
Definition set_first (v : ndval) (x : F) : M ndval :=
  match v with
  | Scalar _ => raise (TypeError "'float' object does not support item assignment")
  | Array [] => raise (IndexError "index 0 is out of bounds")
  | Array (_ :: a) => ret (Array (x :: a))
  end.

(** [v[-1] = x]. *)
Definition set_last (v : ndval) (x : F) : M ndval :=
  match v with
  | Scalar _ => raise (TypeError "'float' object does not support item assignment")
  | Array [] => raise (IndexError "index -1 is out of bounds")
  | Array a => ret (Array (<[pred (length a) := x]> a))
  end.

(** [v /= n] for an integer [n]. *)
Definition idiv (v : ndval) (n : nat) : M ndval :=
  match v with
  | Scalar x =>
      if Nat.eqb n 0 then raise (ZeroDivisionError "float division by zero")
      else ret (Scalar (fdiv x (fofnat n)))
  | Array a => ret (Array (map (fun x => fdiv x (fofnat n)) a))
  end.

(** The elements of an array. *)
Definition arr_of (v : ndval) : list F :=
  match v with
  | Scalar x => [x]
  | Array a => a
  end.

(** The local variables that one cross-validation fold rebinds: the mean
    curve, the estimator (refit in place) and the counter [i]. *)
Record roc_locals : Type := {
  loc_mean_tpr : ndval;
  loc_estimator : Obj;
  loc_i : nat
}.

(** [estimator.predict_proba(X)]: an estimator without the method raises
    [AttributeError]. *)
Definition call_predict_proba (estimator X : Obj) : M Obj :=
  if has_predict_proba estimator then ret (predict_proba estimator X)
  else raise (no_attribute "estimator" "predict_proba").

Definition roc_fold (X y : Obj) (cv_folds : value) (mean_fpr : list F)
    (split : Obj * Obj) (l : roc_locals) : M roc_locals :=
  let train := fst split in
  let test := snd split in
  let fold := loc_i l + 1 in
  logger_info "Cross-Validation Fold: %d of %d" [ANat fold; AVal cv_folds] ;;;
  let estimator := fit (loc_estimator l) (rows X train) (rows y train) in
  probas_ <- call_predict_proba estimator (rows X test) ;;
  let curve := roc_curve (rows y test) (column1 probas_) in
  let fpr := fst (fst curve) in
  let tpr := snd (fst curve) in
  mean_tpr <- iadd (loc_mean_tpr l) (interp mean_fpr fpr tpr) ;;
  mean_tpr <- set_first mean_tpr f0 ;;
  let roc_auc := auc fpr tpr in
  draw "plt.plot" [AArr fpr; AArr tpr; ANat 2;
                   AVal (VStr "ROC Fold %d (area = %0.2f)"); ANat fold;
                   AVal (VFloat roc_auc)] ;;;
  ret {| loc_mean_tpr := mean_tpr; loc_estimator := estimator; loc_i := loc_i l + 1 |}.

Definition roc_algo (model : Model) (partition : string) (X y : Obj)
    (cv : CV) (cv_folds : value) (algo : string) : M unit :=
  logger_info "ROC Curve for Algorithm: %s" [AVal (VStr algo)] ;;;
  estimator <- getitem (estimators model) algo ;;
  let mean_tpr := Scalar f0 in
  let mean_fpr := linspace f0 f1 100 in
  draw "plt.figure" [] ;;;
  l <- for_acc (cv_split cv X y) (roc_fold X y cv_folds mean_fpr)
         {| loc_mean_tpr := mean_tpr; loc_estimator := estimator; loc_i := 0 |} ;;
  draw "plt.plot" [AIdx [0; 1]; AIdx [0; 1]; AVal (VStr "--"); AVal (VStr "k");
                   AVal (VStr "Luck")] ;;;
  mean_tpr <- idiv (loc_mean_tpr l) (get_n_splits cv X y) ;;
  mean_tpr <- set_last mean_tpr f1 ;;
  let mean_auc := auc mean_fpr (arr_of mean_tpr) in
  draw "plt.plot" [AArr mean_fpr; AArr (arr_of mean_tpr); AVal (VStr "g");
                   AVal (VStr "--"); AVal (VStr "Mean ROC (area = %0.2f)");
                   AVal (VFloat mean_auc); ANat 2] ;;;
  draw "plt.xlim" [AArr [flit "-0.05"; flit "1.05"]] ;;;
  draw "plt.ylim" [AArr [flit "-0.05"; flit "1.05"]] ;;;
  draw "plt.xlabel" [AVal (VStr "False Positive Rate")] ;;;
  draw "plt.ylabel" [AVal (VStr "True Positive Rate")] ;;;
  let title := join BSEP [algo; "ROC Curve ["; partition; "]"] in
  draw "plt.title" [AVal (VStr title)] ;;;
  draw "plt.legend" [AVal (VStr "lower right")] ;;;
  let tag := join USEP [partition; algo] in
  write_plot model "matplotlib" None "roc_curve" tag.

Definition plot_roc_curve (model : Model) (partition : string) : M unit :=
  logger_info "Generating ROC Curves" [] ;;;
  model_type <- getitem (specs model) "model_type" ;;
  if not_classification model_type then
    logger_info "ROC Curves are for classification only" []
  else
    cv_folds <- getitem (specs model) "cv_folds" ;;
    seed <- getitem (specs model) "seed" ;;
    shuffle <- getitem (specs model) "shuffle" ;;
    split <- getitem (specs model) "split" ;;
    Xy <- get_partition_data model partition ;;
    let cv :=
      if truthy shuffle then StratifiedShuffleSplit cv_folds split seed
      else StratifiedKFold cv_folds false seed in
    for_each (algolist model)
      (roc_algo model partition (fst Xy) (snd Xy) cv cv_folds).

(** ** Function plot_confusion_matrix *)

Definition confusion_algo (model : Model) (partition : string) (y : Obj)
    (algo : string) : M unit :=
  logger_info "Confusion Matrix for Algorithm: %s" [AVal (VStr algo)] ;;;
  y_pred <- getitem2 (preds model) algo partition ;;
  let cm := confusion_matrix y y_pred in
  logger_info "Confusion Matrix: %s" [AObj cm] ;;;
  draw "np.set_printoptions" [ANat 2] ;;;
  draw "plt.figure" [] ;;;
  draw "plt.imshow" [AObj cm; AVal (VStr "nearest"); AVal (VStr "Blues")] ;;;
  let title := join BSEP [algo; "Confusion Matrix ["; partition; "]"] in
  draw "plt.title" [AVal (VStr title)] ;;;
  draw "plt.colorbar" [] ;;;
  let y_values := unique_values y in
  let tick_marks := range (length y_values) in
  draw "plt.xticks" [AIdx tick_marks; AArr y_values; ANat 45] ;;;
  draw "plt.yticks" [AIdx tick_marks; AArr y_values] ;;;
  draw "plt.tight_layout" [] ;;;
  draw "plt.ylabel" [AVal (VStr "True Label")] ;;;
  draw "plt.xlabel" [AVal (VStr "Predicted Label")] ;;;
  let tag := join USEP [partition; algo] in
  write_plot model "matplotlib" None "confusion" tag.

Definition plot_confusion_matrix (model : Model) (partition : string) : M unit :=
  logger_info "Generating Confusion Matrices" [] ;;;
  Xy <- get_partition_data model partition ;;
  for_each (algolist model) (confusion_algo model partition (snd Xy)).

(** ** Function plot_validation_curve *)

(** Python's [min] and [max] on a list of floats. *)
Definition py_min (l : list F) : M F :=
  match l with
  | [] => raise (ValueError ["min() arg is an empty sequence"])
  | x :: l' => ret (fold_left (fun m z => if flt z m then z else m) l' x)
  end.

Definition py_max (l : list F) : M F :=
  match l with
  | [] => raise (ValueError ["max() arg is an empty sequence"])
  | x :: l' => ret (fold_left (fun m z => if flt m z then z else m) l' x)
  end.

(** [validation_curve(estimator, X, y, pname, prange, ...)].  For an empty
    range the library has no score to arrange by parameter value and raises
    [IndexError]; otherwise it returns the two grids of scores. *)
Definition call_validation_curve (estimator X y : Obj) (pname : string)
    (prange : list F) (cv_folds scorer n_jobs : value) : M (Obj * Obj) :=
  match prange with
  | [] => raise (IndexError "too many indices for array")
  | _ :: _ => ret (validation_curve estimator X y pname prange cv_folds scorer n_jobs)
  end.

Definition validation_algo (model : Model) (partition : string) (X y : Obj)
    (pname : string) (prange : list F) (cv_folds scorer n_jobs : value)
    (algo : string) : M unit :=
  let spacing := flit "0.5" in
  let alpha := flit "0.2" in
  logger_info "Algorithm: %s" [AVal (VStr algo)] ;;;
  estimator <- getitem (estimators model) algo ;;
  result <- call_validation_curve estimator X y pname prange cv_folds scorer n_jobs ;;
  let train_scores := fst result in
  let test_scores := snd result in
  let train_scores_mean := mean_axis1 train_scores in
  let train_scores_std := std_axis1 train_scores in
  let test_scores_mean := mean_axis1 test_scores in
  let test_scores_std := std_axis1 test_scores in
  let title := join BSEP [algo; "Validation Curve ["; partition; "]"] in
  draw "plt.title" [AVal (VStr title)] ;;;
  lo <- py_min prange ;;
  hi <- py_max prange ;;
  let x_min := fsub lo spacing in
  let x_max := fadd hi spacing in
  draw "plt.xlabel" [AVal (VStr pname)] ;;;
  draw "plt.xlim" [AArr [x_min; x_max]] ;;;
  draw "plt.ylabel" [AVal (VStr "Score")] ;;;
  draw "plt.ylim" [AArr [flit "0.0"; flit "1.1"]] ;;;
  draw "plt.plot" [AArr prange; AArr train_scores_mean;
                   AVal (VStr "Training Score"); AVal (VStr "r")] ;;;
  draw "plt.fill_between"
    [AArr prange; AArr (arr_sub train_scores_mean train_scores_std);
     AArr (arr_add train_scores_mean train_scores_std);
     AVal (VFloat alpha); AVal (VStr "r")] ;;;
  draw "plt.plot" [AArr prange; AArr test_scores_mean;
                   AVal (VStr "Cross-Validation Score"); AVal (VStr "g")] ;;;
  draw "plt.fill_between"
    [AArr prange; AArr (arr_sub test_scores_mean test_scores_std);
     AArr (arr_add test_scores_mean test_scores_std);
     AVal (VFloat alpha); AVal (VStr "g")] ;;;
  draw "plt.legend" [AVal (VStr "best")] ;;;
  let tag := join USEP [partition; algo] in
  write_plot model "matplotlib" None "validation_curve" tag.

Definition plot_validation_curve (model : Model) (partition pname : string)
    (prange : list F) : M unit :=
  logger_info "Generating Validation Curves" [] ;;;
  cv_folds <- getitem (specs model) "cv_folds" ;;
  n_jobs <- getitem (specs model) "n_jobs" ;;
  scorer <- getitem (specs model) "scorer" ;;
  verbosity <- getitem (specs model) "verbosity" ;;
  Xy <- get_partition_data model partition ;;
  for_each (algolist model)
    (validation_algo model partition (fst Xy) (snd Xy) pname prange
       cv_folds scorer n_jobs).

(** ** EDA plots *)

(** A pandas data frame: its columns, in order, by name. *)
Definition DataFrame : Type := list (string * Obj).

(** [data[name]]. *)
Fixpoint column_of (data : DataFrame) (name : string) : exn + Obj :=
  match data with
  | [] => inl (KeyError [name])
  | (n, c) :: data' => if String.eqb n name then inr c else column_of data' name
  end.

(** [data[names]]: the frame of the named columns, in the order of the
    names. *)
Fixpoint select (data : DataFrame) (names : list string) : exn + DataFrame :=
  match names with
  | [] => inr []
  | n :: names' =>
      match column_of data n with
      | inl e => inl e
      | inr c =>
          match select data names' with
          | inl e => inl e
          | inr df => inr ((n, c) :: df)
          end
      end
  end.

(** A computation that does not touch the world. *)
Definition lift {A} (r : exn + A) : M A := fun w => (r, w).

Definition column (data : DataFrame) (name : string) : M Obj :=
  lift (column_of data name).

Definition columns (data : DataFrame) (names : list string) : M DataFrame :=
  lift (select data names).

(** A rendering call that returns a new object of class [cls]: the object
    is named by the position of the call in the trace. *)
Definition draw_new (call : string) (args : list arg) (cls : plot_class) : M handle :=
  fun w => (inr {| ident := length (events w); class := cls |},
            emit (Draw call args) w).

(** [features.append(target)] on the list object that [features] refers to. *)
Definition list_append (features : ref) (target : string) : M unit :=
  fun w => (inr tt, store_list features (lists w features ++ [target]) w).

(** Reading the list object that a reference points to. *)
Definition deref (r : ref) : M (list string) :=
  fun w => (inr (lists w r), w).

(** The value of the keyword argument [tag] when the caller omits it. *)
Definition default_tag : string := "eda".

Definition plot_scatter (model : Model) (data : DataFrame) (features : ref)
    (target : string) (tag : string) : M unit :=
  logger_info "Generating Scatter Plot" [] ;;;
  list_append features target ;;;
  names <- deref features ;;
  df <- columns data names ;;
  draw "sns.set" [] ;;;
  sns_plot <- draw_new "sns.pairplot"
                (map (fun c => AObj (snd c)) df ++ [AVal (VStr target)])
                SeabornGrid ;;
  write_plot model "seaborn" (Some sns_plot) "scatter_plot" tag.

(** ** Function plot_facet_grid *)

(** The two quantiles of module [globs], which is not part of the sources,
    and the operations of pandas, numpy and [math] that the function uses.
    The power and [math.ceil] can fail: a zero length cannot be raised to a
    negative power, and an infinite or undefined quotient has no ceiling. *)
Variable Q1 : F.
Variable Q3 : F.
Variable fmul : F -> F -> F.
Variable series_len : Obj -> nat.              (* len(s) *)
Variable series_max : Obj -> F.                (* s.max() *)
Variable series_min : Obj -> F.                (* s.min() *)
Variable quantile : Obj -> F -> F.             (* s.quantile(q) *)
Variable inverse_cube_root : nat -> exn + F.   (* n ** (-1/3) *)
Variable ceil : F -> exn + Z.                  (* math.ceil(x) *)

(** [np.linspace(lo, hi, n)] for an integer [n] of either sign. *)
Definition linspace_int (lo hi : F) (n : Z) : M (list F) :=
  if (n <? 0)%Z then
    raise (ValueError ["Number of samples, " +:+ pretty n
                       +:+ ", must be non-negative."])
  else ret (linspace lo hi (Z.to_nat n)).






(** ** Functions plot_partial_dependence and plot_boundary *)

(** Past the partition lookup the function calls [fetch_california_housing],
    a name that the module neither defines nor imports. *)
Definition plot_partial_dependence (model : Model) (partition : string)
    (targets : list nat) : M unit :=
  logger_info "Generating Partial Dependence Plot" [] ;;;
  Xy <- get_partition_data model partition ;;
  raise (NameError "fetch_california_housing").

(** Past the gate and the partition lookup the function evaluates
    [len(classifiers)], a name that the module neither defines nor imports. *)
Definition plot_boundary (model : Model) (partition : string) (f1 f2 : nat) : M unit :=
  logger_info "Generating Boundary Plots" [] ;;;
  model_type <- getitem (specs model) "model_type" ;;
  if not_classification model_type then
    logger_info "Boundary Plots are for classification only" []
  else
    Xy <- get_partition_data model partition ;;
    raise (NameError "classifiers").

(** ** Function generate_plots *)

Definition generate_plots (model : Model) (partition : string) : M unit :=
  logger_info "Generating Plots for Partition: %s" [AVal (VStr partition)] ;;;
  calibration_plot <- getitem (specs model) "calibration_plot" ;;
  confusion_matrix <- getitem (specs model) "confusion_matrix" ;;
  importances <- getitem (specs model) "importances" ;;
  learning_curve <- getitem (specs model) "learning_curve" ;;
  roc_curve <- getitem (specs model) "roc_curve" ;;
  (if truthy calibration_plot then plot_calibration model partition else ret tt) ;;;
  (if truthy confusion_matrix then plot_confusion_matrix model partition else ret tt) ;;;
  (if truthy roc_curve then plot_roc_curve model partition else ret tt) ;;;
  if String.eqb partition "train" then
    (if truthy importances then plot_importance model partition else ret tt) ;;;
    (if truthy learning_curve then plot_learning_curve model partition else ret tt)
  else ret tt.

(** ** Function plot_candlestick *)

(** pandas and the Python built-ins that the candlestick chart uses. *)
Variable upper : string -> string.             (* str.upper *)
Variable to_datetime : Obj -> Obj.             (* pd.to_datetime *)
Variable series_add : Obj -> Obj -> Obj.       (* a + b *)
Variable series_sub : Obj -> Obj -> Obj.       (* a - b *)
Variable series_div : Obj -> nat -> Obj.       (* a / n *)
Variable series_abs : Obj -> Obj.              (* abs(a) *)
Variable series_gt : Obj -> Obj -> Obj.        (* a > b *)
Variable series_mask : Obj -> Obj -> Obj.      (* a[mask] *)
Variable fpi : F.                              (* math.pi *)

(** [df.name]: the column of that name, read as an attribute. *)
Definition attr (df : DataFrame) (name : string) : M Obj :=
  match column_of df name with
  | inr c => ret c
  | inl _ =>
      raise (AttributeError
               ("'DataFrame' object has no attribute '" +:+ name +:+ "'"))
  end.

(** [df[name] = c] on a frame that has the column: the column is replaced
    where it stands. *)
Fixpoint set_column (df : DataFrame) (name : string) (c : Obj) : DataFrame :=
  match df with
  | [] => []
  | (n, c0) :: df' =>
      if String.eqb n name then (n, c) :: df' else (n, c0) :: set_column df' name c
  end.

(** The chart, once the date column is converted: from here on the frame
    is only read. *)
Definition candlestick_chart (df : DataFrame) (symbol : string)
    (model : option Model) : M unit :=
  open_ <- attr df "open" ;;
  close_ <- attr df "close" ;;
  let mids := series_div (series_add open_ close_) 2 in
  close_ <- attr df "close" ;;
  open_ <- attr df "open" ;;
  let spans := series_abs (series_sub close_ open_) in
  close_ <- attr df "close" ;;
  open_ <- attr df "open" ;;
  let inc := series_gt close_ open_ in
  open_ <- attr df "open" ;;
  close_ <- attr df "close" ;;
  let dec := series_gt open_ close_ in
  let w := VInt (12 * 60 * 60 * 1000) in
  let TOOLS := "pan, wheel_zoom, box_zoom, reset, save" in
  p <- draw_new "figure" [AVal (VStr "datetime"); AVal (VStr TOOLS);
                          ANat 1000; AVal (VStr "left")] BokehFigure ;;
  draw "p.title" [AVal (VStr (join BSEP [upper symbol; "Candlestick"]))] ;;;
  draw "p.xaxis.major_label_orientation" [AVal (VFloat (fdiv fpi (fofnat 4)))] ;;;
  draw "p.grid.grid_line_alpha" [AVal (VFloat (flit "0.3"))] ;;;
  date1 <- attr df "date" ;;
  high <- attr df "high" ;;
  date2 <- attr df "date" ;;
  low <- attr df "low" ;;
  draw "p.segment" [AObj date1; AObj high; AObj date2; AObj low;
                    AVal (VStr "black")] ;;;
  date <- attr df "date" ;;
  draw "p.rect" [AObj (series_mask date inc); AObj (series_mask mids inc);
                 AVal w; AObj (series_mask spans inc);
                 AVal (VStr "#D5E1DD"); AVal (VStr "black")] ;;;
  date <- attr df "date" ;;
  draw "p.rect" [AObj (series_mask date dec); AObj (series_mask mids dec);
                 AVal w; AObj (series_mask spans dec);
                 AVal (VStr "#F2583E"); AVal (VStr "black")] ;;;
  match model with
  | Some model => write_plot model "bokeh" (Some p) "candlestick_chart" symbol
  | None => draw "show" [ANat (ident p)]
  end.

(** The function assigns to a column of its argument and returns nothing:
    the embedding returns, with the outcome and the world, the frame as the
    call leaves it. *)
Definition plot_candlestick (df : DataFrame) (symbol : string) (cols : list string)
    (model : option Model) (w : world) : (exn + unit) * DataFrame * world :=
  match column_of df "date" with
  | inl e => (inl e, df, w)
  | inr date =>
      let df' := set_column df "date" (to_datetime date) in
      let r := candlestick_chart df' symbol model w in
      (fst r, df', snd r)
  end.

(** * Vocabulary of the properties *)

Definition not_save (e : event) : Prop :=
  match e with Save _ _ _ => False | _ => True end.

(** [emits P c]: whatever the world and whatever the outcome, [c] only
    appends events, every event it appends satisfies [P], and the list
    objects stay as they are. *)
Definition emits {A} (P : event -> Prop) (c : M A) : Prop :=
  forall w, exists t,
    events (snd (c w)) = events w ++ t /\ Forall P t /\
    lists (snd (c w)) = lists w.

(** A computation that leaves the world as it is. *)
Definition silent {A} (c : M A) : Prop := forall w, snd (c w) = w.

(** The path of the spec: [<base_dir>/<project>/<category>_<tag>.png]. *)
Definition output_path (base_dir project category tag : string) : string :=
  base_dir +:+ "/" +:+ project +:+ "/" +:+ category +:+ "_" +:+ tag +:+ ".png".

(** The three records that a successful write through matplotlib leaves. *)
Definition written (path : string) (w : world) : world :=
  emit (Save "matplotlib" None path)
    (emit (Draw "plt.tight_layout" [])
       (emit (Log "Writing plot to %s" [AVal (VStr path)]) w)).

(** [only_logs S e]: if [e] is a log record, its format is one of [S]. *)
Definition only_logs (S : list string) (e : event) : Prop :=
  match e with
  | Log fmt _ => In fmt S
  | _ => True
  end.

Definition calibration_logs : list string :=
  ["Generating Calibration Plot"; "Calibration plot is for classification only";
   "Calibration for Algorithm: %s"; "Writing plot to %s"].

Definition importance_logs : list string :=
  ["Generating Feature Importance Plots"; "Feature Importances for Algorithm: %s";
   "Feature Ranking:"; "%d. Feature %d (%f)";
   "%s does not have feature importances"; "Writing plot to %s"].

Definition learning_logs : list string :=
  ["Generating Learning Curves"; "Learning Curve for Algorithm: %s";
   "Writing plot to %s"].

Definition roc_logs : list string :=
  ["Generating ROC Curves"; "ROC Curves are for classification only";
   "ROC Curve for Algorithm: %s"; "Cross-Validation Fold: %d of %d";
   "Writing plot to %s"].

Definition confusion_logs : list string :=
  ["Generating Confusion Matrices"; "Confusion Matrix for Algorithm: %s";
   "Confusion Matrix: %s"; "Writing plot to %s"].

(** [logged_noop r w records]: the run [r] started in [w] returned
    normally, added the log records [records] and nothing else. *)
Definition logged_noop (r : (exn + unit) * world) (w : world)
    (records : list string) : Prop :=
  fst r = inr tt /\
  logged (events (snd r)) = logged (events w) ++ records /\
  drawn (events (snd r)) = drawn (events w) /\
  saved (events (snd r)) = saved (events w) /\
  lists (snd r) = lists w.

(** What [plot_scatter] does once the target is appended and the list is
    read back. *)
Definition scatter_rest (model : Model) (data : DataFrame) (target tag : string)
    (names : list string) : M unit :=
  df <- columns data names ;;
  draw "sns.set" [] ;;;
  sns_plot <- draw_new "sns.pairplot"
                (map (fun c => AObj (snd c)) df ++ [AVal (VStr target)])
                SeabornGrid ;;
  write_plot model "seaborn" (Some sns_plot) "scatter_plot" tag.

(** The events that a run from [w] to [w'] added. *)
Definition new_events (w w' : world) : list event :=
  drop (length (events w)) (events w').

(** Every plot routine opens with a log record of its own; a routine was
    invoked during a run exactly when that record was added. *)
Definition invoked (entry : string) (w w' : world) : Prop :=
  In entry (logged (new_events w w')).

(** A flag of the configuration is present and true. *)
Definition enabled (model : Model) (key : string) : Prop :=
  exists v, specs model !! key = Some v /\ truthy v = true.

(** The entry records may only appear under their gates. *)
Definition gate (model : Model) (partition : string) (e : event) : Prop :=
  match e with
  | Log fmt _ =>
      (fmt = "Generating Calibration Plot" -> enabled model "calibration_plot") /\
      (fmt = "Generating Confusion Matrices" -> enabled model "confusion_matrix") /\
      (fmt = "Generating ROC Curves" -> enabled model "roc_curve") /\
      (fmt = "Generating Feature Importance Plots" ->
       enabled model "importances" /\ partition = "train") /\
      (fmt = "Generating Learning Curves" ->
       enabled model "learning_curve" /\ partition = "train")
  | _ => True
  end.

(** [announces entry c]: the first thing [c] does is to log [entry]. *)
Definition announces (entry : string) (c : M unit) : Prop :=
  forall w, exists t, events (snd (c w)) = events w ++ Log entry [] :: t.

(** [writes fs c]: when [c] returns normally, the files it has written
    are exactly [fs], in that order. *)
Definition writes {A} (fs : list string) (c : M A) : Prop :=
  forall w a, fst (c w) = inr a ->
    saved (events (snd (c w))) = saved (events w) ++ fs.

(** The tag of a per-algorithm plot: [partition + "_" + algorithm]. *)
Definition algo_tag (partition algo : string) : string :=
  partition +:+ "_" +:+ algo.

(** The file of one algorithm for a plot category. *)
Definition algo_file (b p category partition algo : string) : string :=
  output_path b p category (algo_tag partition algo).

(** [fails_clean c]: when [c] raises, it has written no file. *)
Definition fails_clean {A} (c : M A) : Prop :=
  forall w e, fst (c w) = inl e ->
    saved (events (snd (c w))) = saved (events w).

(** An algorithm gets its plot when its importance vector is stored and
    has at least [n_top] entries. *)
Definition has_plot (model : Model) (algo : string) : bool :=
  match importances model !! algo with
  | Some v => (n_top <=? length v)%nat
  | None => false
  end.

(** The mean curve in the words of the spec.  Each fold has a ROC curve
    [(fpr, tpr)]; the curve is interpolated on the grid; the interpolated
    rates are summed over the folds, starting from [0.0]; the sum is
    divided by the number of folds; the first point is forced to [0.0] and
    the last to [1.0]. *)
Definition fold_sum (grid : list F) (curves : list (list F * list F)) : list F :=
  fold_left (fun acc c => arr_add acc (interp grid (fst c) (snd c)))
    curves (map (fun _ => f0) grid).



(** The ROC curve of each fold: the estimator is refit on the training
    rows of the fold and scored on its test rows; the refit estimator is
    the one that the next fold starts from. *)
Fixpoint fold_curves (X y : Obj) (est : Obj) (splits : list (Obj * Obj))
    : list (list F * list F) :=
  match splits with
  | [] => []
  | sp :: splits' =>
      let est' := fit est (rows X (fst sp)) (rows y (fst sp)) in
      let curve := roc_curve (rows y (snd sp))
                     (column1 (predict_proba est' (rows X (snd sp)))) in
      (fst (fst curve), snd (fst curve)) :: fold_curves X y est' splits'
  end.

(** The rendering call that draws the mean curve [mean] over [grid]. *)
Definition mean_roc_plot (grid mean : list F) : event :=
  Draw "plt.plot"
    [AArr grid; AArr mean; AVal (VStr "g"); AVal (VStr "--");
     AVal (VStr "Mean ROC (area = %0.2f)"); AVal (VFloat (auc grid mean)); ANat 2].

(** The mean curve as the code leaves it: the sum with its first point at
    [0.0], divided by [n], then its last point set to [1.0]. *)
Definition code_mean (grid : list F) (curves : list (list F * list F)) (n : nat)
    : list F :=
  let a := map (fun x => fdiv x (fofnat n)) (<[0 := f0]> (fold_sum grid curves)) in
  <[pred (length a) := f1]> a.

(** Log records. *)
Definition is_log (e : event) : Prop :=
  match e with Log _ _ => True | _ => False end.

(** [always_fails c]: [c] raises, whatever the world. *)
Definition always_fails {A} (c : M A) : Prop :=
  forall w, exists e, fst (c w) = inl e.

(** The five flags that [generate_plots] reads, in the order it reads
    them. *)
Definition plot_flags : list string :=
  ["calibration_plot"; "confusion_matrix"; "importances"; "learning_curve";
   "roc_curve"].

(** A flag of the configuration, read as [generate_plots] reads it. *)
Definition flag (model : Model) (key : string) : bool :=
  match specs model !! key with
  | Some v => truthy v
  | None => false
  end.

(** The model type is [ModelType.classification]. *)
Definition is_classifier (model : Model) : bool :=
  match specs model !! "model_type" with
  | Some v => negb (not_classification v)
  | None => false
  end.

(** The files of a complete run of [generate_plots], in the order in which
    they are written. *)
Definition generated_files (model : Model) (b p partition : string) : list string :=
  (if flag model "calibration_plot" && is_classifier model
   then [output_path b p "calibration" partition] else [])
  ++ (if flag model "confusion_matrix"
      then map (algo_file b p "confusion" partition) (algolist model) else [])
  ++ (if flag model "roc_curve" && is_classifier model
      then map (algo_file b p "roc_curve" partition) (algolist model) else [])
  ++ (if String.eqb partition "train"
      then (if flag model "importances"
            then map (algo_file b p "feature_importance" partition)
                   (List.filter (has_plot model) (algolist model))
            else [])
           ++ (if flag model "learning_curve"
               then map (algo_file b p "learning_curve" partition) (algolist model)
               else [])
      else []).


(** Rendering calls other than [plt.figure]. *)
Definition no_new_figure (e : event) : Prop :=
  match e with
  | Draw call _ => call <> "plt.figure"
  | _ => True
  end.

(** The rendering call that draws the training scores of a learning
    curve, given what [learning_curve] returned. *)
Definition training_score_plot (result : list F * Obj * Obj) : event :=
  Draw "plt.plot"
    [AArr (fst (fst result)); AArr (mean_axis1 (snd (fst result)));
     AVal (VStr "o-"); AVal (VStr "r"); AVal (VStr "Training Score")].

(** The columns that the candlestick chart reads. *)
Definition candlestick_columns : list string :=
  ["date"; "open"; "close"; "high"; "low"].

(** The object has the method that the backend calls on it. *)
Definition saves_through (vizlib : string) (h : handle) : Prop :=
  (vizlib = "seaborn" /\ has_savefig h = true) \/
  (vizlib = "bokeh" /\ has_save h = true).

(** A routine under its gate. *)
Definition gated (on : bool) (c : M unit) : M unit :=
  if on then c else ret tt.

(** The dispatch of [generate_plots] in the words of the claim: the
    calibration, confusion-matrix and ROC routines each under its flag
    alone, then the feature-importance and learning-curve routines each
    under its flag and the test [partition == 'train'], every routine
    started in the world that the one before it left. *)
Definition dispatch (model : Model) (partition : string) : M unit :=
  let train := String.eqb partition "train" in
  gated (flag model "calibration_plot") (plot_calibration model partition) ;;;
  gated (flag model "confusion_matrix") (plot_confusion_matrix model partition) ;;;
  gated (flag model "roc_curve") (plot_roc_curve model partition) ;;;
  gated (train && flag model "importances") (plot_importance model partition) ;;;
  gated (train && flag model "learning_curve") (plot_learning_curve model partition).




(** * Properties *)

(** ** Running computations *)

Lemma bind_ok {A B} (c : M A) (k : A -> M B) (w w' : world) (a : A) :
  c w = (inr a, w') -> bind c k w = k a w'.
Proof. intros H. unfold bind. rewrite H. reflexivity. Qed.

Lemma bind_err {A B} (c : M A) (k : A -> M B) (w w' : world) (e : exn) :
  c w = (inl e, w') -> bind c k w = (inl e, w').
Proof. intros H. unfold bind. rewrite H. reflexivity. Qed.

Lemma getitem_some {V} (d : gmap string V) (key : string) (v : V) (w : world) :
  d !! key = Some v -> getitem d key w = (inr v, w).
Proof. intros H. unfold getitem. rewrite H. reflexivity. Qed.

Lemma getitem_none {V} (d : gmap string V) (key : string) (w : world) :
  d !! key = None -> getitem d key w = (inl (KeyError [key]), w).
Proof. intros H. unfold getitem. rewrite H. reflexivity. Qed.

Lemma getitem2_some {V} (d : gmap (string * string) V) (a b : string) (v : V)
    (w : world) :
  d !! (a, b) = Some v -> getitem2 d a b w = (inr v, w).
Proof. intros H. unfold getitem2. rewrite H. reflexivity. Qed.

Lemma bind_logger_info {B} fmt args (k : unit -> M B) (w : world) :
  bind (logger_info fmt args) k w = k tt (emit (Log fmt args) w).
Proof. reflexivity. Qed.

Lemma bind_draw {B} call args (k : unit -> M B) (w : world) :
  bind (draw call args) k w = k tt (emit (Draw call args) w).
Proof. reflexivity. Qed.

Lemma eqb_ne (a b : string) : a <> b -> String.eqb a b = false.
Proof. apply String.eqb_neq. Qed.

(** ** Traces *)

Lemma saved_app (t u : list event) : saved (t ++ u) = saved t ++ saved u.
Proof.
  induction t as [|e t IH]; [reflexivity|].
  destruct e; simpl; rewrite IH; reflexivity.
Qed.

Lemma drawn_app (t u : list event) : drawn (t ++ u) = drawn t ++ drawn u.
Proof.
  induction t as [|e t IH]; [reflexivity|].
  destruct e; simpl; rewrite IH; reflexivity.
Qed.

Lemma logged_app (t u : list event) : logged (t ++ u) = logged t ++ logged u.
Proof.
  induction t as [|e t IH]; [reflexivity|].
  destruct e; simpl; rewrite IH; reflexivity.
Qed.

Lemma saved_not_save (t : list event) : Forall not_save t -> saved t = [].
Proof.
  induction 1 as [|e t He _ IH]; [reflexivity|].
  destruct e; simpl in *; auto; contradiction.
Qed.

(** ** What a computation can add to the trace *)

Lemma emits_silent {A} (P : event -> Prop) (c : M A) : silent c -> emits P c.
Proof.
  intros H w. exists []. rewrite H, app_nil_r. repeat split; constructor.
Qed.

Lemma emits_bind {A B} (P : event -> Prop) (c : M A) (k : A -> M B) :
  emits P c -> (forall a, emits P (k a)) -> emits P (bind c k).
Proof.
  intros Hc Hk w. unfold bind.
  destruct (Hc w) as (t & Ht & HP & HL).
  destruct (c w) as [[e|a] w1]; simpl in *.
  - exists t. auto.
  - destruct (Hk a w1) as (u & Hu & HQ & HL').
    exists (t ++ u). rewrite Hu, Ht, app_assoc, HL', HL.
    repeat split. apply Forall_app; auto.
Qed.

Lemma emits_try_except {A} (P : event -> Prop) (body handler : M A) :
  emits P body -> emits P handler -> emits P (try_except body handler).
Proof.
  intros Hb Hh w. unfold try_except.
  destruct (Hb w) as (t & Ht & HP & HL).
  destruct (body w) as [[e|a] w1]; simpl in *.
  - destruct (Hh w1) as (u & Hu & HQ & HL').
    exists (t ++ u). rewrite Hu, Ht, app_assoc, HL', HL.
    repeat split. apply Forall_app; auto.
  - exists t. auto.
Qed.

Lemma emits_for_each {A} (P : event -> Prop) (l : list A) (body : A -> M unit) :
  (forall x, emits P (body x)) -> emits P (for_each l body).
Proof.
  intros Hb. induction l as [|x l IH]; simpl.
  - apply emits_silent. intros w. reflexivity.
  - apply emits_bind; auto.
Qed.

Lemma emits_for_acc {A S} (P : event -> Prop) (l : list A) (body : A -> S -> M S) :
  (forall x s, emits P (body x s)) -> forall s, emits P (for_acc l body s).
Proof.
  intros Hb. induction l as [|x l IH]; intros s; simpl.
  - apply emits_silent. intros w. reflexivity.
  - apply emits_bind; auto.
Qed.

Lemma emits_event {A} (P : event -> Prop) (e : event) (a : A) :
  P e -> emits P (fun w => (inr a, emit e w)).
Proof.
  intros He w. exists [e]. repeat split. constructor; [exact He | constructor].
Qed.

Lemma emits_logger_info (P : event -> Prop) fmt args :
  P (Log fmt args) -> emits P (logger_info fmt args).
Proof. apply emits_event. Qed.

Lemma emits_draw (P : event -> Prop) call args :
  P (Draw call args) -> emits P (draw call args).
Proof. apply emits_event. Qed.

Lemma emits_save (P : event -> Prop) vizlib plot path :
  P (Save vizlib plot path) -> emits P (save vizlib plot path).
Proof. apply emits_event. Qed.

Lemma emits_draw_new (P : event -> Prop) call args cls :
  P (Draw call args) -> emits P (draw_new call args cls).
Proof.
  intros He w. exists [Draw call args]. repeat split.
  constructor; [exact He | constructor].
Qed.

Lemma silent_ret {A} (a : A) : silent (ret a).
Proof. intros w. reflexivity. Qed.

Lemma silent_raise {A} (e : exn) : silent (@raise A e).
Proof. intros w. reflexivity. Qed.

Lemma silent_bind {A B} (c : M A) (k : A -> M B) :
  silent c -> (forall a, silent (k a)) -> silent (bind c k).
Proof.
  intros Hc Hk w. unfold bind. specialize (Hc w).
  destruct (c w) as [[e|a] w1]; simpl in *; subst; [reflexivity | apply Hk].
Qed.

Lemma silent_getitem {V} (d : gmap string V) key : silent (getitem d key).
Proof. intros w. unfold getitem. destruct (d !! key); reflexivity. Qed.

Lemma silent_getitem2 {V} (d : gmap (string * string) V) a b :
  silent (getitem2 d a b).
Proof. intros w. unfold getitem2. destruct (d !! (a, b)); reflexivity. Qed.

Lemma silent_py_join sep items : silent (py_join sep items).
Proof. intros w. unfold py_join. destruct (strings_of items); reflexivity. Qed.

Lemma silent_index {A} (a : list A) n : silent (index a n).
Proof. intros w. unfold index. destruct (a !! n); reflexivity. Qed.

Lemma silent_take_indices {A} (a : list A) idx : silent (take_indices a idx).
Proof.
  induction idx as [|n idx IH]; simpl; [apply silent_ret|].
  apply silent_bind; [apply silent_index|]. intros x.
  apply silent_bind; [exact IH|]. intros xs. apply silent_ret.
Qed.

Lemma silent_get_partition_data model partition :
  silent (get_partition_data model partition).
Proof.
  intros w. unfold get_partition_data.
  destruct (String.eqb partition "train"); [reflexivity|].
  destruct (String.eqb partition "test"); reflexivity.
Qed.

Lemma silent_lift {A} (r : exn + A) : silent (lift r).
Proof. intros w. reflexivity. Qed.

Lemma silent_column data name : silent (column data name).
Proof. apply silent_lift. Qed.

Lemma silent_columns data names : silent (columns data names).
Proof. apply silent_lift. Qed.

Lemma silent_iadd v a : silent (iadd v a).
Proof.
  intros w. destruct v as [x|b]; simpl; [reflexivity|].
  destruct (Nat.eqb (length b) (length a)); reflexivity.
Qed.

Lemma silent_set_first v x : silent (set_first v x).
Proof. intros w. destruct v as [y|[|y a]]; reflexivity. Qed.

Lemma silent_set_last v x : silent (set_last v x).
Proof. intros w. destruct v as [y|[|y a]]; reflexivity. Qed.

Lemma silent_idiv v n : silent (idiv v n).
Proof.
  intros w. destruct v as [y|a]; simpl; [|reflexivity].
  destruct (Nat.eqb n 0); reflexivity.
Qed.

Lemma silent_py_min l : silent (py_min l).
Proof. intros w. destruct l; reflexivity. Qed.

Lemma silent_py_max l : silent (py_max l).
Proof. intros w. destruct l; reflexivity. Qed.

(** Proof steps for [silent] and [emits] goals: follow the shape of the
    code; [tac] settles the side condition on each emitted event. *)
Lemma silent_call_predict_proba estimator X :
  silent (call_predict_proba estimator X).
Proof.
  intros w. unfold call_predict_proba.
  destruct (has_predict_proba estimator); reflexivity.
Qed.

Lemma silent_call_validation_curve estimator X y pname prange cv_folds scorer n_jobs :
  silent (call_validation_curve estimator X y pname prange cv_folds scorer n_jobs).
Proof. intros w. destruct prange; reflexivity. Qed.

Lemma silent_linspace_int lo hi n : silent (linspace_int lo hi n).
Proof. intros w. unfold linspace_int. destruct (n <? 0)%Z; reflexivity. Qed.

Ltac silent_tac :=
  repeat first
    [ apply silent_ret | apply silent_raise
    | apply silent_lift | apply silent_call_predict_proba
    | apply silent_call_validation_curve | apply silent_linspace_int
    | apply silent_getitem | apply silent_getitem2 | apply silent_py_join
    | apply silent_index | apply silent_take_indices
    | apply silent_get_partition_data
    | apply silent_column | apply silent_columns
    | apply silent_iadd | apply silent_set_first | apply silent_set_last
    | apply silent_idiv | apply silent_py_min | apply silent_py_max
    | apply silent_bind; [|intros] ].

Ltac emits_core tac :=
  repeat match goal with
    | |- emits _ (logger_info _ _) => apply emits_logger_info; tac
    | |- emits _ (draw _ _) => apply emits_draw; tac
    | |- emits _ (save _ _ _) => apply emits_save; tac
    | |- emits _ (draw_new _ _ _) => apply emits_draw_new; tac
    | |- emits _ (for_each _ _) => apply emits_for_each; intros
    | |- emits _ (for_acc _ _ _) => apply emits_for_acc; intros
    | |- emits _ (try_except _ _) => apply emits_try_except
    | |- emits _ (bind _ _) => apply emits_bind; [|intros]
    | |- emits _ (if ?b then _ else _) => destruct b
    | |- emits _ (match ?o with _ => _ end) => destruct o
    | |- emits _ _ => solve [apply emits_silent; silent_tac]
    end.

(** ** The writer *)

Lemma join_path (b p plot_type tag : string) :
  join SSEP [b; p; join "" [plot_type; USEP; tag; ".png"]]
  = output_path b p plot_type tag.
Proof.
  unfold join, output_path, SSEP, USEP. simpl.
  destruct tag; reflexivity.
Qed.

Lemma write_plot_matplotlib model plot plot_type tag b p w :
  specs model !! "base_dir" = Some (VStr b) ->
  specs model !! "project" = Some (VStr p) ->
  write_plot model "matplotlib" plot plot_type tag w
  = (inr tt, written (output_path b p plot_type tag) w).
Proof.
  intros Hb Hp. unfold write_plot, bind, getitem, py_join.
  rewrite Hb, Hp. cbn [strings_of ret]. rewrite join_path. reflexivity.
Qed.

Lemma write_plot_handle model vizlib h plot_type tag b p w :
  specs model !! "base_dir" = Some (VStr b) ->
  specs model !! "project" = Some (VStr p) ->
  saves_through vizlib h ->
  write_plot model vizlib (Some h) plot_type tag w
  = (inr tt,
     emit (Save vizlib (Some h) (output_path b p plot_type tag))
       (emit (Log "Writing plot to %s"
                [AVal (VStr (output_path b p plot_type tag))]) w)).
Proof.
  intros Hb Hp Hv. unfold write_plot, bind, getitem, py_join.
  rewrite Hb, Hp. cbn [strings_of ret]. rewrite join_path.
  destruct Hv as [[-> Hm] | [-> Hm]]; cbn [String.eqb Ascii.eqb Bool.eqb];
    rewrite Hm; reflexivity.
Qed.

(** The object lacks the method that the backend calls on it: the path is
    logged, then the attribute lookup fails. *)
Lemma write_plot_no_method model vizlib h plot_type tag b p w :
  specs model !! "base_dir" = Some (VStr b) ->
  specs model !! "project" = Some (VStr p) ->
  (vizlib = "seaborn" /\ has_savefig h = false) \/
  (vizlib = "bokeh" /\ has_save h = false) ->
  exists msg,
    write_plot model vizlib (Some h) plot_type tag w
    = (inl (AttributeError msg),
       emit (Log "Writing plot to %s"
               [AVal (VStr (output_path b p plot_type tag))]) w).
Proof.
  intros Hb Hp Hv. unfold write_plot, bind, getitem, py_join.
  rewrite Hb, Hp. cbn [strings_of ret]. rewrite join_path.
  destruct Hv as [[-> Hm] | [-> Hm]]; cbn [String.eqb Ascii.eqb Bool.eqb];
    rewrite Hm; eexists; reflexivity.
Qed.

Lemma write_plot_none model vizlib plot_type tag b p w :
  specs model !! "base_dir" = Some (VStr b) ->
  specs model !! "project" = Some (VStr p) ->
  vizlib = "seaborn" \/ vizlib = "bokeh" ->
  exists msg,
    write_plot model vizlib None plot_type tag w
    = (inl (AttributeError msg),
       emit (Log "Writing plot to %s"
               [AVal (VStr (output_path b p plot_type tag))]) w).
Proof.
  intros Hb Hp Hv. unfold write_plot, bind, getitem, py_join.
  rewrite Hb, Hp. cbn [strings_of ret]. rewrite join_path.
  destruct Hv as [-> | ->]; eexists; reflexivity.
Qed.

Lemma emits_write_plot (P : event -> Prop) model vizlib plot plot_type tag :
  (forall fmt args, P (Log fmt args)) ->
  (forall call args, P (Draw call args)) ->
  (forall v h path, P (Save v h path)) ->
  emits P (write_plot model vizlib plot plot_type tag).
Proof.
  intros HL HD HS. unfold write_plot. emits_core ltac:(auto).
Qed.

Lemma write_plot_unsupported_no_save model vizlib plot plot_type tag :
  vizlib <> "matplotlib" -> vizlib <> "seaborn" -> vizlib <> "bokeh" ->
  emits not_save (write_plot model vizlib plot plot_type tag).
Proof.
  intros H1 H2 H3. unfold write_plot.
  rewrite (eqb_ne _ _ H1), (eqb_ne _ _ H2), (eqb_ne _ _ H3).
  emits_core ltac:(exact I).
Qed.

Lemma write_plot_unsupported_fails model vizlib plot plot_type tag w :
  vizlib <> "matplotlib" -> vizlib <> "seaborn" -> vizlib <> "bokeh" ->
  exists e, fst (write_plot model vizlib plot plot_type tag w) = inl e.
Proof.
  intros H1 H2 H3. unfold write_plot, bind, getitem, py_join.
  rewrite (eqb_ne _ _ H1), (eqb_ne _ _ H2), (eqb_ne _ _ H3).
  destruct (specs model !! "base_dir") as [bd|]; [|eexists; reflexivity].
  destruct (specs model !! "project") as [pr|]; [|eexists; reflexivity].
  cbn [ret raise].
  destruct (strings_of _); cbn [ret raise]; [|eexists; reflexivity].
  destruct (String.eqb vizlib "plotly"); eexists; reflexivity.
Qed.

(** C1. A backend other than matplotlib, seaborn and bokeh makes
    [write_plot] fail without writing a file, whatever the model; when the
    configuration supplies the two path components the exception is the
    [ValueError] that names the offending value: "Unsupported ..." for
    the known but unimplemented [plotly], "Unrecognized ..." for any other
    value. *)
Theorem write_plot_unsupported_backend
    model vizlib plot plot_type tag w :
  vizlib <> "matplotlib" -> vizlib <> "seaborn" -> vizlib <> "bokeh" ->
  let r := write_plot model vizlib plot plot_type tag w in
  (exists e, fst r = inl e) /\
  saved (events (snd r)) = saved (events w) /\
  (forall b p,
     specs model !! "base_dir" = Some (VStr b) ->
     specs model !! "project" = Some (VStr p) ->
     (vizlib = "plotly" ->
      fst r = inl (ValueError ["Unsupported data visualization library: %s"; "plotly"])) /\
     (vizlib <> "plotly" ->
      fst r = inl (ValueError ["Unrecognized data visualization library: %s"; vizlib]))).
Proof.
  intros H1 H2 H3 r. subst r. split; [|split].
  - apply write_plot_unsupported_fails; assumption.
  - destruct (write_plot_unsupported_no_save model vizlib plot plot_type tag H1 H2 H3 w)
      as (t & Ht & Hns & _).
    rewrite Ht, saved_app, (saved_not_save _ Hns), app_nil_r. reflexivity.
  - intros b p Hb Hp. unfold write_plot, bind, getitem, py_join.
    rewrite Hb, Hp, (eqb_ne _ _ H1), (eqb_ne _ _ H2), (eqb_ne _ _ H3).
    cbn [strings_of ret logger_info fst].
    split.
    + intros ->. reflexivity.
    + intros H4. rewrite (eqb_ne _ _ H4). reflexivity.
Qed.

(** C2. With a configuration that supplies [base_dir] and [project],
    every supported backend computes the same output path,
    [<base_dir>/<project>/<category>_<tag>.png]: the plain concatenation of
    the four strings with the fixed separators, [category] and [tag]
    entering it as they are.  The path is logged before the backend is
    looked at; the call returns exactly when the backend finds its save
    method (always for matplotlib, when the plot object has [savefig] for
    seaborn, [save] for bokeh), and then the one file written is at that
    path; otherwise no file is written. *)
Theorem write_plot_path model vizlib plot plot_type tag b p w :
  specs model !! "base_dir" = Some (VStr b) ->
  specs model !! "project" = Some (VStr p) ->
  vizlib = "matplotlib" \/ vizlib = "seaborn" \/ vizlib = "bokeh" ->
  let r := write_plot model vizlib plot plot_type tag w in
  let path := b +:+ "/" +:+ p +:+ "/" +:+ plot_type +:+ "_" +:+ tag +:+ ".png" in
  (exists t,
     events (snd r)
     = events w ++ Log "Writing plot to %s" [AVal (VStr path)] :: t) /\
  (vizlib = "matplotlib" \/ (exists h, plot = Some h /\ saves_through vizlib h) ->
   fst r = inr tt) /\
  (fst r = inr tt -> saved (events (snd r)) = saved (events w) ++ [path]) /\
  (fst r <> inr tt -> saved (events (snd r)) = saved (events w)).
Proof.
  intros Hb Hp Hv r path. subst r.
  assert (Hpath : output_path b p plot_type tag = path) by reflexivity.
  assert (Hsaved : forall v h,
            saved (events (emit (Save v h path)
                             (emit (Log "Writing plot to %s" [AVal (VStr path)]) w)))
            = saved (events w) ++ [path]).
  { intros v h. cbn [emit events]. rewrite !saved_app. simpl.
    rewrite app_nil_r. reflexivity. }
  assert (Hlogged :
            saved (events (emit (Log "Writing plot to %s" [AVal (VStr path)]) w))
            = saved (events w)).
  { cbn [emit events]. rewrite saved_app. simpl. apply app_nil_r. }
  destruct Hv as [-> | Hv].
  - rewrite (write_plot_matplotlib _ _ _ _ _ _ _ Hb Hp), Hpath.
    unfold written. cbn [fst snd]. repeat split.
    + eexists. cbn [emit events]. rewrite <- !app_assoc. reflexivity.
    + intros _. cbn [emit events]. rewrite !saved_app. simpl.
      rewrite !app_nil_r. reflexivity.
    + intros H. contradiction H. reflexivity.
  - destruct plot as [h|].
    + assert (Hm : saves_through vizlib h \/
                   ((vizlib = "seaborn" /\ has_savefig h = false) \/
                    (vizlib = "bokeh" /\ has_save h = false))).
      { unfold saves_through.
        destruct Hv as [-> | ->];
          [destruct (has_savefig h) | destruct (has_save h)]; auto. }
      destruct Hm as [Hm | Hm].
      * rewrite (write_plot_handle _ _ _ _ _ _ _ _ Hb Hp Hm), Hpath.
        cbn [fst snd]. repeat split.
        -- eexists. cbn [emit events]. rewrite <- !app_assoc. reflexivity.
        -- intros _. apply Hsaved.
        -- intros H. contradiction H. reflexivity.
      * destruct (write_plot_no_method model vizlib h plot_type tag b p w Hb Hp Hm)
          as (msg & E).
        rewrite E, Hpath. cbn [fst snd]. repeat split.
        -- exists []. reflexivity.
        -- intros [H | (h' & Hh & Hs)]; [|injection Hh as <-].
           ++ destruct Hv; subst vizlib; discriminate.
           ++ destruct Hm as [[-> Hf] | [-> Hf]];
                destruct Hs as [[Hs Ht] | [Hs Ht]]; congruence.
        -- discriminate.
        -- intros _. apply Hlogged.
    + destruct (write_plot_none model vizlib plot_type tag b p w Hb Hp Hv)
        as (msg & E).
      rewrite E, Hpath. cbn [fst snd]. repeat split.
      * exists []. reflexivity.
      * intros [H | (h' & Hh & _)]; [|discriminate].
        destruct Hv; subst vizlib; discriminate.
      * discriminate.
      * intros _. apply Hlogged.
Qed.

(** ** The partition lookup *)

(** C3. [get_partition_data] returns the stored training pair for
    ['train'] and the stored test pair for ['test']; for any other
    partition it raises at once.  In every case the world is the one it
    was called in: nothing is logged, drawn, written or mutated. *)
Theorem get_partition_data_spec model w :
  get_partition_data model "train" w = (inr (X_train model, y_train model), w) /\
  get_partition_data model "test" w = (inr (X_test model, y_test model), w) /\
  (forall partition,
     partition <> "train" -> partition <> "test" ->
     get_partition_data model partition w
     = (inl (TypeError "Partition must be train or test"), w)).
Proof.
  split; [reflexivity|]. split; [reflexivity|].
  intros partition H1 H2. unfold get_partition_data.
  rewrite (eqb_ne _ _ H1), (eqb_ne _ _ H2). reflexivity.
Qed.

(** ** The log records of each routine *)

Lemma emits_weaken {A} (P Q : event -> Prop) (c : M A) :
  (forall e, P e -> Q e) -> emits P c -> emits Q c.
Proof.
  intros HPQ Hc w. destruct (Hc w) as (t & Ht & HP & HL).
  exists t. repeat split; auto. eapply Forall_impl; eauto.
Qed.

Ltac in_tac := simpl; repeat first [left; reflexivity | right]; try exact I.

Lemma emits_write_plot_logs model vizlib plot plot_type tag S :
  In "Writing plot to %s" S ->
  emits (only_logs S) (write_plot model vizlib plot plot_type tag).
Proof.
  intros HS. unfold write_plot. emits_core ltac:(first [exact HS | exact I]).
Qed.

Ltac logs_tac :=
  repeat first
    [ progress (emits_core in_tac)
    | match goal with
      | |- emits _ (write_plot _ _ _ _ _) => apply emits_write_plot_logs; in_tac
      end ].

Lemma emits_plot_calibration model partition :
  emits (only_logs calibration_logs) (plot_calibration model partition).
Proof.
  unfold plot_calibration, calibration_algo.
  logs_tac.
Qed.

Lemma emits_plot_importance model partition :
  emits (only_logs importance_logs) (plot_importance model partition).
Proof.
  unfold plot_importance, importance_algo, importance_try.
  logs_tac.
Qed.

Lemma emits_plot_learning_curve model partition :
  emits (only_logs learning_logs) (plot_learning_curve model partition).
Proof.
  unfold plot_learning_curve, learning_curve_algo.
  logs_tac.
Qed.

Lemma emits_plot_roc_curve model partition :
  emits (only_logs roc_logs) (plot_roc_curve model partition).
Proof.
  unfold plot_roc_curve, roc_algo, roc_fold.
  logs_tac.
Qed.

Lemma emits_plot_confusion_matrix model partition :
  emits (only_logs confusion_logs) (plot_confusion_matrix model partition).
Proof.
  unfold plot_confusion_matrix, confusion_algo.
  logs_tac.
Qed.

(** ** The gate of the classification plots *)

Lemma not_classification_ne (v : value) :
  v <> VModelType classification -> not_classification v = true.
Proof.
  intros H. destruct v as [| | | | |[|n]]; try reflexivity. contradiction.
Qed.

Lemma two_logs_noop (w : world) (a b : string) :
  logged_noop (inr tt, emit (Log b []) (emit (Log a []) w)) w [a; b].
Proof.
  unfold logged_noop, emit; simpl.
  rewrite !logged_app, !drawn_app, !saved_app; simpl.
  rewrite !app_nil_r, <- app_assoc. auto.
Qed.

(** C4. On a model whose type is not classification, [plot_calibration],
    [plot_roc_curve] and [plot_boundary] return normally after two log
    records (the entry record and the "classification only" record): no
    rendering call is made and no file is written. *)
Theorem classification_plots_skipped model partition feat1 feat2 v w :
  specs model !! "model_type" = Some v ->
  v <> VModelType classification ->
  logged_noop (plot_calibration model partition w) w
    ["Generating Calibration Plot"; "Calibration plot is for classification only"] /\
  logged_noop (plot_roc_curve model partition w) w
    ["Generating ROC Curves"; "ROC Curves are for classification only"] /\
  logged_noop (plot_boundary model partition feat1 feat2 w) w
    ["Generating Boundary Plots"; "Boundary Plots are for classification only"].
Proof.
  intros Hv Hne. apply not_classification_ne in Hne.
  unfold plot_calibration, plot_roc_curve, plot_boundary, bind, getitem.
  cbn [logger_info]. rewrite Hv. cbn [ret]. rewrite Hne.
  repeat split; apply two_logs_noop.
Qed.

(** ** The scatter plot and its [features] argument *)

Lemma plot_scatter_unfold model data features target tag w :
  plot_scatter model data features target tag w
  = scatter_rest model data target tag (lists w features ++ [target])
      (store_list features (lists w features ++ [target])
         (emit (Log "Generating Scatter Plot" []) w)).
Proof.
  unfold plot_scatter, scatter_rest, bind, logger_info, list_append, deref.
  cbn [store_list lists emit]. rewrite Nat.eqb_refl. reflexivity.
Qed.

Lemma emits_scatter_rest model data target tag names :
  emits (fun _ => True) (scatter_rest model data target tag names).
Proof.
  unfold scatter_rest. emits_core ltac:(exact I).
  apply emits_write_plot; intros; exact I.
Qed.

(** C9. [plot_scatter] appends the target to the list object that its
    [features] argument refers to, and does so before it selects the
    columns: whatever the outcome of the call, the caller's list ends up
    with the target as one more last element, no other list object
    changes, and the columns handed to the pair plot are those of the
    extended list. *)
Theorem plot_scatter_appends_target model data features target tag w :
  let r := plot_scatter model data features target tag w in
  lists (snd r) features = lists w features ++ [target] /\
  (forall other, other <> features -> lists (snd r) other = lists w other) /\
  (forall df,
     select data (lists w features ++ [target]) = inr df ->
     In (Draw "sns.pairplot"
           (map (fun c => AObj (snd c)) df ++ [AVal (VStr target)]))
        (events (snd r))) /\
  (forall e,
     select data (lists w features ++ [target]) = inl e ->
     fst r = inl e /\ drawn (events (snd r)) = drawn (events w)).
Proof.
  intros r. subst r. rewrite plot_scatter_unfold.
  set (names := lists w features ++ [target]).
  set (w1 := store_list features names (emit (Log "Generating Scatter Plot" []) w)).
  destruct (emits_scatter_rest model data target tag names w1) as (t & Ht & _ & HL).
  split; [|split; [|split]].
  - rewrite HL. subst w1. cbn [store_list lists]. rewrite Nat.eqb_refl. reflexivity.
  - intros other Ho. rewrite HL. subst w1. cbn [store_list lists emit].
    destruct (Nat.eqb_spec other features); [contradiction | reflexivity].
  - intros df Hdf. unfold scatter_rest, bind, columns, lift. rewrite Hdf.
    cbn [draw draw_new emit events].
    match goal with
    | |- In _ (events (snd (write_plot ?m ?v ?h ?c ?g ?w0))) =>
        destruct (emits_write_plot (fun _ => True) m v h c g
                    ltac:(intros; exact I) ltac:(intros; exact I)
                    ltac:(intros; exact I) w0) as (u & Hu & _ & _)
    end.
    rewrite Hu. cbn [events].
    apply in_or_app. left. apply in_or_app. right. left. reflexivity.
  - intros e He. unfold scatter_rest, bind, columns, lift. rewrite He.
    split; [reflexivity|]. subst w1. cbn [snd store_list emit events].
    rewrite drawn_app. simpl. apply app_nil_r.
Qed.

(** ** The dispatcher *)

Lemma new_events_app (w w' : world) (t : list event) :
  events w' = events w ++ t -> new_events w w' = t.
Proof. intros H. unfold new_events. rewrite H. apply drop_app_length. Qed.

Lemma emits_bind_getitem {V B} (P : event -> Prop) (d : gmap string V) key
    (k : V -> M B) :
  (forall v, d !! key = Some v -> emits P (k v)) ->
  emits P (bind (getitem d key) k).
Proof.
  intros Hk w. unfold bind, getitem.
  destruct (d !! key) as [v|] eqn:E.
  - apply (Hk v eq_refl).
  - exists []. simpl. rewrite app_nil_r. repeat split; constructor.
Qed.

Ltac gate_tac :=
  let H := fresh in
  intros [] H; simpl in H |- *; [|exact I|exact I];
  repeat (destruct H as [<-|H]); try contradiction;
  repeat split; intros; try discriminate; eauto.

Lemma emits_generate_plots model partition :
  emits (gate model partition) (generate_plots model partition).
Proof.
  unfold generate_plots.
  apply emits_bind; [|intros _].
  { apply emits_logger_info. simpl. repeat split; intros; discriminate. }
  apply emits_bind_getitem; intros cal Hcal.
  apply emits_bind_getitem; intros cm Hcm.
  apply emits_bind_getitem; intros imp Himp.
  apply emits_bind_getitem; intros lc Hlc.
  apply emits_bind_getitem; intros roc Hroc.
  apply emits_bind; [|intros _].
  { destruct (truthy cal) eqn:E; [|apply emits_silent, silent_ret].
    assert (enabled model "calibration_plot") by (exists cal; auto).
    eapply emits_weaken; [|apply emits_plot_calibration]. gate_tac. }
  apply emits_bind; [|intros _].
  { destruct (truthy cm) eqn:E; [|apply emits_silent, silent_ret].
    assert (enabled model "confusion_matrix") by (exists cm; auto).
    eapply emits_weaken; [|apply emits_plot_confusion_matrix]. gate_tac. }
  apply emits_bind; [|intros _].
  { destruct (truthy roc) eqn:E; [|apply emits_silent, silent_ret].
    assert (enabled model "roc_curve") by (exists roc; auto).
    eapply emits_weaken; [|apply emits_plot_roc_curve]. gate_tac. }
  destruct (String.eqb_spec partition "train") as [Htrain|Htrain];
    [|apply emits_silent, silent_ret].
  apply emits_bind; [|intros _].
  { destruct (truthy imp) eqn:E; [|apply emits_silent, silent_ret].
    assert (enabled model "importances") by (exists imp; auto).
    eapply emits_weaken; [|apply emits_plot_importance]. gate_tac. }
  destruct (truthy lc) eqn:E; [|apply emits_silent, silent_ret].
  assert (enabled model "learning_curve") by (exists lc; auto).
  eapply emits_weaken; [|apply emits_plot_learning_curve]. gate_tac.
Qed.

Lemma gate_sound model partition (t : list event) (fmt : string) :
  Forall (gate model partition) t -> In fmt (logged t) ->
  exists args, gate model partition (Log fmt args).
Proof.
  induction 1 as [|e t He _ IH]; simpl; [contradiction|].
  destruct e as [f a| |]; simpl; auto.
  intros [<-|Hin]; [exists a; exact He | auto].
Qed.

Lemma announces_bind (P : event -> Prop) entry (rest : M unit) :
  emits P rest -> announces entry (logger_info entry [] ;;; rest).
Proof.
  intros Hr w. unfold bind. cbn [logger_info].
  destruct (Hr (emit (Log entry []) w)) as (t & Ht & _ & _).
  exists t. rewrite Ht. cbn [emit events]. rewrite <- app_assoc. reflexivity.
Qed.

Lemma announces_plot_calibration model partition :
  announces "Generating Calibration Plot" (plot_calibration model partition).
Proof.
  unfold plot_calibration, calibration_algo.
  apply (announces_bind (only_logs calibration_logs)). logs_tac.
Qed.

Lemma announces_plot_confusion_matrix model partition :
  announces "Generating Confusion Matrices" (plot_confusion_matrix model partition).
Proof.
  unfold plot_confusion_matrix, confusion_algo.
  apply (announces_bind (only_logs confusion_logs)). logs_tac.
Qed.

Lemma announces_plot_roc_curve model partition :
  announces "Generating ROC Curves" (plot_roc_curve model partition).
Proof.
  unfold plot_roc_curve, roc_algo, roc_fold.
  apply (announces_bind (only_logs roc_logs)). logs_tac.
Qed.

Lemma announces_plot_importance model partition :
  announces "Generating Feature Importance Plots" (plot_importance model partition).
Proof.
  unfold plot_importance, importance_algo, importance_try.
  apply (announces_bind (only_logs importance_logs)). logs_tac.
Qed.

Lemma announces_plot_learning_curve model partition :
  announces "Generating Learning Curves" (plot_learning_curve model partition).
Proof.
  unfold plot_learning_curve, learning_curve_algo.
  apply (announces_bind (only_logs learning_logs)). logs_tac.
Qed.

(** A gated stage of the dispatcher: it only appends events, and it
    appends the entry record of its routine when its flag is true. *)
Lemma gated_stage (b : bool) entry (c : M unit) (w : world) :
  announces entry c ->
  exists t, events (snd ((if b then c else ret tt) w)) = events w ++ t /\
            (b = true -> In entry (logged t)).
Proof.
  intros Hc. destruct b.
  - destruct (Hc w) as (t & Ht). exists (Log entry [] :: t).
    split; [exact Ht | intros _; left; reflexivity].
  - exists []. simpl. rewrite app_nil_r. split; [reflexivity | discriminate].
Qed.

Lemma bind_inr {A B} (c : M A) (k : A -> M B) (w : world) (b : B) :
  fst (bind c k w) = inr b ->
  exists a, fst (c w) = inr a /\ bind c k w = k a (snd (c w)).
Proof.
  unfold bind. destruct (c w) as [[e|a] w1]; simpl; [discriminate | eauto].
Qed.

Lemma getitem_inr {V B} (d : gmap string V) key (k : V -> M B) (w : world) (b : B) :
  fst (bind (getitem d key) k w) = inr b ->
  exists v, d !! key = Some v /\ bind (getitem d key) k w = k v w.
Proof.
  unfold bind, getitem. destruct (d !! key) as [v|]; simpl; [eauto | discriminate].
Qed.

Lemma enabled_lookup model key v :
  specs model !! key = Some v -> enabled model key -> truthy v = true.
Proof. intros Hv (v' & Hv' & Ht). congruence. Qed.

(** On a normal return every enabled routine of the partition has run. *)
Lemma generate_plots_complete model partition w :
  fst (generate_plots model partition w) = inr tt ->
  let w' := snd (generate_plots model partition w) in
  (enabled model "calibration_plot" -> invoked "Generating Calibration Plot" w w') /\
  (enabled model "confusion_matrix" -> invoked "Generating Confusion Matrices" w w') /\
  (enabled model "roc_curve" -> invoked "Generating ROC Curves" w w') /\
  (partition = "train" -> enabled model "importances" ->
   invoked "Generating Feature Importance Plots" w w') /\
  (partition = "train" -> enabled model "learning_curve" ->
   invoked "Generating Learning Curves" w w').
Proof.
  unfold generate_plots. intros Hok.
  rewrite bind_logger_info in Hok |- *.
  set (w0 := emit _ w) in *.
  destruct (getitem_inr _ _ _ _ _ Hok) as (cal & Hcal & E). rewrite E in Hok |- *. clear E.
  destruct (getitem_inr _ _ _ _ _ Hok) as (cm & Hcm & E). rewrite E in Hok |- *. clear E.
  destruct (getitem_inr _ _ _ _ _ Hok) as (imp & Himp & E). rewrite E in Hok |- *. clear E.
  destruct (getitem_inr _ _ _ _ _ Hok) as (lc & Hlc & E). rewrite E in Hok |- *. clear E.
  destruct (getitem_inr _ _ _ _ _ Hok) as (roc & Hroc & E). rewrite E in Hok |- *. clear E.
  destruct (bind_inr _ _ _ _ Hok) as ([] & _ & E). rewrite E in Hok |- *. clear E.
  destruct (gated_stage (truthy cal) _ _ w0 (announces_plot_calibration model partition))
    as (t1 & Ht1 & Hin1).
  set (w1 := snd ((if truthy cal then plot_calibration model partition else ret tt) w0))
    in *.
  destruct (bind_inr _ _ _ _ Hok) as ([] & _ & E). rewrite E in Hok |- *. clear E.
  destruct (gated_stage (truthy cm) _ _ w1 (announces_plot_confusion_matrix model partition))
    as (t2 & Ht2 & Hin2).
  set (w2 := snd ((if truthy cm then plot_confusion_matrix model partition else ret tt) w1))
    in *.
  destruct (bind_inr _ _ _ _ Hok) as ([] & _ & E). rewrite E in Hok |- *. clear E.
  destruct (gated_stage (truthy roc) _ _ w2 (announces_plot_roc_curve model partition))
    as (t3 & Ht3 & Hin3).
  set (w3 := snd ((if truthy roc then plot_roc_curve model partition else ret tt) w2))
    in *.
  assert (H0 : events w3 = events w ++ (Log "Generating Plots for Partition: %s"
                                          [AVal (VStr partition)] :: t1 ++ t2 ++ t3)).
  { rewrite Ht3, Ht2, Ht1. subst w0. cbn [emit events].
    rewrite <- !app_assoc. reflexivity. }
  assert (Hpre : forall u w',
            events w' = events w3 ++ u ->
            (enabled model "calibration_plot" ->
             invoked "Generating Calibration Plot" w w') /\
            (enabled model "confusion_matrix" ->
             invoked "Generating Confusion Matrices" w w') /\
            (enabled model "roc_curve" -> invoked "Generating ROC Curves" w w')).
  { intros u w' Hu. unfold invoked.
    rewrite H0, <- app_assoc in Hu. rewrite (new_events_app _ _ _ Hu).
    cbn [logged app]. rewrite !logged_app.
    repeat split; intros He; right; apply in_or_app; left.
    - apply in_or_app; left.
      apply Hin1, (enabled_lookup _ _ _ Hcal He).
    - apply in_or_app; right. apply in_or_app; left.
      apply Hin2, (enabled_lookup _ _ _ Hcm He).
    - apply in_or_app; right. apply in_or_app; right.
      apply Hin3, (enabled_lookup _ _ _ Hroc He). }
  destruct (String.eqb_spec partition "train") as [Htrain|Htrain].
  - destruct (bind_inr _ _ _ _ Hok) as ([] & _ & E). rewrite E in Hok |- *. clear E.
    destruct (gated_stage (truthy imp) _ _ w3 (announces_plot_importance model partition))
      as (t4 & Ht4 & Hin4).
    set (w4 := snd ((if truthy imp then plot_importance model partition else ret tt) w3))
      in *.
    destruct (gated_stage (truthy lc) _ _ w4 (announces_plot_learning_curve model partition))
      as (t5 & Ht5 & Hin5).
    set (w5 := snd ((if truthy lc then plot_learning_curve model partition else ret tt) w4))
      in *.
    assert (H5 : events w5 = events w3 ++ (t4 ++ t5)).
    { rewrite Ht5, Ht4, <- app_assoc. reflexivity. }
    destruct (Hpre _ _ H5) as (Ha & Hb & Hc).
    assert (H6 := H5). rewrite H0, <- app_assoc in H6.
    repeat split; auto; intros _ He; unfold invoked;
      rewrite (new_events_app _ _ _ H6); cbn [logged app];
      rewrite !logged_app; right;
      apply in_or_app; right; apply in_or_app.
    + left. apply Hin4, (enabled_lookup _ _ _ Himp He).
    + right. apply Hin5, (enabled_lookup _ _ _ Hlc He).
  - destruct (Hpre [] w3 (eq_sym (app_nil_r _))) as (Ha & Hb & Hc).
    cbn [ret snd]. repeat split; auto; intros; contradiction.
Qed.

Lemma bind_ext {A B} (c : M A) (k k' : A -> M B) (w : world) :
  (forall a w', k a w' = k' a w') -> bind c k w = bind c k' w.
Proof.
  intros H. unfold bind. destruct (c w) as [[e|a] w']; [reflexivity | apply H].
Qed.

(** Once its five flags are read, [generate_plots] is the dispatch of the
    claim: what it does is what the gated routines do, one after the
    other. *)
Lemma generate_plots_dispatch model partition w :
  (forall k, In k plot_flags -> is_Some (specs model !! k)) ->
  generate_plots model partition w
  = dispatch model partition
      (emit (Log "Generating Plots for Partition: %s" [AVal (VStr partition)]) w).
Proof.
  intros Hflags.
  destruct (Hflags "calibration_plot") as [cal Hcal]; [simpl; auto|].
  destruct (Hflags "confusion_matrix") as [cm Hcm]; [simpl; auto|].
  destruct (Hflags "importances") as [imp Himp]; [simpl; auto|].
  destruct (Hflags "learning_curve") as [lc Hlc]; [simpl; auto|].
  destruct (Hflags "roc_curve") as [roc Hroc]; [simpl; auto 6|].
  unfold generate_plots, dispatch, flag, gated.
  rewrite bind_logger_info.
  rewrite (bind_ok _ _ _ _ _ (getitem_some _ _ _ _ Hcal)).
  rewrite (bind_ok _ _ _ _ _ (getitem_some _ _ _ _ Hcm)).
  rewrite (bind_ok _ _ _ _ _ (getitem_some _ _ _ _ Himp)).
  rewrite (bind_ok _ _ _ _ _ (getitem_some _ _ _ _ Hlc)).
  rewrite (bind_ok _ _ _ _ _ (getitem_some _ _ _ _ Hroc)).
  rewrite Hcal, Hcm, Himp, Hlc, Hroc. cbv zeta.
  apply bind_ext; intros _ w1. apply bind_ext; intros _ w2.
  apply bind_ext; intros _ w3.
  destruct (String.eqb partition "train"); reflexivity.
Qed.

(** C10. [generate_plots] runs the feature-importance and the
    learning-curve routines only under [partition == 'train']: for any
    other partition, ['test'] included, neither is invoked, whatever their
    flags.  The calibration, confusion-matrix and ROC routines run only
    under their own flag, and on a normal return each routine whose flag is
    true has run, for either partition; for ['train'] the same holds of the
    two remaining routines.  With its five flags present, the whole run is
    the run of the routines under these gates, one after the other: the
    plots produced are exactly theirs. *)
Theorem generate_plots_gating model partition w :
  let r := generate_plots model partition w in
  ((forall k, In k plot_flags -> is_Some (specs model !! k)) ->
   r = dispatch model partition
         (emit (Log "Generating Plots for Partition: %s" [AVal (VStr partition)])
            w)) /\
  (partition <> "train" ->
   ~ invoked "Generating Feature Importance Plots" w (snd r) /\
   ~ invoked "Generating Learning Curves" w (snd r)) /\
  (invoked "Generating Calibration Plot" w (snd r) ->
   enabled model "calibration_plot") /\
  (invoked "Generating Confusion Matrices" w (snd r) ->
   enabled model "confusion_matrix") /\
  (invoked "Generating ROC Curves" w (snd r) -> enabled model "roc_curve") /\
  (invoked "Generating Feature Importance Plots" w (snd r) ->
   enabled model "importances" /\ partition = "train") /\
  (invoked "Generating Learning Curves" w (snd r) ->
   enabled model "learning_curve" /\ partition = "train") /\
  (fst r = inr tt ->
   (enabled model "calibration_plot" ->
    invoked "Generating Calibration Plot" w (snd r)) /\
   (enabled model "confusion_matrix" ->
    invoked "Generating Confusion Matrices" w (snd r)) /\
   (enabled model "roc_curve" -> invoked "Generating ROC Curves" w (snd r)) /\
   (partition = "train" -> enabled model "importances" ->
    invoked "Generating Feature Importance Plots" w (snd r)) /\
   (partition = "train" -> enabled model "learning_curve" ->
    invoked "Generating Learning Curves" w (snd r))).
Proof.
  intros r. subst r.
  destruct (emits_generate_plots model partition w) as (t & Ht & Hg & _).
  assert (Hs : forall fmt,
            invoked fmt w (snd (generate_plots model partition w)) ->
            exists args, gate model partition (Log fmt args)).
  { intros fmt Hin. unfold invoked in Hin.
    rewrite (new_events_app _ _ _ Ht) in Hin. eapply gate_sound; eauto. }
  split; [apply generate_plots_dispatch|].
  repeat split.
  - intros Hi. destruct (Hs _ Hi) as (a & _ & _ & _ & H4 & _).
    destruct (H4 eq_refl). contradiction.
  - intros Hi. destruct (Hs _ Hi) as (a & _ & _ & _ & _ & H5).
    destruct (H5 eq_refl). contradiction.
  - intros Hi. destruct (Hs _ Hi) as (a & H1 & _). auto.
  - intros Hi. destruct (Hs _ Hi) as (a & _ & H2 & _). auto.
  - intros Hi. destruct (Hs _ Hi) as (a & _ & _ & H3 & _). auto.
  - destruct (Hs _ H) as (a & _ & _ & _ & H4 & _). apply H4; reflexivity.
  - destruct (Hs _ H) as (a & _ & _ & _ & H4 & _). apply H4; reflexivity.
  - destruct (Hs _ H) as (a & _ & _ & _ & _ & H5). apply H5; reflexivity.
  - destruct (Hs _ H) as (a & _ & _ & _ & _ & H5). apply H5; reflexivity.
  - apply generate_plots_complete; assumption.
  - apply generate_plots_complete; assumption.
  - apply generate_plots_complete; assumption.
  - apply generate_plots_complete; assumption.
  - apply generate_plots_complete; assumption.
Qed.

(** ** The files of a normal run *)

Lemma emits_no_save {A} (c : M A) (w : world) :
  emits not_save c -> saved (events (snd (c w))) = saved (events w).
Proof.
  intros Hc. destruct (Hc w) as (t & Ht & Hns & _).
  rewrite Ht, saved_app, (saved_not_save _ Hns), app_nil_r. reflexivity.
Qed.

Lemma writes_nil {A} (c : M A) : emits not_save c -> writes [] c.
Proof. intros Hc w a _. rewrite app_nil_r. apply emits_no_save, Hc. Qed.

Lemma writes_bind {A B} (fs gs : list string) (c : M A) (k : A -> M B) :
  writes fs c -> (forall a, writes gs (k a)) -> writes (fs ++ gs) (bind c k).
Proof.
  intros Hc Hk w b Hok.
  destruct (bind_inr _ _ _ _ Hok) as (a & Ha & E). rewrite E in Hok |- *.
  rewrite (Hk a _ _ Hok), (Hc _ _ Ha), app_assoc. reflexivity.
Qed.

Lemma writes_bind_nil {A B} (gs : list string) (c : M A) (k : A -> M B) :
  emits not_save c -> (forall a, writes gs (k a)) -> writes gs (bind c k).
Proof. intros Hc Hk. apply (writes_bind [] gs); [apply writes_nil, Hc | exact Hk]. Qed.

Lemma writes_bind_getitem {V B} (gs : list string) (d : gmap string V) key
    (k : V -> M B) :
  (forall v, d !! key = Some v -> writes gs (k v)) ->
  writes gs (bind (getitem d key) k).
Proof.
  intros Hk w b Hok.
  destruct (getitem_inr _ _ _ _ _ Hok) as (v & Hv & E). rewrite E in Hok |- *.
  apply (Hk v Hv _ _ Hok).
Qed.

Lemma writes_for_each {A} (f : A -> list string) (l : list A) (body : A -> M unit) :
  (forall x, writes (f x) (body x)) ->
  writes (concat (map f l)) (for_each l body).
Proof.
  intros Hb. induction l as [|x l IH]; simpl.
  - intros w a _. simpl. rewrite app_nil_r. reflexivity.
  - apply writes_bind; [apply Hb | intros _; exact IH].
Qed.

Lemma writes_for_acc {A S} (f : A -> list string) (l : list A)
    (body : A -> S -> M S) :
  (forall x s, writes (f x) (body x s)) ->
  forall s, writes (concat (map f l)) (for_acc l body s).
Proof.
  intros Hb. induction l as [|x l IH]; intros s; simpl.
  - intros w a _. simpl. rewrite app_nil_r. reflexivity.
  - apply writes_bind; [apply Hb | intros s'; apply IH].
Qed.

Lemma concat_map_singleton {A B} (f : A -> B) (l : list A) :
  concat (map (fun x => [f x]) l) = map f l.
Proof. induction l as [|x l IH]; simpl; [reflexivity | rewrite IH; reflexivity]. Qed.

Lemma writes_ret_after {A} (fs : list string) (c : M unit) (a : A) :
  writes fs c -> writes fs (c ;;; ret a).
Proof.
  intros Hc. rewrite <- (app_nil_r fs). apply writes_bind; [exact Hc|].
  intros _. apply writes_nil, emits_silent, silent_ret.
Qed.

Lemma writes_write_plot_matplotlib model plot plot_type tag b p :
  specs model !! "base_dir" = Some (VStr b) ->
  specs model !! "project" = Some (VStr p) ->
  writes [output_path b p plot_type tag]
    (write_plot model "matplotlib" plot plot_type tag).
Proof.
  intros Hb Hp w a _. rewrite (write_plot_matplotlib _ _ _ _ _ _ _ Hb Hp).
  unfold written, emit; simpl. rewrite !saved_app; simpl.
  rewrite !app_nil_r. reflexivity.
Qed.


(** The prefix of a routine that writes nothing, then the rest. *)
Ltac writes_prefix :=
  repeat (cbv zeta;
    match goal with
    | |- writes _ (bind (getitem _ _) _) =>
        apply writes_bind_getitem; intros ? ?
    | |- writes _ (bind _ _) =>
        apply writes_bind_nil; [solve [emits_core ltac:(exact I)] | intros ?]
    end).

Lemma join_tag (partition algo : string) :
  join USEP [partition; algo] = algo_tag partition algo.
Proof. reflexivity. Qed.

Section Writer_configured.

Variable model : Model.
Variables b p : string.
Hypothesis Hb : specs model !! "base_dir" = Some (VStr b).
Hypothesis Hp : specs model !! "project" = Some (VStr p).

Lemma writes_confusion_algo partition y algo :
  writes [algo_file b p "confusion" partition algo]
    (confusion_algo model partition y algo).
Proof.
  unfold confusion_algo. writes_prefix.
  rewrite join_tag. apply writes_write_plot_matplotlib; assumption.
Qed.

Lemma writes_plot_confusion_matrix partition :
  writes (map (algo_file b p "confusion" partition) (algolist model))
    (plot_confusion_matrix model partition).
Proof.
  unfold plot_confusion_matrix. writes_prefix.
  rewrite <- concat_map_singleton. apply writes_for_each.
  intros algo. apply writes_confusion_algo.
Qed.

Lemma writes_roc_algo partition X y cv cv_folds algo :
  writes [algo_file b p "roc_curve" partition algo]
    (roc_algo model partition X y cv cv_folds algo).
Proof.
  unfold roc_algo, roc_fold. writes_prefix.
  rewrite join_tag. apply writes_write_plot_matplotlib; assumption.
Qed.

Lemma writes_plot_roc_curve partition :
  specs model !! "model_type" = Some (VModelType classification) ->
  writes (map (algo_file b p "roc_curve" partition) (algolist model))
    (plot_roc_curve model partition).
Proof.
  intros Hc. unfold plot_roc_curve. writes_prefix.
  match goal with H : _ !! "model_type" = Some _ |- _ =>
    rewrite Hc in H; inversion H; subst end.
  cbn [not_classification]. writes_prefix.
  rewrite <- concat_map_singleton. apply writes_for_each.
  intros algo. apply writes_roc_algo.
Qed.

Lemma writes_learning_curve_algo partition X y cv scorer n_jobs verbosity algo sizes :
  writes [algo_file b p "learning_curve" partition algo]
    (learning_curve_algo model partition X y cv scorer n_jobs verbosity algo sizes).
Proof.
  unfold learning_curve_algo. writes_prefix.
  apply writes_ret_after.
  rewrite join_tag. apply writes_write_plot_matplotlib; assumption.
Qed.

Lemma writes_plot_learning_curve partition :
  writes (map (algo_file b p "learning_curve" partition) (algolist model))
    (plot_learning_curve model partition).
Proof.
  unfold plot_learning_curve. writes_prefix.
  rewrite <- (app_nil_r (map _ _)). apply writes_bind.
  - rewrite <- concat_map_singleton. apply writes_for_acc.
    intros algo sizes. apply writes_learning_curve_algo.
  - intros _. apply writes_nil, emits_silent, silent_ret.
Qed.



Lemma writes_plot_calibration partition :
  specs model !! "model_type" = Some (VModelType classification) ->
  writes [output_path b p "calibration" partition]
    (plot_calibration model partition).
Proof.
  intros Hc. unfold plot_calibration, calibration_algo. writes_prefix.
  match goal with H : _ !! "model_type" = Some _ |- _ =>
    rewrite Hc in H; inversion H; subst end.
  cbn [not_classification]. writes_prefix.
  apply writes_write_plot_matplotlib; assumption.
Qed.

End Writer_configured.

(** ** The feature-importance plots *)

Lemma bind_fst {A B} (c : M A) (k : A -> M B) (w : world) (a : A) :
  fst (c w) = inr a -> bind c k w = k a (snd (c w)).
Proof. unfold bind. destruct (c w) as [[e|a'] w1]; simpl; congruence. Qed.

Lemma bind_fst_err {A B} (c : M A) (k : A -> M B) (w : world) (e : exn) :
  fst (c w) = inl e -> bind c k w = (inl e, snd (c w)).
Proof. unfold bind. destruct (c w) as [[e'|a'] w1]; simpl; congruence. Qed.


Lemma for_each_returns {A} (l : list A) (body : A -> M unit) :
  (forall x, In x l -> forall w, fst (body x w) = inr tt) ->
  forall w, fst (for_each l body w) = inr tt.
Proof.
  induction l as [|x l IH]; intros Hb w; [reflexivity|]. simpl.
  rewrite (bind_fst _ _ _ tt (Hb x (or_introl eq_refl) w)).
  apply IH. intros y Hy. apply Hb. right. exact Hy.
Qed.


Lemma fails_clean_bind {A B} (c : M A) (k : A -> M B) :
  emits not_save c -> (forall a, fails_clean (k a)) -> fails_clean (bind c k).
Proof.
  intros Hc Hk w e. unfold bind.
  pose proof (emits_no_save c w Hc) as Hs.
  destruct (c w) as [[e'|a] w1]; simpl in *; intros He.
  - exact Hs.
  - rewrite (Hk a w1 e He). exact Hs.
Qed.

Lemma fails_clean_write_plot model plot plot_type tag :
  fails_clean (write_plot model "matplotlib" plot plot_type tag).
Proof.
  intros w e. unfold write_plot, bind, getitem, py_join.
  destruct (specs model !! "base_dir") as [bd|]; [|reflexivity].
  destruct (specs model !! "project") as [pr|]; [|reflexivity].
  cbn [ret raise]. destruct (strings_of _); cbn [ret raise]; [|reflexivity].
  simpl. discriminate.
Qed.

Ltac fails_prefix :=
  repeat (cbv zeta;
    match goal with
    | |- fails_clean (bind _ _) =>
        apply fails_clean_bind; [solve [emits_core ltac:(exact I)] | intros ?]
    end).

Lemma fails_clean_importance_try model partition algo :
  fails_clean (importance_try model partition algo).
Proof.
  unfold importance_try. fails_prefix. apply fails_clean_write_plot.
Qed.

Lemma importance_algo_returns model partition algo w :
  fst (importance_algo model partition algo w) = inr tt.
Proof.
  unfold importance_algo. rewrite bind_logger_info. unfold try_except.
  destruct (importance_try _ _ _ _) as [[e|[]] w1]; reflexivity.
Qed.

Lemma emits_importance_algo model partition algo :
  emits (fun _ => True) (importance_algo model partition algo).
Proof.
  unfold importance_algo, importance_try. emits_core ltac:(exact I).
  apply emits_write_plot; intros; exact I.
Qed.

Lemma take_indices_ok {A} (a : list A) (idx : list nat) (w : world) :
  Forall (fun i => i < length a) idx ->
  exists xs, take_indices a idx w = (inr xs, w).
Proof.
  induction 1 as [|i idx Hi _ IH]; simpl; [eexists; reflexivity|].
  destruct (lookup_lt_is_Some_2 _ _ Hi) as (x & Hx).
  destruct IH as (xs & Hxs).
  exists (x :: xs). unfold bind, index. rewrite Hx. cbn [ret]. rewrite Hxs.
  reflexivity.
Qed.

Section Argsort_contract.

(** numpy's [argsort] returns a permutation of the positions. *)
Hypothesis argsort_perm :
  forall v : list F, Permutation (argsort v) (seq 0 (length v)).

Lemma argsort_length (v : list F) : length (rev (argsort v)) = length v.
Proof.
  rewrite length_rev, (Permutation_length (argsort_perm v)). apply length_seq.
Qed.

Lemma argsort_bound (v : list F) :
  Forall (fun i => i < length v) (rev (argsort v)).
Proof.
  apply List.Forall_forall. intros i Hi. apply in_rev in Hi.
  apply (Permutation_in _ (argsort_perm v)), in_seq in Hi. lia.
Qed.

Lemma ranking_returns (v : list F) (n : nat) (w : world) :
  n <= length v ->
  fst (for_each (range n) (fun f =>
         i <- index (rev (argsort v)) f ;;
         x <- index v i ;;
         logger_info "%d. Feature %d (%f)"
           [ANat (f + 1); ANat i; AVal (VFloat x)]) w) = inr tt.
Proof.
  intros Hn. apply for_each_returns. intros f Hf w'.
  apply in_seq in Hf.
  assert (Hlt : f < length (rev (argsort v))) by (rewrite argsort_length; lia).
  destruct (lookup_lt_is_Some_2 _ _ Hlt) as (i & Hi).
  assert (Hb : i < length v).
  { pose proof (argsort_bound v) as Hall.
    rewrite List.Forall_forall in Hall. apply Hall.
    apply list_elem_of_In. eapply list_elem_of_lookup_2; eauto. }
  destruct (lookup_lt_is_Some_2 _ _ Hb) as (x & Hx).
  unfold bind, index. rewrite Hi. cbn [ret]. rewrite Hx. reflexivity.
Qed.

Lemma ranking_fails (v : list F) (body : nat -> nat -> M unit) :
  forall n s w, s <= length v < s + n ->
  exists e, fst (for_each (seq s n) (fun f =>
                   i <- index (rev (argsort v)) f ;; body f i) w) = inl e.
Proof.
  induction n as [|n IH]; intros s w Hs; [lia|]. simpl.
  unfold bind at 1.
  destruct (decide (s = length v)) as [->|Hne].
  - unfold bind, index.
    rewrite lookup_ge_None_2 by (rewrite argsort_length; lia).
    eexists; reflexivity.
  - match goal with |- context [match ?c with _ => _ end] =>
      destruct c as [[e|[]] w1] end.
    + eexists; reflexivity.
    + apply IH. lia.
Qed.

End Argsort_contract.

Lemma length_append (s t : string) :
  String.length (s +:+ t) = String.length s + String.length t.
Proof. induction s as [|a s IH]; simpl; [reflexivity | rewrite IH; reflexivity]. Qed.

Lemma append_inj_r (t s1 s2 : string) : s1 +:+ t = s2 +:+ t -> s1 = s2.
Proof.
  revert s2. induction s1 as [|a s1 IH]; intros [|a2 s2] H.
  - reflexivity.
  - apply (f_equal String.length) in H.
    rewrite !length_append in H. simpl in H. lia.
  - apply (f_equal String.length) in H.
    rewrite !length_append in H. simpl in H. lia.
  - cbn in H. injection H as -> H. f_equal. apply IH, H.
Qed.

Lemma append_inj_l (s x y : string) : s +:+ x = s +:+ y -> x = y.
Proof. apply String.app_inj. Qed.

Lemma algo_file_inj (b p category partition a1 a2 : string) :
  algo_file b p category partition a1 = algo_file b p category partition a2 ->
  a1 = a2.
Proof.
  unfold algo_file, output_path, algo_tag. intros H.
  do 6 apply append_inj_l in H.
  apply append_inj_r in H.
  do 2 apply append_inj_l in H. exact H.
Qed.

Lemma concat_map_filter {A B} (f : A -> B) (q : A -> bool) (l : list A) :
  concat (map (fun x => if q x then [f x] else []) l) = map f (List.filter q l).
Proof.
  induction l as [|x l IH]; simpl; [reflexivity|].
  destruct (q x); simpl; rewrite IH; reflexivity.
Qed.

Lemma for_each_event {A} (l : list A) (body : A -> M unit) (x : A) (e : event) :
  (forall y w, fst (body y w) = inr tt) ->
  (forall y, emits (fun _ => True) (body y)) ->
  In x l ->
  (forall w, exists t, events (snd (body x w)) = events w ++ t /\ In e t) ->
  forall w, exists t, events (snd (for_each l body w)) = events w ++ t /\ In e t.
Proof.
  intros Hret Hem. induction l as [|y l IH]; intros Hin Hx w; [contradiction|].
  simpl. rewrite (bind_fst _ _ _ tt (Hret y w)).
  destruct (emits_for_each (fun _ => True) l body Hem (snd (body y w)))
    as (u & Hu & _ & _).
  destruct Hin as [->|Hin].
  - destruct (Hx w) as (t & Ht & He).
    exists (t ++ u). rewrite Hu, Ht, app_assoc. split; [reflexivity|].
    apply in_or_app; left; exact He.
  - destruct (Hem y w) as (t & Ht & _ & _).
    destruct (IH Hin Hx (snd (body y w))) as (u' & Hu' & He).
    exists (t ++ u'). rewrite Hu', Ht, app_assoc. split; [reflexivity|].
    apply in_or_app; right; exact He.
Qed.

Lemma importance_algo_absent model partition algo w :
  importances model !! algo = None ->
  importance_algo model partition algo w
  = (inr tt,
     emit (Log "%s does not have feature importances" [AVal (VStr algo)])
       (emit (Log "Feature Importances for Algorithm: %s" [AVal (VStr algo)]) w)).
Proof.
  intros Hn. unfold importance_algo. rewrite bind_logger_info.
  unfold try_except, importance_try.
  rewrite (bind_err _ _ _ _ _ (getitem_none _ _ _ Hn)). reflexivity.
Qed.

Section Importance_configured.

Variable model : Model.
Variables b p : string.
Hypothesis Hb : specs model !! "base_dir" = Some (VStr b).
Hypothesis Hp : specs model !! "project" = Some (VStr p).
Hypothesis argsort_perm :
  forall v : list F, Permutation (argsort v) (seq 0 (length v)).

Lemma writes_importance_try partition algo :
  writes [algo_file b p "feature_importance" partition algo]
    (importance_try model partition algo).
Proof.
  unfold importance_try. writes_prefix.
  rewrite join_tag. apply writes_write_plot_matplotlib; assumption.
Qed.

Lemma importance_try_ok partition algo v w :
  importances model !! algo = Some v -> n_top <= length v ->
  fst (importance_try model partition algo w) = inr tt.
Proof.
  intros Hv Hn. unfold importance_try.
  rewrite (bind_ok _ _ _ _ _ (getitem_some _ _ _ _ Hv)). cbv zeta.
  rewrite bind_logger_info.
  rewrite (bind_fst _ _ _ tt (ranking_returns argsort_perm v n_top _ Hn)).
  rewrite !bind_draw.
  match goal with |- fst (bind _ _ ?w0) = _ =>
    destruct (take_indices_ok v (rev (argsort v)) w0 (argsort_bound argsort_perm v))
      as (xs & Hxs) end.
  rewrite (bind_ok _ _ _ _ _ Hxs). rewrite !bind_draw.
  rewrite (write_plot_matplotlib _ _ _ _ _ _ _ Hb Hp). reflexivity.
Qed.

Lemma importance_try_fails partition algo w :
  has_plot model algo = false ->
  exists e, fst (importance_try model partition algo w) = inl e.
Proof.
  unfold has_plot, importance_try. intros Hh.
  destruct (importances model !! algo) as [v|] eqn:Hv.
  - apply Nat.leb_gt in Hh.
    rewrite (bind_ok _ _ _ _ _ (getitem_some _ _ _ _ Hv)). cbv zeta.
    rewrite bind_logger_info.
    match goal with |- exists _, fst (bind _ _ ?w0) = _ =>
      destruct (ranking_fails argsort_perm v
                  (fun f i => x <- index v i ;;
                     logger_info "%d. Feature %d (%f)"
                       [ANat (f + 1); ANat i; AVal (VFloat x)])
                  n_top 0 w0 ltac:(lia)) as (e & He) end.
    exists e. unfold range. rewrite (bind_fst_err _ _ _ _ He). reflexivity.
  - rewrite (bind_err _ _ _ _ _ (getitem_none _ _ _ Hv)). eexists; reflexivity.
Qed.

Lemma importance_algo_saved partition algo w :
  saved (events (snd (importance_algo model partition algo w)))
  = saved (events w)
      ++ (if has_plot model algo
          then [algo_file b p "feature_importance" partition algo] else []).
Proof.
  unfold importance_algo. rewrite bind_logger_info. unfold try_except.
  set (w1 := emit _ w).
  assert (H1 : saved (events w1) = saved (events w)).
  { subst w1. cbn [emit events]. rewrite saved_app. simpl. apply app_nil_r. }
  destruct (has_plot model algo) eqn:Hh.
  - unfold has_plot in Hh.
    destruct (importances model !! algo) as [v|] eqn:Hv; [|discriminate].
    apply Nat.leb_le in Hh.
    pose proof (importance_try_ok partition algo v w1 Hv Hh) as Hok.
    pose proof (writes_importance_try partition algo w1 tt Hok) as Hw.
    destruct (importance_try model partition algo w1) as [[e|[]] w2];
      simpl in *; [discriminate|].
    rewrite Hw, H1. reflexivity.
  - destruct (importance_try_fails partition algo w1 Hh) as (e & He).
    pose proof (fails_clean_importance_try model partition algo w1 e He) as Hc.
    destruct (importance_try model partition algo w1) as [[e'|[]] w2];
      simpl in *; [|discriminate].
    cbn [emit events]. rewrite saved_app, Hc, H1. reflexivity.
Qed.

Lemma plot_importance_saved partition w :
  partition = "train" \/ partition = "test" ->
  saved (events (snd (plot_importance model partition w)))
  = saved (events w)
      ++ map (algo_file b p "feature_importance" partition)
           (List.filter (has_plot model) (algolist model)).
Proof.
  intros Hpart. unfold plot_importance. rewrite bind_logger_info.
  assert (Hg : exists Xy, forall w0,
             get_partition_data model partition w0 = (inr Xy, w0)).
  { destruct Hpart as [-> | ->]; eexists; intros w0; reflexivity. }
  destruct Hg as (Xy & Hg). rewrite (bind_ok _ _ _ _ _ (Hg _)).
  rewrite <- concat_map_filter.
  rewrite (writes_for_each
             (fun a => if has_plot model a
                       then [algo_file b p "feature_importance" partition a]
                       else [])
             (algolist model) (importance_algo model partition)
             ltac:(intros a w0 u _; apply importance_algo_saved) _ tt).
  - cbn [emit events]. rewrite saved_app. simpl. rewrite app_nil_r. reflexivity.
  - apply for_each_returns. intros. apply importance_algo_returns.
Qed.

End Importance_configured.

(** The skip of [plot_importance], as far as it works.  For a partition
    that exists, [plot_importance] never raises.  An algorithm of the list without a stored importance vector gets the
    record "... does not have feature importances" and no file.  With a
    configured writer, the files written are those of the algorithms whose
    vector is stored with at least [n_top] entries, each at
    [feature_importance_<partition>_<algorithm>.png], in the order of the
    list: an absent vector takes nothing away from the other algorithms. *)
Theorem plot_importance_skips_absent model partition w :
  partition = "train" \/ partition = "test" ->
  let r := plot_importance model partition w in
  fst r = inr tt /\
  (forall algo,
     In algo (algolist model) -> importances model !! algo = None ->
     In (Log "%s does not have feature importances" [AVal (VStr algo)])
        (new_events w (snd r))) /\
  (forall b p,
     specs model !! "base_dir" = Some (VStr b) ->
     specs model !! "project" = Some (VStr p) ->
     (forall v : list F, Permutation (argsort v) (seq 0 (length v))) ->
     exists files,
       saved (events (snd r)) = saved (events w) ++ files /\
       files = map (algo_file b p "feature_importance" partition)
                 (List.filter (has_plot model) (algolist model)) /\
       (forall algo,
          importances model !! algo = None ->
          ~ In (algo_file b p "feature_importance" partition algo) files) /\
       (forall algo v,
          In algo (algolist model) ->
          importances model !! algo = Some v -> n_top <= length v ->
          In (algo_file b p "feature_importance" partition algo) files)).
Proof.
  intros Hpart r. subst r.
  assert (Hg : exists Xy, forall w0,
             get_partition_data model partition w0 = (inr Xy, w0)).
  { destruct Hpart as [-> | ->]; eexists; intros w0; reflexivity. }
  destruct Hg as (Xy & Hg).
  split; [|split].
  - unfold plot_importance. rewrite bind_logger_info, (bind_ok _ _ _ _ _ (Hg _)).
    apply for_each_returns. intros. apply importance_algo_returns.
  - intros algo Hin Hnone.
    unfold plot_importance. rewrite bind_logger_info, (bind_ok _ _ _ _ _ (Hg _)).
    destruct (for_each_event (algolist model) (importance_algo model partition) algo
                (Log "%s does not have feature importances" [AVal (VStr algo)])
                (importance_algo_returns model partition)
                (emits_importance_algo model partition) Hin) with
      (w := emit (Log "Generating Feature Importance Plots" []) w)
      as (t & Ht & He).
    { intros w0. rewrite (importance_algo_absent _ _ _ _ Hnone).
      eexists. cbn [snd emit events]. rewrite <- app_assoc. split; [reflexivity|].
      right. left. reflexivity. }
    cbn [emit events] in Ht. rewrite <- app_assoc in Ht.
    rewrite (new_events_app _ _ _ Ht). right. exact He.
  - intros b p Hb Hp Hperm. eexists. split; [|split; [reflexivity|split]].
    + apply plot_importance_saved; assumption.
    + intros algo Hnone Hin. apply in_map_iff in Hin as (a & Ha & Hf).
      apply algo_file_inj in Ha. subst a.
      apply filter_In in Hf as (_ & Hh). unfold has_plot in Hh.
      rewrite Hnone in Hh. discriminate.
    + intros algo v Hin Hv Hn. apply in_map, filter_In. split; [exact Hin|].
      unfold has_plot. rewrite Hv. apply Nat.leb_le, Hn.
Qed.

(** ** The mean ROC curve *)


Lemma arr_add_length (a c : list F) :
  length c = length a -> length (arr_add a c) = length a.
Proof. intros H. unfold arr_add. apply length_zip_with_l_eq. auto. Qed.

Lemma arr_add_zeros (grid a : list F) :
  length a = length grid -> arr_add (map (fun _ => f0) grid) a = map (fadd f0) a.
Proof.
  revert a. induction grid as [|g grid IH]; intros [|x a] H; simpl in *;
    try discriminate; [reflexivity|].
  unfold arr_add in *. simpl. rewrite IH by lia. reflexivity.
Qed.

Lemma insert_first_arr_add (x y : F) (a c : list F) :
  <[0 := x]> (arr_add (<[0 := y]> a) c) = <[0 := x]> (arr_add a c).
Proof. destruct a, c; reflexivity. Qed.


Lemma iadd_array (a c : list F) (w : world) :
  length c = length a -> iadd (Array a) c w = (inr (Array (arr_add a c)), w).
Proof. intros H. simpl. rewrite <- H, Nat.eqb_refl. reflexivity. Qed.

Lemma set_first_array (a : list F) (x : F) (w : world) :
  a <> [] -> set_first (Array a) x w = (inr (Array (<[0 := x]> a)), w).
Proof. destruct a; [congruence | reflexivity]. Qed.

Lemma set_last_array (a : list F) (x : F) (w : world) :
  a <> [] -> set_last (Array a) x w = (inr (Array (<[pred (length a) := x]> a)), w).
Proof. destruct a; [congruence | reflexivity]. Qed.

Lemma length_nonempty {A} (a : list A) : 0 < length a -> a <> [].
Proof. destruct a; simpl; [lia | discriminate]. Qed.

Lemma call_predict_proba_ok estimator X (w : world) :
  has_predict_proba estimator = true ->
  call_predict_proba estimator X w = (inr (predict_proba estimator X), w).
Proof. intros H. unfold call_predict_proba. rewrite H. reflexivity. Qed.

Lemma call_predict_proba_fails estimator X (w : world) :
  has_predict_proba estimator = false ->
  call_predict_proba estimator X w
  = (inl (no_attribute "estimator" "predict_proba"), w).
Proof. intros H. unfold call_predict_proba. rewrite H. reflexivity. Qed.

Section Roc_contract.

(** What the development uses of numpy: [linspace] returns as many points
    as asked for, and [interp] one value for each point of its grid.  Of
    scikit-learn: [fit] returns the estimator itself, so the fitted
    estimator has the methods of its class. *)
Hypothesis linspace_length : forall a c n, length (linspace a c n) = n.
Hypothesis interp_length : forall x xp fp, length (interp x xp fp) = length x.
Hypothesis fit_keeps_class :
  forall e X y, has_predict_proba (fit e X y) = has_predict_proba e.

Variables X y : Obj.
Variable cv_folds : value.
Variable grid : list F.
Hypothesis grid_nonempty : 0 < length grid.

Lemma roc_fold_array split l w S :
  has_predict_proba (loc_estimator l) = true ->
  loc_mean_tpr l = Array (<[0 := f0]> S) -> length S = length grid ->
  let est' := fit (loc_estimator l) (rows X (fst split)) (rows y (fst split)) in
  let curve := roc_curve (rows y (snd split))
                 (column1 (predict_proba est' (rows X (snd split)))) in
  exists l',
    fst (roc_fold X y cv_folds grid split l w) = inr l' /\
    loc_estimator l' = est' /\
    loc_mean_tpr l'
    = Array (<[0 := f0]> (arr_add S (interp grid (fst (fst curve)) (snd (fst curve))))).
Proof.
  intros Hpp Hm HS est' curve. unfold roc_fold. cbv zeta.
  rewrite bind_logger_info, Hm.
  rewrite (bind_ok _ _ _ _ _ (call_predict_proba_ok _ _ _
             ltac:(rewrite fit_keeps_class; exact Hpp))).
  assert (HI : forall fpr tpr,
            length (interp grid fpr tpr) = length (<[0 := f0]> S)).
  { intros. rewrite length_insert, interp_length. congruence. }
  assert (HN : forall fpr tpr,
            arr_add (<[0 := f0]> S) (interp grid fpr tpr) <> []).
  { intros. apply length_nonempty.
    rewrite arr_add_length, length_insert by apply HI. lia. }
  rewrite (bind_ok _ _ _ _ _ (iadd_array _ _ _ (HI _ _))).
  rewrite (bind_ok _ _ _ _ _ (set_first_array _ _ _ (HN _ _))).
  rewrite bind_draw. eexists. split; [reflexivity|]. split; [reflexivity|].
  cbn [loc_mean_tpr]. rewrite insert_first_arr_add. reflexivity.
Qed.

Lemma roc_folds_array splits :
  forall l w S,
    has_predict_proba (loc_estimator l) = true ->
    loc_mean_tpr l = Array (<[0 := f0]> S) -> length S = length grid ->
    exists l',
      fst (for_acc splits (roc_fold X y cv_folds grid) l w) = inr l' /\
      loc_mean_tpr l'
      = Array (<[0 := f0]>
                 (fold_left (fun acc c => arr_add acc (interp grid (fst c) (snd c)))
                    (fold_curves X y (loc_estimator l) splits) S)).
Proof.
  induction splits as [|sp splits IH]; intros l w S Hpp Hm HS.
  - exists l. split; [reflexivity | exact Hm].
  - destruct (roc_fold_array sp l w S Hpp Hm HS) as (l1 & Hr & He & Hm1).
    simpl. rewrite (bind_fst _ _ _ _ Hr).
    assert (Hpp1 : has_predict_proba (loc_estimator l1) = true)
      by (rewrite He, fit_keeps_class; exact Hpp).
    destruct (IH l1 (snd (roc_fold X y cv_folds grid sp l w)) _ Hpp1 Hm1)
      as (l' & Hr' & Hm').
    { rewrite arr_add_length; [exact HS | rewrite interp_length; congruence]. }
    exists l'. split; [exact Hr'|]. rewrite Hm', He. reflexivity.
Qed.

Lemma roc_fold_scalar split l w :
  has_predict_proba (loc_estimator l) = true ->
  loc_mean_tpr l = Scalar f0 ->
  let est' := fit (loc_estimator l) (rows X (fst split)) (rows y (fst split)) in
  let curve := roc_curve (rows y (snd split))
                 (column1 (predict_proba est' (rows X (snd split)))) in
  exists l',
    fst (roc_fold X y cv_folds grid split l w) = inr l' /\
    loc_estimator l' = est' /\
    loc_mean_tpr l'
    = Array (<[0 := f0]> (arr_add (map (fun _ => f0) grid)
                            (interp grid (fst (fst curve)) (snd (fst curve))))).
Proof.
  intros Hpp Hm est' curve. unfold roc_fold. cbv zeta.
  rewrite bind_logger_info, Hm.
  rewrite (bind_ok _ _ _ _ _ (call_predict_proba_ok _ _ _
             ltac:(rewrite fit_keeps_class; exact Hpp))).
  assert (HN : forall fpr tpr, map (fadd f0) (interp grid fpr tpr) <> []).
  { intros. apply length_nonempty. rewrite length_map, interp_length. lia. }
  unfold iadd at 1. unfold bind at 1. cbn [ret].
  rewrite (bind_ok _ _ _ _ _ (set_first_array _ _ _ (HN _ _))).
  rewrite bind_draw. eexists. split; [reflexivity|]. split; [reflexivity|].
  cbn [loc_mean_tpr]. rewrite arr_add_zeros by apply interp_length. reflexivity.
Qed.

(** The loop over the folds, run from the initial locals: with at least
    one fold it ends normally, and the variable [mean_tpr] holds the sum
    of the interpolated curves with its first point at [0.0]. *)
Lemma roc_folds_run splits est w :
  has_predict_proba est = true ->
  splits <> [] ->
  exists l',
    fst (for_acc splits (roc_fold X y cv_folds grid)
           {| loc_mean_tpr := Scalar f0; loc_estimator := est; loc_i := 0 |} w)
    = inr l' /\
    loc_mean_tpr l'
    = Array (<[0 := f0]> (fold_sum grid (fold_curves X y est splits))).
Proof.
  intros Hpp. destruct splits as [|sp splits]; [congruence|]. intros _.
  set (l0 := {| loc_mean_tpr := Scalar f0; loc_estimator := est; loc_i := 0 |}).
  destruct (roc_fold_scalar sp l0 w Hpp eq_refl) as (l1 & Hr & He & Hm1).
  cbn [for_acc]. rewrite (bind_fst _ _ _ _ Hr).
  assert (Hpp1 : has_predict_proba (loc_estimator l1) = true)
    by (rewrite He; cbn [loc_estimator l0]; rewrite fit_keeps_class; exact Hpp).
  destruct (roc_folds_array splits l1 (snd (roc_fold X y cv_folds grid sp l0 w)) _
              Hpp1 Hm1)
    as (l' & Hr' & Hm').
  { rewrite arr_add_zeros by apply interp_length.
    rewrite length_map. apply interp_length. }
  exists l'. split; [exact Hr'|]. rewrite Hm', He. reflexivity.
Qed.

End Roc_contract.

Lemma idiv_array (a : list F) (n : nat) (w : world) :
  idiv (Array a) n w = (inr (Array (map (fun x => fdiv x (fofnat n)) a)), w).
Proof. reflexivity. Qed.

Lemma emits_in {A} (c : M A) (w : world) (e : event) :
  emits (fun _ => True) c -> In e (events w) -> In e (events (snd (c w))).
Proof.
  intros Hc He. destruct (Hc w) as (t & Ht & _ & _). rewrite Ht.
  apply in_or_app. left. exact He.
Qed.

Section Roc_run.

Hypothesis linspace_length : forall a c n, length (linspace a c n) = n.
Hypothesis interp_length : forall x xp fp, length (interp x xp fp) = length x.
Hypothesis fit_keeps_class :
  forall e X y, has_predict_proba (fit e X y) = has_predict_proba e.

Lemma fold_sum_length (grid : list F) curves :
  length (fold_sum grid curves) = length grid.
Proof.
  unfold fold_sum.
  assert (H : forall acc, length acc = length grid ->
            length (fold_left
                      (fun acc c => arr_add acc (interp grid (fst c) (snd c)))
                      curves acc) = length grid).
  { induction curves as [|c curves IH]; intros acc Hacc; simpl; [exact Hacc|].
    apply IH. rewrite arr_add_length; [exact Hacc|].
    rewrite interp_length. congruence. }
  apply H. apply length_map.
Qed.

Lemma roc_algo_run model partition X y cv cv_folds algo est w :
  estimators model !! algo = Some est ->
  has_predict_proba est = true ->
  cv_split cv X y <> [] ->
  let grid := linspace f0 f1 100 in
  let mean := code_mean grid (fold_curves X y est (cv_split cv X y))
                (get_n_splits cv X y) in
  let r := roc_algo model partition X y cv cv_folds algo w in
  In (mean_roc_plot grid mean) (events (snd r)) /\
  (forall b p,
     specs model !! "base_dir" = Some (VStr b) ->
     specs model !! "project" = Some (VStr p) ->
     fst r = inr tt).
Proof.
  intros Hest Hpp Hne grid mean r. subst r. unfold roc_algo.
  rewrite bind_logger_info, (bind_ok _ _ _ _ _ (getitem_some _ _ _ _ Hest)).
  cbv zeta. rewrite bind_draw. fold grid.
  set (w0 := emit (Draw "plt.figure" []) _).
  assert (Hg : 0 < length grid) by (subst grid; rewrite linspace_length; lia).
  destruct (roc_folds_run interp_length fit_keeps_class X y cv_folds grid Hg
              (cv_split cv X y) est w0 Hpp Hne) as (l' & Hr & Hm).
  rewrite (bind_fst _ _ _ _ Hr), bind_draw, Hm.
  rewrite (bind_ok _ _ _ _ _ (idiv_array _ _ _)).
  rewrite (bind_ok _ _ _ _ _ (set_last_array _ _ _ ltac:(
             apply length_nonempty;
             rewrite length_map, length_insert, fold_sum_length; exact Hg))).
  cbn [arr_of]. rewrite bind_draw.
  fold (code_mean grid (fold_curves X y est (cv_split cv X y)) (get_n_splits cv X y)).
  fold mean. fold (mean_roc_plot grid mean).
  split.
  - match goal with |- In _ (events (snd (?c ?w1))) =>
      apply (emits_in c w1) end.
    + emits_core ltac:(exact I). apply emits_write_plot; intros; exact I.
    + cbn [emit events]. apply in_or_app. right. left. reflexivity.
  - intros b p Hb Hp. rewrite !bind_draw.
    rewrite (write_plot_matplotlib _ _ _ _ _ _ _ Hb Hp). reflexivity.
Qed.



End Roc_run.

(** ** The ROC scenario of the spec *)

(** C7. A classification model with [algolist = ["svm", "rf"]],
    [base_dir = "/tmp/out"], [project = "proj1"], three shuffled folds and,
    for each algorithm, an estimator that has [predict_proba]:
    [plot_roc_curve(model, "test")] returns normally and writes exactly two
    files, the one of [svm] and then the one of [rf]. *)
Theorem plot_roc_curve_two_files model split svm rf w :
  (forall a c n, length (linspace a c n) = n) ->
  (forall x xp fp, length (interp x xp fp) = length x) ->
  (forall e X y, has_predict_proba (fit e X y) = has_predict_proba e) ->
  algolist model = ["svm"; "rf"] ->
  specs model !! "model_type" = Some (VModelType classification) ->
  specs model !! "base_dir" = Some (VStr "/tmp/out") ->
  specs model !! "project" = Some (VStr "proj1") ->
  specs model !! "cv_folds" = Some (VInt 3) ->
  specs model !! "seed" = Some (VInt 0) ->
  specs model !! "shuffle" = Some (VBool true) ->
  specs model !! "split" = Some (VFloat split) ->
  estimators model !! "svm" = Some svm -> has_predict_proba svm = true ->
  estimators model !! "rf" = Some rf -> has_predict_proba rf = true ->
  length (cv_split (StratifiedShuffleSplit (VInt 3) (VFloat split) (VInt 0))
            (X_test model) (y_test model)) = 3 ->
  let r := plot_roc_curve model "test" w in
  fst r = inr tt /\
  saved (events (snd r))
  = saved (events w)
      ++ ["/tmp/out/proj1/roc_curve_test_svm.png";
          "/tmp/out/proj1/roc_curve_test_rf.png"].
Proof.
  intros Hlin Hint Hfit Halgo Hc Hb Hp Hcv Hseed Hsh Hsp He1 Hp1 He2 Hp2 Hfolds r.
  assert (Hok : fst r = inr tt).
  { subst r. unfold plot_roc_curve.
    rewrite bind_logger_info, (bind_ok _ _ _ _ _ (getitem_some _ _ _ _ Hc)).
    cbn [not_classification].
    rewrite (bind_ok _ _ _ _ _ (getitem_some _ _ _ _ Hcv)).
    rewrite (bind_ok _ _ _ _ _ (getitem_some _ _ _ _ Hseed)).
    rewrite (bind_ok _ _ _ _ _ (getitem_some _ _ _ _ Hsh)).
    rewrite (bind_ok _ _ _ _ _ (getitem_some _ _ _ _ Hsp)).
    rewrite (bind_ok _ _ _ _ (X_test model, y_test model) eq_refl).
    cbn [truthy fst snd]. rewrite Halgo.
    apply for_each_returns. intros a Ha w0.
    assert (Hne : cv_split (StratifiedShuffleSplit (VInt 3) (VFloat split) (VInt 0))
                    (X_test model) (y_test model) <> []).
    { intros E. rewrite E in Hfolds. discriminate. }
    destruct Ha as [<-|[<-|[]]].
    - eapply (roc_algo_run Hlin Hint Hfit); eauto.
    - eapply (roc_algo_run Hlin Hint Hfit); eauto. }
  split; [exact Hok|].
  subst r.
  rewrite (writes_plot_roc_curve model _ _ Hb Hp "test" Hc w tt Hok), Halgo.
  reflexivity.
Qed.

(** ** The tag of each routine *)








(** * Further properties of the module *)

(** ** The writer: outcomes and errors *)

Lemma strings_of_three (bd pr : value) (f : string) (l : list string) :
  strings_of [bd; pr; VStr f] = Some l ->
  exists b p, bd = VStr b /\ pr = VStr p /\ l = [b; p; f].
Proof.
  destruct bd; try discriminate. destruct pr; try discriminate.
  simpl. intros H. injection H as <-. eauto.
Qed.

(** [write_plot] is all or nothing.  When it raises, no file has been
    written.  When it returns, the configuration holds the two path
    components as strings, the backend is one of the three supported ones
    (with a plot object for seaborn and bokeh), and exactly one file has
    been written, at the path built from them. *)
Theorem write_plot_all_or_nothing model vizlib plot plot_type tag w :
  let r := write_plot model vizlib plot plot_type tag w in
  (forall e, fst r = inl e -> saved (events (snd r)) = saved (events w)) /\
  (fst r = inr tt ->
   exists b p,
     specs model !! "base_dir" = Some (VStr b) /\
     specs model !! "project" = Some (VStr p) /\
     (vizlib = "matplotlib" \/
      ((vizlib = "seaborn" \/ vizlib = "bokeh") /\ is_Some plot)) /\
     saved (events (snd r))
     = saved (events w) ++ [output_path b p plot_type tag]).
Proof.
  intros r. subst r. unfold write_plot, bind, getitem, py_join.
  destruct (specs model !! "base_dir") as [bd|] eqn:Hbd;
    [|split; [reflexivity | discriminate]].
  destruct (specs model !! "project") as [pr|] eqn:Hpr;
    [|split; [reflexivity | discriminate]].
  cbn [ret raise].
  destruct (strings_of _) as [l|] eqn:Hl; cbn [ret raise];
    [|split; [reflexivity | discriminate]].
  apply strings_of_three in Hl as (b & p & -> & -> & ->).
  rewrite join_path. cbn [logger_info].
  assert (Hlog : forall u,
            saved (events (emit (Log "Writing plot to %s" u) w)) = saved (events w)).
  { intros u. cbn [emit events]. rewrite saved_app. apply app_nil_r. }
  destruct (String.eqb_spec vizlib "matplotlib") as [->|_].
  { split; [discriminate|]. intros _. exists b, p.
    repeat split; auto. cbn [draw save emit events snd].
    rewrite !saved_app. simpl. rewrite !app_nil_r. reflexivity. }
  destruct (String.eqb_spec vizlib "seaborn") as [->|_].
  { destruct plot as [h|]; [destruct (has_savefig h)|]; simpl.
    - split; [discriminate|]. intros _. exists b, p.
      repeat split; eauto. rewrite !saved_app. simpl.
      rewrite !app_nil_r. reflexivity.
    - split; [intros; apply Hlog | discriminate].
    - split; [intros; apply Hlog | discriminate]. }
  destruct (String.eqb_spec vizlib "bokeh") as [->|_].
  { destruct plot as [h|]; [destruct (has_save h)|]; simpl.
    - split; [discriminate|]. intros _. exists b, p.
      repeat split; eauto. rewrite !saved_app. simpl.
      rewrite !app_nil_r. reflexivity.
    - split; [intros; apply Hlog | discriminate].
    - split; [intros; apply Hlog | discriminate]. }
  destruct (String.eqb vizlib "plotly"); simpl;
    (split; [intros; apply Hlog | discriminate]).
Qed.

(** The errors of the writer that come before the backend is looked at.
    A missing [base_dir] or [project] is a [KeyError] for that key, and a
    component that is not a string a [TypeError]; in these cases the world
    is untouched, not even the "Writing plot" record is logged.  With a
    good configuration, seaborn or bokeh without a plot object log the path
    and then raise [AttributeError]. *)
Theorem write_plot_errors model vizlib plot plot_type tag w :
  (specs model !! "base_dir" = None ->
   write_plot model vizlib plot plot_type tag w = (inl (KeyError ["base_dir"]), w)) /\
  (is_Some (specs model !! "base_dir") -> specs model !! "project" = None ->
   write_plot model vizlib plot plot_type tag w = (inl (KeyError ["project"]), w)) /\
  (forall bd pr,
     specs model !! "base_dir" = Some bd -> specs model !! "project" = Some pr ->
     (forall s, bd <> VStr s) \/ (forall s, pr <> VStr s) ->
     exists msg,
       write_plot model vizlib plot plot_type tag w = (inl (TypeError msg), w)) /\
  (forall b p,
     specs model !! "base_dir" = Some (VStr b) ->
     specs model !! "project" = Some (VStr p) ->
     vizlib = "seaborn" \/ vizlib = "bokeh" ->
     exists msg,
       write_plot model vizlib None plot_type tag w
       = (inl (AttributeError msg),
          emit (Log "Writing plot to %s"
                  [AVal (VStr (output_path b p plot_type tag))]) w)).
Proof.
  unfold write_plot, bind, getitem, py_join. repeat split.
  - intros ->. reflexivity.
  - intros [bd ->] ->. reflexivity.
  - intros bd pr -> -> Hbad. cbn [ret].
    destruct (strings_of _) as [l|] eqn:Hl; [|eexists; reflexivity].
    apply strings_of_three in Hl as (b & p & -> & -> & _).
    destruct Hbad as [H|H]; exfalso; eapply H; reflexivity.
  - intros b p -> -> Hv. cbn [strings_of ret]. rewrite join_path.
    destruct Hv as [-> | ->]; eexists; reflexivity.
Qed.

(** ** Routines that cannot complete *)

Lemma drawn_is_log (t : list event) : Forall is_log t -> drawn t = [].
Proof.
  induction 1 as [|e t He _ IH]; [reflexivity|].
  destruct e; simpl in *; auto; contradiction.
Qed.

Lemma saved_is_log (t : list event) : Forall is_log t -> saved t = [].
Proof.
  induction 1 as [|e t He _ IH]; [reflexivity|].
  destruct e; simpl in *; auto; contradiction.
Qed.

Lemma get_partition_data_cases model partition w :
  (exists Xy, get_partition_data model partition w = (inr Xy, w)) \/
  get_partition_data model partition w
  = (inl (TypeError "Partition must be train or test"), w).
Proof.
  unfold get_partition_data.
  destruct (String.eqb partition "train"); [left; eexists; reflexivity|].
  destruct (String.eqb partition "test"); [left; eexists; reflexivity|].
  right. reflexivity.
Qed.

(** [plot_partial_dependence] calls a function that the module neither
    defines nor imports, and [plot_boundary] reads such a name right after
    its gate.  Whatever the model and the partition, neither of them ever
    draws anything or writes a file; [plot_partial_dependence] never
    returns normally, and [plot_boundary] returns normally only through
    its gate, on a model whose type is not classification. *)
Theorem undefined_names_block_plots model partition targets feat1 feat2 w :
  let r := plot_partial_dependence model partition targets w in
  let r' := plot_boundary model partition feat1 feat2 w in
  (exists e, fst r = inl e) /\
  drawn (events (snd r)) = drawn (events w) /\
  saved (events (snd r)) = saved (events w) /\
  drawn (events (snd r')) = drawn (events w) /\
  saved (events (snd r')) = saved (events w) /\
  (fst r' = inr tt ->
   exists v, specs model !! "model_type" = Some v /\
             v <> VModelType classification) /\
  (partition = "train" \/ partition = "test" ->
   fst r = inl (NameError "fetch_california_housing") /\
   (specs model !! "model_type" = Some (VModelType classification) ->
    fst r' = inl (NameError "classifiers"))).
Proof.
  intros r r'. subst r r'.
  assert (Hpd : emits is_log (plot_partial_dependence model partition targets)).
  { unfold plot_partial_dependence. emits_core ltac:(exact I). }
  assert (Hpb : emits is_log (plot_boundary model partition feat1 feat2)).
  { unfold plot_boundary. emits_core ltac:(exact I). }
  destruct (Hpd w) as (t & Ht & Hlt & _). destruct (Hpb w) as (t' & Ht' & Hlt' & _).
  assert (Hvalid : partition = "train" \/ partition = "test" ->
            forall w0, exists Xy, get_partition_data model partition w0 = (inr Xy, w0)).
  { intros [-> | ->] w0; eexists; reflexivity. }
  split; [|split; [|split; [|split; [|split; [|split]]]]].
  - unfold plot_partial_dependence. rewrite bind_logger_info.
    destruct (get_partition_data_cases model partition
                (emit (Log "Generating Partial Dependence Plot" []) w))
      as [[Xy E]|E].
    + rewrite (bind_ok _ _ _ _ _ E). eexists; reflexivity.
    + rewrite (bind_err _ _ _ _ _ E). eexists; reflexivity.
  - rewrite Ht, drawn_app, (drawn_is_log _ Hlt). apply app_nil_r.
  - rewrite Ht, saved_app, (saved_is_log _ Hlt). apply app_nil_r.
  - rewrite Ht', drawn_app, (drawn_is_log _ Hlt'). apply app_nil_r.
  - rewrite Ht', saved_app, (saved_is_log _ Hlt'). apply app_nil_r.
  - unfold plot_boundary. rewrite bind_logger_info. intros Hok.
    destruct (getitem_inr _ _ _ _ _ Hok) as (v & Hv & E). rewrite E in Hok.
    exists v. split; [exact Hv|]. intros ->. cbn [not_classification] in Hok.
    destruct (get_partition_data_cases model partition
                (emit (Log "Generating Boundary Plots" []) w)) as [[Xy E']|E'].
    + rewrite (bind_ok _ _ _ _ _ E') in Hok. discriminate.
    + rewrite (bind_err _ _ _ _ _ E') in Hok. discriminate.
  - intros Hp. split.
    + unfold plot_partial_dependence. rewrite bind_logger_info.
      destruct (Hvalid Hp (emit (Log "Generating Partial Dependence Plot" []) w))
        as (Xy & E).
      rewrite (bind_ok _ _ _ _ _ E). reflexivity.
    + intros Hc. unfold plot_boundary. rewrite bind_logger_info.
      rewrite (bind_ok _ _ _ _ _ (getitem_some _ _ _ _ Hc)).
      cbn [not_classification].
      destruct (Hvalid Hp (emit (Log "Generating Boundary Plots" []) w)) as (Xy & E).
      rewrite (bind_ok _ _ _ _ _ E). reflexivity.
Qed.

(** ** The partition is checked by each routine, after its own gates *)

(** For a partition other than ['train'] and ['test'], the routines that
    look the partition up raise the [TypeError] of [get_partition_data]
    before they draw or write anything: the world only gains the entry
    record of the routine.  [plot_calibration] and [plot_roc_curve] do so on
    classification models only, and [plot_roc_curve], [plot_learning_curve]
    and [plot_validation_curve] once the configuration keys that they read
    first are found. *)
Theorem invalid_partition_rejected model partition pname prange w :
  partition <> "train" -> partition <> "test" ->
  let bad (entry : string) : (exn + unit) * world :=
    (inl (TypeError "Partition must be train or test"), emit (Log entry []) w) in
  plot_importance model partition w = bad "Generating Feature Importance Plots" /\
  plot_confusion_matrix model partition w = bad "Generating Confusion Matrices" /\
  (specs model !! "model_type" = Some (VModelType classification) ->
   plot_calibration model partition w = bad "Generating Calibration Plot") /\
  (specs model !! "model_type" = Some (VModelType classification) ->
   is_Some (specs model !! "cv_folds") -> is_Some (specs model !! "seed") ->
   is_Some (specs model !! "shuffle") -> is_Some (specs model !! "split") ->
   plot_roc_curve model partition w = bad "Generating ROC Curves") /\
  (is_Some (specs model !! "cv_folds") -> is_Some (specs model !! "n_jobs") ->
   is_Some (specs model !! "scorer") -> is_Some (specs model !! "seed") ->
   is_Some (specs model !! "shuffle") -> is_Some (specs model !! "split") ->
   is_Some (specs model !! "verbosity") ->
   plot_learning_curve model partition w = bad "Generating Learning Curves") /\
  (is_Some (specs model !! "cv_folds") -> is_Some (specs model !! "n_jobs") ->
   is_Some (specs model !! "scorer") -> is_Some (specs model !! "verbosity") ->
   plot_validation_curve model partition pname prange w
   = bad "Generating Validation Curves").
Proof.
  intros H1 H2 bad. subst bad.
  assert (Hg : forall w0, get_partition_data model partition w0
                          = (inl (TypeError "Partition must be train or test"), w0)).
  { intros w0. unfold get_partition_data.
    rewrite (eqb_ne _ _ H1), (eqb_ne _ _ H2). reflexivity. }
  unfold plot_importance, plot_confusion_matrix, plot_calibration, plot_roc_curve,
    plot_learning_curve, plot_validation_curve.
  rewrite !bind_logger_info.
  repeat split.
  - rewrite (bind_err _ _ _ _ _ (Hg _)). reflexivity.
  - rewrite (bind_err _ _ _ _ _ (Hg _)). reflexivity.
  - intros Hc. rewrite (bind_ok _ _ _ _ _ (getitem_some _ _ _ _ Hc)).
    cbn [not_classification]. rewrite (bind_err _ _ _ _ _ (Hg _)). reflexivity.
  - intros Hc [v1 E1] [v2 E2] [v3 E3] [v4 E4].
    rewrite (bind_ok _ _ _ _ _ (getitem_some _ _ _ _ Hc)).
    cbn [not_classification].
    rewrite (bind_ok _ _ _ _ _ (getitem_some _ _ _ _ E1)).
    rewrite (bind_ok _ _ _ _ _ (getitem_some _ _ _ _ E2)).
    rewrite (bind_ok _ _ _ _ _ (getitem_some _ _ _ _ E3)).
    rewrite (bind_ok _ _ _ _ _ (getitem_some _ _ _ _ E4)).
    rewrite (bind_err _ _ _ _ _ (Hg _)). reflexivity.
  - intros [v1 E1] [v2 E2] [v3 E3] [v4 E4] [v5 E5] [v6 E6] [v7 E7].
    rewrite (bind_ok _ _ _ _ _ (getitem_some _ _ _ _ E1)).
    rewrite (bind_ok _ _ _ _ _ (getitem_some _ _ _ _ E2)).
    rewrite (bind_ok _ _ _ _ _ (getitem_some _ _ _ _ E3)).
    rewrite (bind_ok _ _ _ _ _ (getitem_some _ _ _ _ E4)).
    rewrite (bind_ok _ _ _ _ _ (getitem_some _ _ _ _ E5)).
    rewrite (bind_ok _ _ _ _ _ (getitem_some _ _ _ _ E6)).
    rewrite (bind_ok _ _ _ _ _ (getitem_some _ _ _ _ E7)).
    rewrite (bind_err _ _ _ _ _ (Hg _)). reflexivity.
  - intros [v1 E1] [v2 E2] [v3 E3] [v4 E4].
    rewrite (bind_ok _ _ _ _ _ (getitem_some _ _ _ _ E1)).
    rewrite (bind_ok _ _ _ _ _ (getitem_some _ _ _ _ E2)).
    rewrite (bind_ok _ _ _ _ _ (getitem_some _ _ _ _ E3)).
    rewrite (bind_ok _ _ _ _ _ (getitem_some _ _ _ _ E4)).
    rewrite (bind_err _ _ _ _ _ (Hg _)). reflexivity.
Qed.

(** ** The dispatcher: its flags *)

(** [generate_plots] reads its five flags before it does anything else,
    whatever the partition: if one of them is missing, the call raises the
    [KeyError] of the first missing one, and the world only gains the
    opening log record, no routine having been started. *)
Theorem generate_plots_missing_flag model partition w pre key post :
  plot_flags = pre ++ key :: post ->
  (forall k, In k pre -> is_Some (specs model !! k)) ->
  specs model !! key = None ->
  generate_plots model partition w
  = (inl (KeyError [key]),
     emit (Log "Generating Plots for Partition: %s" [AVal (VStr partition)]) w).
Proof.
  intros Hsplit Hpre Hkey. unfold generate_plots. rewrite bind_logger_info.
  unfold plot_flags in Hsplit.
  repeat (destruct pre as [|? pre];
          [ injection Hsplit as <- <-;
            rewrite (bind_err _ _ _ _ _ (getitem_none _ _ _ Hkey)); reflexivity
          | injection Hsplit as <- Hsplit;
            let v := fresh "v" in let E := fresh "E" in
            destruct (Hpre _ (or_introl eq_refl)) as [v E];
            rewrite (bind_ok _ _ _ _ _ (getitem_some _ _ _ _ E));
            assert (Hpre' : forall k, In k pre -> is_Some (specs model !! k))
              by (intros k Hk; apply Hpre; right; exact Hk);
            clear Hpre; rename Hpre' into Hpre ]).
  destruct pre; discriminate.
Qed.

(** [generate_plots] does not check the partition itself: when the five
    flags are present and false, it returns normally for any partition
    string, having only logged its opening record. *)
Theorem generate_plots_all_disabled model partition w :
  (forall k, In k plot_flags ->
     exists v, specs model !! k = Some v /\ truthy v = false) ->
  generate_plots model partition w
  = (inr tt,
     emit (Log "Generating Plots for Partition: %s" [AVal (VStr partition)]) w).
Proof.
  intros H. unfold generate_plots. rewrite bind_logger_info.
  destruct (H "calibration_plot") as (v1 & E1 & T1); [simpl; auto|].
  destruct (H "confusion_matrix") as (v2 & E2 & T2); [simpl; auto|].
  destruct (H "importances") as (v3 & E3 & T3); [simpl; auto|].
  destruct (H "learning_curve") as (v4 & E4 & T4); [simpl; auto 6|].
  destruct (H "roc_curve") as (v5 & E5 & T5); [simpl; auto 6|].
  rewrite (bind_ok _ _ _ _ _ (getitem_some _ _ _ _ E1)).
  rewrite (bind_ok _ _ _ _ _ (getitem_some _ _ _ _ E2)).
  rewrite (bind_ok _ _ _ _ _ (getitem_some _ _ _ _ E3)).
  rewrite (bind_ok _ _ _ _ _ (getitem_some _ _ _ _ E4)).
  rewrite (bind_ok _ _ _ _ _ (getitem_some _ _ _ _ E5)).
  rewrite T1, T2, T3, T4, T5.
  destruct (String.eqb partition "train"); reflexivity.
Qed.

(** ** The dispatcher: the files of a complete run *)

Lemma not_classification_false (v : value) :
  not_classification v = false -> v = VModelType classification.
Proof. destruct v as [| | | | |[|n]]; simpl; congruence. Qed.

Section Dispatcher_files.

Variable model : Model.
Variables b p : string.
Hypothesis Hb : specs model !! "base_dir" = Some (VStr b).
Hypothesis Hp : specs model !! "project" = Some (VStr p).

Lemma writes_plot_calibration_any partition :
  writes (if is_classifier model
          then [output_path b p "calibration" partition] else [])
    (plot_calibration model partition).
Proof.
  unfold is_classifier.
  destruct (specs model !! "model_type") as [v|] eqn:Hv.
  - destruct (not_classification v) eqn:Hn; cbn [negb].
    + unfold plot_calibration. writes_prefix.
      match goal with H : _ !! "model_type" = Some _ |- _ =>
        rewrite Hv in H; inversion H; subst end.
      rewrite Hn. apply writes_nil. emits_core ltac:(exact I).
    + apply not_classification_false in Hn. subst v.
      apply (writes_plot_calibration model b p Hb Hp partition Hv).
  - intros w a Hok. exfalso. revert Hok. unfold plot_calibration.
    rewrite bind_logger_info, (bind_err _ _ _ _ _ (getitem_none _ _ _ Hv)).
    discriminate.
Qed.

Lemma writes_plot_roc_curve_any partition :
  writes (if is_classifier model
          then map (algo_file b p "roc_curve" partition) (algolist model) else [])
    (plot_roc_curve model partition).
Proof.
  unfold is_classifier.
  destruct (specs model !! "model_type") as [v|] eqn:Hv.
  - destruct (not_classification v) eqn:Hn; cbn [negb].
    + unfold plot_roc_curve. writes_prefix.
      match goal with H : _ !! "model_type" = Some _ |- _ =>
        rewrite Hv in H; inversion H; subst end.
      rewrite Hn. apply writes_nil. emits_core ltac:(exact I).
    + apply not_classification_false in Hn. subst v.
      apply (writes_plot_roc_curve model b p Hb Hp partition Hv).
  - intros w a Hok. exfalso. revert Hok. unfold plot_roc_curve.
    rewrite bind_logger_info, (bind_err _ _ _ _ _ (getitem_none _ _ _ Hv)).
    discriminate.
Qed.

Lemma writes_stage (key : string) (v : value) (fs : list string) (c : M unit) :
  specs model !! key = Some v -> writes fs c ->
  writes (if flag model key then fs else []) (if truthy v then c else ret tt).
Proof.
  intros Hv Hc. unfold flag. rewrite Hv.
  destruct (truthy v); [exact Hc|].
  apply writes_nil, emits_silent, silent_ret.
Qed.

Lemma if_and_list {A} (c d : bool) (l : list A) :
  (if c && d then l else []) = if c then (if d then l else []) else [].
Proof. destruct c, d; reflexivity. Qed.

(** On a normal return, [generate_plots] has written exactly the files of
    the enabled routines, in the order calibration, confusion matrices, ROC
    curves and, for ['train'] only, feature importances and learning
    curves; the calibration and ROC files exist only for a classification
    model. *)
Theorem generate_plots_files partition :
  (forall v : list F, Permutation (argsort v) (seq 0 (length v))) ->
  writes (generated_files model b p partition) (generate_plots model partition).
Proof.
  intros Hperm. unfold generate_plots, generated_files.
  apply writes_bind_nil; [emits_core ltac:(exact I) | intros _].
  apply writes_bind_getitem; intros cal Hcal.
  apply writes_bind_getitem; intros cm Hcm.
  apply writes_bind_getitem; intros imp Himp.
  apply writes_bind_getitem; intros lc Hlc.
  apply writes_bind_getitem; intros roc Hroc.
  rewrite !if_and_list.
  apply writes_bind; [|intros _].
  { apply (writes_stage _ cal _ _ Hcal), writes_plot_calibration_any. }
  apply writes_bind; [|intros _].
  { apply (writes_stage _ cm _ _ Hcm).
    apply (writes_plot_confusion_matrix model b p Hb Hp). }
  apply writes_bind; [|intros _].
  { apply (writes_stage _ roc _ _ Hroc), writes_plot_roc_curve_any. }
  destruct (String.eqb_spec partition "train") as [Htrain|Htrain].
  - apply writes_bind; [|intros _].
    + apply (writes_stage _ imp _ _ Himp).
      intros w a _. apply (plot_importance_saved model b p Hb Hp Hperm).
      left. exact Htrain.
    + apply (writes_stage _ lc _ _ Hlc).
      apply (writes_plot_learning_curve model b p Hb Hp).
  - apply writes_nil, emits_silent, silent_ret.
Qed.

End Dispatcher_files.

(** ** The confusion matrices: complete and partial runs *)

Lemma for_each_app {A} (l1 l2 : list A) (body : A -> M unit) (w : world) :
  for_each (l1 ++ l2) body w
  = match for_each l1 body w with
    | (inl e, w') => (inl e, w')
    | (inr _, w') => for_each l2 body w'
    end.
Proof.
  revert w. induction l1 as [|x l1 IH]; intros w; [reflexivity|].
  simpl. unfold bind. destruct (body x w) as [[e|[]] w1]; [reflexivity|].
  apply IH.
Qed.

Lemma getitem2_none {V} (d : gmap (string * string) V) (a c : string) (w : world) :
  d !! (a, c) = None -> getitem2 d a c w = (inl (KeyError [a; c]), w).
Proof. intros H. unfold getitem2. rewrite H. reflexivity. Qed.

Section Confusion_configured.

Variable model : Model.
Variables b p : string.
Hypothesis Hb : specs model !! "base_dir" = Some (VStr b).
Hypothesis Hp : specs model !! "project" = Some (VStr p).

Lemma confusion_algo_returns partition y algo w :
  is_Some (preds model !! (algo, partition)) ->
  fst (confusion_algo model partition y algo w) = inr tt.
Proof.
  intros [yp Hy]. unfold confusion_algo.
  rewrite bind_logger_info, (bind_ok _ _ _ _ _ (getitem2_some _ _ _ _ _ Hy)).
  cbv zeta. rewrite bind_logger_info, !bind_draw.
  rewrite (write_plot_matplotlib _ _ _ _ _ _ _ Hb Hp). reflexivity.
Qed.

Lemma confusion_algo_missing partition y algo w :
  preds model !! (algo, partition) = None ->
  confusion_algo model partition y algo w
  = (inl (KeyError [algo; partition]),
     emit (Log "Confusion Matrix for Algorithm: %s" [AVal (VStr algo)]) w).
Proof.
  intros Hy. unfold confusion_algo.
  rewrite bind_logger_info, (bind_err _ _ _ _ _ (getitem2_none _ _ _ _ Hy)).
  reflexivity.
Qed.

Lemma confusion_loop_complete partition y (l : list string) w :
  (forall a, In a l -> is_Some (preds model !! (a, partition))) ->
  fst (for_each l (confusion_algo model partition y) w) = inr tt /\
  saved (events (snd (for_each l (confusion_algo model partition y) w)))
  = saved (events w) ++ map (algo_file b p "confusion" partition) l.
Proof.
  intros Hall.
  assert (Hok : fst (for_each l (confusion_algo model partition y) w) = inr tt).
  { apply for_each_returns. intros a Ha w0. apply confusion_algo_returns, Hall, Ha. }
  split; [exact Hok|].
  rewrite <- concat_map_singleton.
  apply (writes_for_each (fun a => [algo_file b p "confusion" partition a]) l
           (confusion_algo model partition y)
           (fun a => writes_confusion_algo model b p Hb Hp partition y a) w tt Hok).
Qed.

(** With a configured writer and a partition that exists,
    [plot_confusion_matrix] returns normally with one file per algorithm
    when every algorithm has stored predictions for the partition.  When
    some algorithm has none, the call raises the [KeyError] of the first
    such algorithm, the files of the algorithms listed before it are
    already written, and none of the later ones is. *)
Theorem plot_confusion_matrix_outcome partition w :
  partition = "train" \/ partition = "test" ->
  let r := plot_confusion_matrix model partition w in
  ((forall a, In a (algolist model) -> is_Some (preds model !! (a, partition))) ->
   fst r = inr tt /\
   saved (events (snd r))
   = saved (events w)
       ++ map (algo_file b p "confusion" partition) (algolist model)) /\
  (forall pre a post,
     algolist model = pre ++ a :: post ->
     (forall x, In x pre -> is_Some (preds model !! (x, partition))) ->
     preds model !! (a, partition) = None ->
     fst r = inl (KeyError [a; partition]) /\
     saved (events (snd r))
     = saved (events w) ++ map (algo_file b p "confusion" partition) pre).
Proof.
  intros Hpart r. subst r. unfold plot_confusion_matrix.
  rewrite bind_logger_info.
  assert (Hg : exists Xy, forall w0,
             get_partition_data model partition w0 = (inr Xy, w0)).
  { destruct Hpart as [-> | ->]; eexists; intros w0; reflexivity. }
  destruct Hg as (Xy & Hg). rewrite (bind_ok _ _ _ _ _ (Hg _)).
  set (w1 := emit (Log "Generating Confusion Matrices" []) w).
  assert (H1 : saved (events w1) = saved (events w)).
  { subst w1. cbn [emit events]. rewrite saved_app. apply app_nil_r. }
  split.
  - intros Hall.
    destruct (confusion_loop_complete partition (snd Xy) (algolist model) w1 Hall)
      as (Hok & Hs).
    split; [exact Hok|]. rewrite Hs, H1. reflexivity.
  - intros pre a post Hsplit Hpre Ha. rewrite Hsplit, for_each_app.
    destruct (confusion_loop_complete partition (snd Xy) pre w1 Hpre) as (Hok & Hs).
    destruct (for_each pre (confusion_algo model partition (snd Xy)) w1)
      as [[e|[]] w2]; cbn [fst snd] in Hok, Hs; [discriminate|].
    cbn [for_each]. rewrite (bind_err _ _ _ _ _ (confusion_algo_missing _ _ _ _ Ha)).
    split; [reflexivity|]. cbn [snd emit events].
    rewrite saved_app, Hs, H1. simpl. apply app_nil_r.
Qed.

End Confusion_configured.

(** ** The calibration plot: complete and failed runs *)

Lemma bind_ret {A B} (a : A) (k : A -> M B) (w : world) :
  bind (ret a) k w = k a w.
Proof. reflexivity. Qed.


Section Calibration_configured.

Variable model : Model.
Variables b p : string.
Hypothesis Hb : specs model !! "base_dir" = Some (VStr b).
Hypothesis Hp : specs model !! "project" = Some (VStr p).
Hypothesis Hc : specs model !! "model_type" = Some (VModelType classification).



End Calibration_configured.

(** ** The bare [except] of the feature-importance plots *)

Lemma always_fails_bind_r {A B} (c : M A) (k : A -> M B) :
  (forall a, always_fails (k a)) -> always_fails (bind c k).
Proof.
  intros Hk w. unfold bind. destruct (c w) as [[e|a] w1].
  - exists e. reflexivity.
  - apply Hk.
Qed.

Lemma write_plot_unconfigured model vizlib plot plot_type tag :
  specs model !! "base_dir" = None \/ specs model !! "project" = None ->
  always_fails (write_plot model vizlib plot plot_type tag).
Proof.
  intros H w. unfold write_plot, bind, getitem.
  destruct (specs model !! "base_dir") as [bd|]; [|eexists; reflexivity].
  destruct H as [H|H]; [discriminate|]. rewrite H. eexists; reflexivity.
Qed.

Lemma importance_try_unconfigured model partition algo :
  specs model !! "base_dir" = None \/ specs model !! "project" = None ->
  always_fails (importance_try model partition algo).
Proof.
  intros H. unfold importance_try.
  repeat (cbv zeta;
          match goal with
          | |- always_fails (bind _ _) => apply always_fails_bind_r; intros ?
          end).
  apply write_plot_unconfigured, H.
Qed.

(** When the body of the [try] raises, the algorithm is reported as having
    no importances and nothing is written for it. *)
Lemma importance_algo_skipped model partition algo w :
  (exists e, fst (importance_try model partition algo
                    (emit (Log "Feature Importances for Algorithm: %s"
                             [AVal (VStr algo)]) w)) = inl e) ->
  saved (events (snd (importance_algo model partition algo w))) = saved (events w) /\
  exists t, events (snd (importance_algo model partition algo w)) = events w ++ t /\
            In (Log "%s does not have feature importances" [AVal (VStr algo)]) t.
Proof.
  intros (e & He). unfold importance_algo. rewrite bind_logger_info.
  unfold try_except.
  pose proof (fails_clean_importance_try model partition algo _ e He) as Hc.
  assert (Hem : emits (fun _ => True) (importance_try model partition algo)).
  { unfold importance_try. emits_core ltac:(exact I).
    apply emits_write_plot; intros; exact I. }
  destruct (Hem (emit (Log "Feature Importances for Algorithm: %s"
                         [AVal (VStr algo)]) w)) as (t2 & Ht2 & _ & _).
  destruct (importance_try model partition algo _) as [[e'|[]] w2];
    cbn [fst snd] in *; [|discriminate].
  cbn [logger_info snd emit events] in *. split.
  - rewrite saved_app, Hc, saved_app. simpl. rewrite !app_nil_r. reflexivity.
  - exists ([Log "Feature Importances for Algorithm: %s" [AVal (VStr algo)]]
            ++ t2
            ++ [Log "%s does not have feature importances" [AVal (VStr algo)]]).
    split.
    + rewrite Ht2, <- !app_assoc. reflexivity.
    + apply in_or_app. right. apply in_or_app. right. left. reflexivity.
Qed.

Lemma concat_map_nil {A B} (l : list A) :
  concat (map (fun _ : A => @nil B) l) = [].
Proof. induction l as [|x l IH]; simpl; auto. Qed.

Lemma plot_importance_record model partition algo w :
  partition = "train" \/ partition = "test" ->
  In algo (algolist model) ->
  (forall w0, exists e, fst (importance_try model partition algo w0) = inl e) ->
  In (Log "%s does not have feature importances" [AVal (VStr algo)])
     (new_events w (snd (plot_importance model partition w))).
Proof.
  intros Hpart Hin Hfail.
  assert (Hg : exists Xy, forall w0,
             get_partition_data model partition w0 = (inr Xy, w0)).
  { destruct Hpart as [-> | ->]; eexists; intros w0; reflexivity. }
  destruct Hg as (Xy & Hg).
  unfold plot_importance. rewrite bind_logger_info, (bind_ok _ _ _ _ _ (Hg _)).
  destruct (for_each_event (algolist model) (importance_algo model partition) algo
              (Log "%s does not have feature importances" [AVal (VStr algo)])
              (importance_algo_returns model partition)
              (emits_importance_algo model partition) Hin) with
    (w := emit (Log "Generating Feature Importance Plots" []) w)
    as (t & Ht & He).
  { intros w0. apply importance_algo_skipped, Hfail. }
  cbn [emit events] in Ht. rewrite <- app_assoc in Ht.
  rewrite (new_events_app _ _ _ Ht). right. exact He.
Qed.

(** The bare [except] of [plot_importance] also catches the errors of the
    writer.  With [base_dir] or [project] missing from the configuration,
    the call still returns normally for a partition that exists, writes no
    file, and reports every algorithm of the list as having no feature
    importances, whether or not its vector is stored. *)
Theorem plot_importance_hides_writer_errors model partition w :
  partition = "train" \/ partition = "test" ->
  specs model !! "base_dir" = None \/ specs model !! "project" = None ->
  let r := plot_importance model partition w in
  fst r = inr tt /\
  saved (events (snd r)) = saved (events w) /\
  (forall algo,
     In algo (algolist model) ->
     In (Log "%s does not have feature importances" [AVal (VStr algo)])
        (new_events w (snd r))).
Proof.
  intros Hpart Hcfg r. subst r.
  assert (Hg : exists Xy, forall w0,
             get_partition_data model partition w0 = (inr Xy, w0)).
  { destruct Hpart as [-> | ->]; eexists; intros w0; reflexivity. }
  destruct Hg as (Xy & Hg).
  assert (Hok : fst (plot_importance model partition w) = inr tt).
  { unfold plot_importance. rewrite bind_logger_info, (bind_ok _ _ _ _ _ (Hg _)).
    apply for_each_returns. intros. apply importance_algo_returns. }
  split; [exact Hok|]. split.
  - unfold plot_importance in *.
    rewrite bind_logger_info, (bind_ok _ _ _ _ _ (Hg _)) in Hok |- *.
    rewrite (writes_for_each (fun _ => []) (algolist model)
               (importance_algo model partition)
               ltac:(intros a w0 u _; rewrite app_nil_r;
                     apply importance_algo_skipped,
                       (importance_try_unconfigured _ _ _ Hcfg)) _ tt Hok).
    rewrite concat_map_nil, app_nil_r. cbn [emit events].
    rewrite saved_app. apply app_nil_r.
  - intros algo Hin. apply plot_importance_record; auto.
    intros w0. apply (importance_try_unconfigured _ _ _ Hcfg).
Qed.

(** A stored importance vector with fewer than [n_top] entries makes the
    ranking loop run past its end; the bare [except] catches the
    [IndexError], and the algorithm is reported as having no feature
    importances. *)
Theorem plot_importance_short_vector model partition algo v w :
  (forall u : list F, Permutation (argsort u) (seq 0 (length u))) ->
  partition = "train" \/ partition = "test" ->
  In algo (algolist model) ->
  importances model !! algo = Some v ->
  length v < n_top ->
  In (Log "%s does not have feature importances" [AVal (VStr algo)])
     (new_events w (snd (plot_importance model partition w))).
Proof.
  intros Hperm Hpart Hin Hv Hlen. apply plot_importance_record; auto.
  intros w0. apply (importance_try_fails model Hperm).
  unfold has_plot. rewrite Hv. apply Nat.leb_gt, Hlen.
Qed.

(** ** The ROC curves without folds *)

Lemma roc_algo_no_folds model partition X y cv cv_folds algo est w :
  estimators model !! algo = Some est ->
  cv_split cv X y = [] ->
  roc_algo model partition X y cv cv_folds algo w
  = (inl (if Nat.eqb (get_n_splits cv X y) 0
          then ZeroDivisionError "float division by zero"
          else TypeError "'float' object does not support item assignment"),
     emit (Draw "plt.plot" [AIdx [0; 1]; AIdx [0; 1]; AVal (VStr "--");
                            AVal (VStr "k"); AVal (VStr "Luck")])
       (emit (Draw "plt.figure" [])
          (emit (Log "ROC Curve for Algorithm: %s" [AVal (VStr algo)]) w))).
Proof.
  intros Hest Hsplit. unfold roc_algo.
  rewrite bind_logger_info, (bind_ok _ _ _ _ _ (getitem_some _ _ _ _ Hest)).
  cbv zeta. rewrite bind_draw, Hsplit. cbn [for_acc].
  rewrite bind_ret, bind_draw. cbn [loc_mean_tpr].
  unfold idiv. destruct (Nat.eqb (get_n_splits cv X y) 0).
  - reflexivity.
  - rewrite bind_ret. reflexivity.
Qed.

(** When the splitter yields no fold, [mean_tpr] is still the float [0.0]
    after the loop.  The first algorithm then fails: with
    [ZeroDivisionError] at [mean_tpr /= n] when the splitter reports zero
    splits, and otherwise with [TypeError] at [mean_tpr[-1] = 1.0], because
    a float does not support item assignment.  No file is written. *)
Theorem plot_roc_curve_no_folds
    model partition X y cv_folds seed shuffle split algo rest est w :
  (forall w0, get_partition_data model partition w0 = (inr (X, y), w0)) ->
  specs model !! "model_type" = Some (VModelType classification) ->
  specs model !! "cv_folds" = Some cv_folds ->
  specs model !! "seed" = Some seed ->
  specs model !! "shuffle" = Some shuffle ->
  specs model !! "split" = Some split ->
  algolist model = algo :: rest ->
  estimators model !! algo = Some est ->
  let cv := if truthy shuffle then StratifiedShuffleSplit cv_folds split seed
            else StratifiedKFold cv_folds false seed in
  cv_split cv X y = [] ->
  let r := plot_roc_curve model partition w in
  fst r = inl (if Nat.eqb (get_n_splits cv X y) 0
               then ZeroDivisionError "float division by zero"
               else TypeError "'float' object does not support item assignment") /\
  saved (events (snd r)) = saved (events w).
Proof.
  intros Hg Hc Hcv Hseed Hsh Hsp Halgo Hest cv Hsplit r. subst r.
  unfold plot_roc_curve.
  rewrite bind_logger_info, (bind_ok _ _ _ _ _ (getitem_some _ _ _ _ Hc)).
  cbn [not_classification].
  rewrite (bind_ok _ _ _ _ _ (getitem_some _ _ _ _ Hcv)).
  rewrite (bind_ok _ _ _ _ _ (getitem_some _ _ _ _ Hseed)).
  rewrite (bind_ok _ _ _ _ _ (getitem_some _ _ _ _ Hsh)).
  rewrite (bind_ok _ _ _ _ _ (getitem_some _ _ _ _ Hsp)).
  rewrite (bind_ok _ _ _ _ _ (Hg _)). cbv zeta. cbn [fst snd]. fold cv.
  rewrite Halgo. cbn [for_each].
  rewrite (bind_err _ _ _ _ _ (roc_algo_no_folds _ _ _ _ _ _ _ _ _ Hest Hsplit)).
  split; [reflexivity|]. cbn [snd emit events].
  rewrite !saved_app. simpl. rewrite !app_nil_r. reflexivity.
Qed.

(** ** The validation curves *)

Lemma drawn_no_new_figure (t : list event) :
  Forall no_new_figure t -> ~ In "plt.figure" (drawn t).
Proof.
  induction 1 as [|e t He _ IH]; simpl; [intros []|].
  destruct e as [f a|c a|v h q]; simpl in He |- *; try exact IH.
  intros [E|E]; [exact (He E) | exact (IH E)].
Qed.

(** [plot_validation_curve] never opens a figure: unlike the other
    per-algorithm routines, which call [plt.figure] for each algorithm, it
    draws every algorithm on the figure that is current, so the file of an
    algorithm also shows the curves of the algorithms before it. *)
Theorem plot_validation_curve_opens_no_figure model partition pname prange w :
  ~ In "plt.figure"
      (drawn (new_events w
                (snd (plot_validation_curve model partition pname prange w)))).
Proof.
  assert (H : emits no_new_figure
                (plot_validation_curve model partition pname prange)).
  { unfold plot_validation_curve, validation_algo, write_plot.
    emits_core ltac:(first [exact I | simpl; discriminate]). }
  destruct (H w) as (t & Ht & Hf & _).
  rewrite (new_events_app _ _ _ Ht). apply drawn_no_new_figure, Hf.
Qed.

(** An empty range of hyperparameter values is not rejected up front.
    With an empty algorithm list the call returns normally.  Otherwise the
    call of [validation_curve] for the first algorithm raises [IndexError]
    before anything is drawn, so that the [min(prange)] of the function is
    never evaluated on an empty range; no file is written. *)
Theorem plot_validation_curve_empty_range model partition pname X y w :
  (forall w0, get_partition_data model partition w0 = (inr (X, y), w0)) ->
  is_Some (specs model !! "cv_folds") -> is_Some (specs model !! "n_jobs") ->
  is_Some (specs model !! "scorer") -> is_Some (specs model !! "verbosity") ->
  let r := plot_validation_curve model partition pname [] w in
  (algolist model = [] -> fst r = inr tt) /\
  (forall algo rest,
     algolist model = algo :: rest -> is_Some (estimators model !! algo) ->
     (exists msg, fst r = inl (IndexError msg)) /\
     saved (events (snd r)) = saved (events w) /\
     drawn (events (snd r)) = drawn (events w)).
Proof.
  intros Hg [v1 E1] [v2 E2] [v3 E3] [v4 E4] r. subst r.
  unfold plot_validation_curve.
  rewrite bind_logger_info.
  rewrite (bind_ok _ _ _ _ _ (getitem_some _ _ _ _ E1)).
  rewrite (bind_ok _ _ _ _ _ (getitem_some _ _ _ _ E2)).
  rewrite (bind_ok _ _ _ _ _ (getitem_some _ _ _ _ E3)).
  rewrite (bind_ok _ _ _ _ _ (getitem_some _ _ _ _ E4)).
  rewrite (bind_ok _ _ _ _ _ (Hg _)). cbn [fst snd].
  split.
  - intros ->. reflexivity.
  - intros algo rest -> [est Hest]. cbn [for_each].
    assert (Hrun : validation_algo model partition X y pname [] v1 v3 v2 algo
                     (emit (Log "Generating Validation Curves" []) w)
                   = (inl (IndexError "too many indices for array"),
                      emit (Log "Algorithm: %s" [AVal (VStr algo)])
                        (emit (Log "Generating Validation Curves" []) w))).
    { unfold validation_algo. cbv zeta.
      rewrite bind_logger_info, (bind_ok _ _ _ _ _ (getitem_some _ _ _ _ Hest)).
      reflexivity. }
    rewrite (bind_err _ _ _ _ _ Hrun). cbn [fst snd].
    split; [eexists; reflexivity|]. split.
    + cbn [emit events]. rewrite !saved_app. simpl. rewrite !app_nil_r.
      reflexivity.
    + cbn [emit events]. rewrite !drawn_app. simpl. rewrite !app_nil_r.
      reflexivity.
Qed.

(** ** Repeated scatter plots *)

Lemma plot_scatter_lists model data features target tag w :
  lists (snd (plot_scatter model data features target tag w)) features
  = lists w features ++ [target].
Proof.
  rewrite plot_scatter_unfold.
  match goal with |- lists (snd (?c ?w1)) _ = _ =>
    destruct (emits_scatter_rest model data target tag
                (lists w features ++ [target]) w1) as (t & _ & _ & HL)
  end.
  rewrite HL. cbn [store_list lists]. rewrite Nat.eqb_refl. reflexivity.
Qed.

(** The append of [plot_scatter] accumulates over calls that share their
    [features] list: after two calls the list has gained both targets, so
    the second plot selects the first target as one of its features, even
    when the two calls use different models, frames and tags. *)
Theorem plot_scatter_accumulates
    model data target tag model' data' target' tag' features w :
  let w1 := snd (plot_scatter model data features target tag w) in
  let r := plot_scatter model' data' features target' tag' w1 in
  lists (snd r) features = lists w features ++ [target; target'] /\
  (forall df,
     select data' (lists w features ++ [target; target']) = inr df ->
     In (Draw "sns.pairplot"
           (map (fun c => AObj (snd c)) df ++ [AVal (VStr target')]))
        (events (snd r))).
Proof.
  intros w1 r. subst r w1.
  assert (HL : lists (snd (plot_scatter model data features target tag w)) features
               ++ [target'] = lists w features ++ [target; target']).
  { rewrite plot_scatter_lists, <- app_assoc. reflexivity. }
  split.
  - rewrite plot_scatter_lists. exact HL.
  - intros df Hdf. rewrite (plot_scatter_unfold model' data'). rewrite HL.
    unfold scatter_rest, bind, columns, lift. rewrite Hdf.
    cbn [draw draw_new emit events].
    match goal with
    | |- In _ (events (snd (write_plot ?m ?v ?h ?c ?g ?w0))) =>
        destruct (emits_write_plot (fun _ => True) m v h c g
                    ltac:(intros; exact I) ltac:(intros; exact I)
                    ltac:(intros; exact I) w0) as (u & Hu & _ & _)
    end.
    rewrite Hu. cbn [events].
    apply in_or_app. left. apply in_or_app. right. left. reflexivity.
Qed.

(** ** File names *)

Lemma append_assoc (s1 s2 s3 : string) :
  (s1 +:+ s2) +:+ s3 = s1 +:+ s2 +:+ s3.
Proof.
  induction s1 as [|a s1 IH]; [reflexivity|].
  change (String a ((s1 +:+ s2) +:+ s3) = String a (s1 +:+ s2 +:+ s3)).
  rewrite IH. reflexivity.
Qed.

(** The file name does not keep the category and the tag apart: an
    underscore may belong to either.  Writing category [x_y] with tag [z]
    and writing category [x] with tag [y_z] are the same call for the
    writer, so the second write replaces the file of the first. *)
Theorem write_plot_name_clash model vizlib plot x y z w :
  write_plot model vizlib plot (x +:+ "_" +:+ y) z w
  = write_plot model vizlib plot x (y +:+ "_" +:+ z) w.
Proof.
  unfold write_plot.
  assert (E : join "" [x +:+ "_" +:+ y; USEP; z; ".png"]
              = join "" [x; USEP; y +:+ "_" +:+ z; ".png"]).
  { unfold join, USEP. cbn [String.concat].
    rewrite !append_assoc. reflexivity. }
  rewrite E. reflexivity.
Qed.

Lemma algo_file_nodup (b p category partition : string) (l : list string) :
  NoDup l -> NoDup (map (algo_file b p category partition) l).
Proof.
  intros H. apply NoDup_fmap_2; [|exact H].
  intros a1 a2. apply algo_file_inj.
Qed.

Lemma algo_file_partitions (b p category a1 a2 : string) :
  algo_file b p category "train" a1 <> algo_file b p category "test" a2.
Proof.
  unfold algo_file, output_path, algo_tag. intros H.
  do 6 apply append_inj_l in H. cbn in H. discriminate.
Qed.

(** With a configured writer and an algorithm list without duplicates,
    the confusion matrices of the training partition and those of the test
    partition are all written to different files: no file is written twice
    within a call, and the calls of the two partitions do not overwrite
    each other. *)
Theorem confusion_files_distinct model b p w w' :
  specs model !! "base_dir" = Some (VStr b) ->
  specs model !! "project" = Some (VStr p) ->
  NoDup (algolist model) ->
  let r := plot_confusion_matrix model "train" w in
  let r' := plot_confusion_matrix model "test" w' in
  fst r = inr tt -> fst r' = inr tt ->
  exists files files',
    saved (events (snd r)) = saved (events w) ++ files /\
    saved (events (snd r')) = saved (events w') ++ files' /\
    length files = length (algolist model) /\
    length files' = length (algolist model) /\
    NoDup (files ++ files').
Proof.
  intros Hb Hp Hnd r r' Hok Hok'. subst r r'.
  exists (map (algo_file b p "confusion" "train") (algolist model)),
         (map (algo_file b p "confusion" "test") (algolist model)).
  split; [apply (writes_plot_confusion_matrix model b p Hb Hp "train" w tt Hok)|].
  split; [apply (writes_plot_confusion_matrix model b p Hb Hp "test" w' tt Hok')|].
  split; [apply length_map|]. split; [apply length_map|].
  apply NoDup_app. split; [apply algo_file_nodup, Hnd|]. split.
  - intros f Hf Hf'. apply list_elem_of_In, in_map_iff in Hf as (a1 & <- & _).
    apply list_elem_of_In, in_map_iff in Hf' as (a2 & E & _).
    symmetry in E. revert E. apply algo_file_partitions.
  - apply algo_file_nodup, Hnd.
Qed.

(** ** The learning curves: the sizes are carried over *)

Section Learning_configured.

Variable model : Model.
Variables b p : string.
Hypothesis Hb : specs model !! "base_dir" = Some (VStr b).
Hypothesis Hp : specs model !! "project" = Some (VStr p).

Lemma learning_curve_algo_run partition X y cv scorer n_jobs verbosity algo est
    sizes w :
  estimators model !! algo = Some est ->
  let result := learning_curve est X y sizes cv scorer n_jobs verbosity in
  exists w',
    learning_curve_algo model partition X y cv scorer n_jobs verbosity algo sizes w
    = (inr (fst (fst result)), w') /\
    exists t, events w' = events w ++ t /\ In (training_score_plot result) t.
Proof.
  intros Hest result. unfold learning_curve_algo.
  rewrite bind_logger_info, (bind_ok _ _ _ _ _ (getitem_some _ _ _ _ Hest)).
  cbv zeta. rewrite !bind_draw.
  rewrite (bind_ok _ _ _ _ _ (write_plot_matplotlib _ _ _ _ _ _ _ Hb Hp)).
  eexists. split; [reflexivity|].
  unfold written, emit. cbn [events]. rewrite <- !app_assoc.
  eexists. split; [reflexivity|].
  unfold training_score_plot. fold result.
  cbn [app]. repeat first [left; reflexivity | right].
Qed.

(** [learning_curve] returns the training sizes it used, and the loop
    stores them in the variable that it passes to the next call.  So only
    the first algorithm is evaluated on the grid [linspace(.1, 1.0, 5)];
    the second one is given the sizes returned for the first. *)
Theorem plot_learning_curve_carries_sizes
    partition X y cv_folds n_jobs scorer seed shuffle split verbosity
    a1 a2 rest est1 est2 w :
  (forall w0, get_partition_data model partition w0 = (inr (X, y), w0)) ->
  specs model !! "cv_folds" = Some cv_folds ->
  specs model !! "n_jobs" = Some n_jobs ->
  specs model !! "scorer" = Some scorer ->
  specs model !! "seed" = Some seed ->
  specs model !! "shuffle" = Some shuffle ->
  specs model !! "split" = Some split ->
  specs model !! "verbosity" = Some verbosity ->
  algolist model = a1 :: a2 :: rest ->
  estimators model !! a1 = Some est1 ->
  estimators model !! a2 = Some est2 ->
  let cv := StratifiedShuffleSplit cv_folds split seed in
  let grid := linspace (flit "0.1") (flit "1.0") 5 in
  let first := learning_curve est1 X y grid cv scorer n_jobs verbosity in
  let second :=
    learning_curve est2 X y (fst (fst first)) cv scorer n_jobs verbosity in
  let t := new_events w (snd (plot_learning_curve model partition w)) in
  In (training_score_plot first) t /\ In (training_score_plot second) t.
Proof.
  intros Hg E1 E2 E3 E4 E5 E6 E7 Halgo He1 He2 cv grid first second t. subst t.
  set (w0 := emit (Log "Generating Learning Curves" []) w).
  destruct (learning_curve_algo_run partition X y cv scorer n_jobs verbosity
              a1 est1 grid w0 He1) as (w1 & R1 & t1 & Ht1 & In1).
  fold first in R1, In1.
  destruct (learning_curve_algo_run partition X y cv scorer n_jobs verbosity
              a2 est2 (fst (fst first)) w1 He2) as (w2 & R2 & t2 & Ht2 & In2).
  fold second in R2, In2.
  assert (Hev : exists u,
            events (snd (plot_learning_curve model partition w))
            = events w ++ Log "Generating Learning Curves" [] :: t1 ++ t2 ++ u).
  { unfold plot_learning_curve. rewrite bind_logger_info.
    rewrite (bind_ok _ _ _ _ _ (getitem_some _ _ _ _ E1)).
    rewrite (bind_ok _ _ _ _ _ (getitem_some _ _ _ _ E2)).
    rewrite (bind_ok _ _ _ _ _ (getitem_some _ _ _ _ E3)).
    rewrite (bind_ok _ _ _ _ _ (getitem_some _ _ _ _ E4)).
    rewrite (bind_ok _ _ _ _ _ (getitem_some _ _ _ _ E5)).
    rewrite (bind_ok _ _ _ _ _ (getitem_some _ _ _ _ E6)).
    rewrite (bind_ok _ _ _ _ _ (getitem_some _ _ _ _ E7)).
    rewrite (bind_ok _ _ _ _ _ (Hg _)). cbv zeta. cbn [fst snd].
    fold cv grid w0. rewrite Halgo. cbn [for_acc].
    unfold bind at 1. unfold bind at 1. rewrite R1.
    unfold bind at 1. rewrite R2.
    match goal with |- context [for_acc rest ?body ?s0 w2] =>
      destruct (emits_for_acc (fun _ => True) rest body
                  ltac:(intros; unfold learning_curve_algo;
                        emits_core ltac:(exact I);
                        apply emits_write_plot; intros; exact I) s0 w2)
        as (u & Hu & _ & _);
      destruct (for_acc rest body s0 w2) as [[e|s'] w3]
    end; cbn [fst snd ret] in *; exists u;
      rewrite Hu, Ht2, Ht1; subst w0; cbn [emit events];
      rewrite <- !app_assoc; reflexivity. }
  destruct Hev as (u & Hev). rewrite (new_events_app _ _ _ Hev). split.
  - right. apply in_or_app. left. exact In1.
  - right. apply in_or_app. right. apply in_or_app. left. exact In2.
Qed.

End Learning_configured.

(** ** The candlestick chart *)

Lemma column_of_set_column_eq (df : DataFrame) (name : string) (c0 c : Obj) :
  column_of df name = inr c0 -> column_of (set_column df name c) name = inr c.
Proof.
  induction df as [|[n c1] df IH]; simpl; [discriminate|].
  destruct (String.eqb n name) eqn:E; simpl; rewrite E; auto.
Qed.

Lemma column_of_set_column_ne (df : DataFrame) (name other : string) (c : Obj) :
  other <> name -> column_of (set_column df name c) other = column_of df other.
Proof.
  intros Hne. induction df as [|[n c1] df IH]; simpl; [reflexivity|].
  destruct (String.eqb_spec n name) as [->|Hn]; simpl.
  - destruct (String.eqb_spec name other) as [E|_]; [congruence | reflexivity].
  - rewrite IH. reflexivity.
Qed.

Lemma set_column_names (df : DataFrame) (name : string) (c : Obj) :
  map fst (set_column df name c) = map fst df.
Proof.
  induction df as [|[n c1] df IH]; simpl; [reflexivity|].
  destruct (String.eqb n name); simpl; [reflexivity | rewrite IH; reflexivity].
Qed.

(** [plot_candlestick] converts the [date] column of the caller's frame in
    place, before anything else.  A frame without that column gives
    [KeyError] and is left as it was, with nothing drawn.  Otherwise the
    frame ends with its [date] column converted and every other column,
    and the order of the columns, unchanged, whether the rest of the call
    succeeds or raises. *)
Theorem plot_candlestick_converts_dates df symbol cols model w :
  let out := plot_candlestick df symbol cols model w in
  (column_of df "date" = inl (KeyError ["date"]) ->
   out = (inl (KeyError ["date"]), df, w)) /\
  (forall date,
     column_of df "date" = inr date ->
     let df' := snd (fst out) in
     column_of df' "date" = inr (to_datetime date) /\
     map fst df' = map fst df /\
     (forall name, name <> "date" -> column_of df' name = column_of df name)).
Proof.
  intros out. subst out. unfold plot_candlestick. split.
  - intros ->. reflexivity.
  - intros date Hd. rewrite Hd. cbn [fst snd]. split; [|split].
    + eapply column_of_set_column_eq, Hd.
    + apply set_column_names.
    + intros name Hn. apply column_of_set_column_ne, Hn.
Qed.

Lemma attr_some (df : DataFrame) (name : string) (c : Obj) (w : world) :
  column_of df name = inr c -> attr df name w = (inr c, w).
Proof. intros H. unfold attr. rewrite H. reflexivity. Qed.

Lemma bind_draw_new {B} call args cls (k : handle -> M B) (w : world) :
  bind (draw_new call args cls) k w
  = k {| ident := length (events w); class := cls |} (emit (Draw call args) w).
Proof. reflexivity. Qed.

(** Without a model the chart is shown and never saved.  With a
    configured model the chart is handed to the writer under the tag
    [symbol], as given: the path of [candlestick_chart_<symbol>.png] is
    logged, and then the call raises [AttributeError], because the figure
    of bokeh has no method [save]; no file is written, and the chart is
    not shown either.  In both cases the title carries the symbol in upper
    case.  Both need the five columns. *)
Theorem plot_candlestick_output df symbol cols w :
  (forall name, In name candlestick_columns ->
     exists c, column_of df name = inr c) ->
  let title := Draw "p.title"
                 [AVal (VStr (join BSEP [upper symbol; "Candlestick"]))] in
  (let out := plot_candlestick df symbol cols None w in
   fst (fst out) = inr tt /\
   saved (events (snd out)) = saved (events w) /\
   In title (events (snd out)) /\
   In "show" (drawn (events (snd out)))) /\
  (forall model b p,
     specs model !! "base_dir" = Some (VStr b) ->
     specs model !! "project" = Some (VStr p) ->
     let out := plot_candlestick df symbol cols (Some model) w in
     (exists msg, fst (fst out) = inl (AttributeError msg)) /\
     saved (events (snd out)) = saved (events w) /\
     In title (events (snd out)) /\
     In (Log "Writing plot to %s"
           [AVal (VStr (output_path b p "candlestick_chart" symbol))])
        (events (snd out)) /\
     ~ In "show" (drawn (new_events w (snd out)))).
Proof.
  intros Hcols title.
  destruct (Hcols "date") as (d & Hd); [simpl; auto|].
  destruct (Hcols "open") as (o & Ho); [simpl; auto|].
  destruct (Hcols "close") as (c & Hc); [simpl; auto|].
  destruct (Hcols "high") as (h & Hh); [simpl; auto|].
  destruct (Hcols "low") as (l & Hl); [simpl; auto 6|].
  set (df' := set_column df "date" (to_datetime d)).
  assert (Hd' : column_of df' "date" = inr (to_datetime d))
    by (eapply column_of_set_column_eq, Hd).
  assert (Ho' : column_of df' "open" = inr o)
    by (subst df'; rewrite column_of_set_column_ne by discriminate; exact Ho).
  assert (Hc' : column_of df' "close" = inr c)
    by (subst df'; rewrite column_of_set_column_ne by discriminate; exact Hc).
  assert (Hh' : column_of df' "high" = inr h)
    by (subst df'; rewrite column_of_set_column_ne by discriminate; exact Hh).
  assert (Hl' : column_of df' "low" = inr l)
    by (subst df'; rewrite column_of_set_column_ne by discriminate; exact Hl).
  assert (Hrun : forall model, exists w1,
            events w1 = events w ++ Draw "figure"
                          [AVal (VStr "datetime");
                           AVal (VStr "pan, wheel_zoom, box_zoom, reset, save");
                           ANat 1000; AVal (VStr "left")] :: [title] /\
            exists t, Forall (fun e => match e with
                                       | Draw call _ => call <> "show"
                                       | Save _ _ _ => False
                                       | _ => True end) t /\
            exists w2, events w2 = events w1 ++ t /\
            candlestick_chart df' symbol model w
            = match model with
              | Some model =>
                  write_plot model "bokeh"
                    (Some {| ident := length (events w); class := BokehFigure |})
                    "candlestick_chart" symbol w2
              | None => draw "show" [ANat (length (events w))] w2
              end).
  { intros model. unfold candlestick_chart.
    rewrite (bind_ok _ _ _ _ _ (attr_some _ _ _ _ Ho')).
    rewrite (bind_ok _ _ _ _ _ (attr_some _ _ _ _ Hc')).
    rewrite (bind_ok _ _ _ _ _ (attr_some _ _ _ _ Hc')).
    rewrite (bind_ok _ _ _ _ _ (attr_some _ _ _ _ Ho')).
    rewrite (bind_ok _ _ _ _ _ (attr_some _ _ _ _ Hc')).
    rewrite (bind_ok _ _ _ _ _ (attr_some _ _ _ _ Ho')).
    rewrite (bind_ok _ _ _ _ _ (attr_some _ _ _ _ Ho')).
    rewrite (bind_ok _ _ _ _ _ (attr_some _ _ _ _ Hc')).
    cbv zeta. rewrite bind_draw_new, !bind_draw.
    rewrite (bind_ok _ _ _ _ _ (attr_some _ _ _ _ Hd')).
    rewrite (bind_ok _ _ _ _ _ (attr_some _ _ _ _ Hh')).
    rewrite (bind_ok _ _ _ _ _ (attr_some _ _ _ _ Hd')).
    rewrite (bind_ok _ _ _ _ _ (attr_some _ _ _ _ Hl')).
    rewrite bind_draw.
    rewrite (bind_ok _ _ _ _ _ (attr_some _ _ _ _ Hd')), bind_draw.
    rewrite (bind_ok _ _ _ _ _ (attr_some _ _ _ _ Hd')), bind_draw.
    exists (emit title
              (emit (Draw "figure"
                       [AVal (VStr "datetime");
                        AVal (VStr "pan, wheel_zoom, box_zoom, reset, save");
                        ANat 1000; AVal (VStr "left")]) w)).
    split; [cbn [emit events]; rewrite <- app_assoc; reflexivity|].
    eexists. split; [|eexists; split; [|destruct model; reflexivity]].
    2: { cbn [emit events]. rewrite <- !app_assoc. reflexivity. }
    simpl. repeat constructor; discriminate. }
  assert (Hnoshow : forall t,
            Forall (fun e => match e with
                             | Draw call _ => call <> "show"
                             | Save _ _ _ => False
                             | _ => True end) t ->
            saved t = [] /\ ~ In "show" (drawn t)).
  { induction 1 as [|e t He _ [IH1 IH2]]; simpl; [split; [reflexivity | intros []]|].
    destruct e as [f a|call a|v hh q]; simpl in He |- *.
    - split; [exact IH1 | exact IH2].
    - split; [exact IH1|]. intros [E|E]; [exact (He E) | exact (IH2 E)].
    - destruct He. }
  split.
  - intros out. subst out. unfold plot_candlestick. rewrite Hd. fold df'.
    cbn [fst snd].
    destruct (Hrun None) as (w1 & H1 & t & Ht & w2 & H2 & E). rewrite E.
    destruct (Hnoshow t Ht) as (Hs & _).
    cbn [draw fst snd emit events]. rewrite H2, H1.
    repeat split.
    + rewrite !saved_app, Hs. simpl. rewrite !app_nil_r. reflexivity.
    + apply in_or_app. left. apply in_or_app. left. apply in_or_app. right.
      right. left. reflexivity.
    + rewrite !drawn_app. apply in_or_app. right. left. reflexivity.
  - intros model b p Hb Hp out. subst out. unfold plot_candlestick. rewrite Hd.
    fold df'. cbn [fst snd].
    destruct (Hrun (Some model)) as (w1 & H1 & t & Ht & w2 & H2 & E). rewrite E.
    destruct (Hnoshow t Ht) as (Hs & Hns).
    destruct (write_plot_no_method model "bokeh"
                {| ident := length (events w); class := BokehFigure |}
                "candlestick_chart" symbol b p w2 Hb Hp
                (or_intror (conj eq_refl eq_refl))) as (msg & Hw).
    rewrite Hw. cbn [fst snd emit events]. rewrite H2, H1.
    split; [exists msg; reflexivity|]. split; [|split; [|split]].
    + rewrite !saved_app, Hs. simpl. rewrite !app_nil_r. reflexivity.
    + apply in_or_app. left. apply in_or_app. left. apply in_or_app. right.
      right. left. reflexivity.
    + apply in_or_app. right. left. reflexivity.
    + unfold new_events. cbn [emit events]. rewrite H2, H1.
      rewrite <- !app_assoc, drop_app_length.
      rewrite !drawn_app. simpl. intros Hin.
      destruct Hin as [Hin|[Hin|Hin]]; try discriminate.
      apply in_app_or in Hin as [Hin|Hin]; [exact (Hns Hin)|].
      simpl in Hin. exact Hin.
Qed.

Lemma attr_none (df : DataFrame) (name : string) (w : world) :
  column_of df name = inl (KeyError [name]) ->
  attr df name w
  = (inl (AttributeError
            ("'DataFrame' object has no attribute '" +:+ name +:+ "'")), w).
Proof. intros H. unfold attr. rewrite H. reflexivity. Qed.

(** A frame with dates but without the [open] column, or with it but
    without [close], stops [plot_candlestick] with [AttributeError] on the
    first of them that is absent, before any figure is opened: nothing is
    drawn, logged or saved, yet the dates of the caller's frame have
    already been converted. *)
Theorem plot_candlestick_missing_price df symbol cols model w date :
  column_of df "date" = inr date ->
  let no_attribute name :=
    AttributeError ("'DataFrame' object has no attribute '" +:+ name +:+ "'") in
  let converted := set_column df "date" (to_datetime date) in
  (column_of df "open" = inl (KeyError ["open"]) ->
   plot_candlestick df symbol cols model w
   = (inl (no_attribute "open"), converted, w)) /\
  (forall o,
     column_of df "open" = inr o ->
     column_of df "close" = inl (KeyError ["close"]) ->
     plot_candlestick df symbol cols model w
     = (inl (no_attribute "close"), converted, w)).
Proof.
  intros Hd no_attribute converted. unfold plot_candlestick. rewrite Hd.
  fold converted. split.
  - intros Ho.
    assert (Ho' : column_of converted "open" = inl (KeyError ["open"]))
      by (subst converted; rewrite column_of_set_column_ne by discriminate;
          exact Ho).
    unfold candlestick_chart.
    rewrite (bind_err _ _ _ _ _ (attr_none _ _ _ Ho')). reflexivity.
  - intros o Ho Hc.
    assert (Ho' : column_of converted "open" = inr o)
      by (subst converted; rewrite column_of_set_column_ne by discriminate;
          exact Ho).
    assert (Hc' : column_of converted "close" = inl (KeyError ["close"]))
      by (subst converted; rewrite column_of_set_column_ne by discriminate;
          exact Hc).
    unfold candlestick_chart.
    rewrite (bind_ok _ _ _ _ _ (attr_some _ _ _ _ Ho')).
    rewrite (bind_err _ _ _ _ _ (attr_none _ _ _ Hc')). reflexivity.
Qed.


End Plots.

Arguments VNone {F}.
Arguments VBool {F} b.
Arguments VInt {F} n.
Arguments VFloat {F} x.
Arguments VStr {F} s.
Arguments VModelType {F} t.
Arguments StratifiedShuffleSplit {F} n_splits test_size random_state.
Arguments StratifiedKFold {F} n_splits shuffle random_state.
Arguments Log {F Obj} fmt args.
Arguments Draw {F Obj} call args.
Arguments Save {F Obj} vizlib plot path.
Arguments AVal {F Obj} v.
Arguments ANat {F Obj} n.
Arguments AArr {F Obj} a.
Arguments AIdx {F Obj} i.
Arguments AObj {F Obj} o.
Arguments events {F Obj} w.
Arguments lists {F Obj} w r.
Arguments saved {F Obj} t.
Arguments drawn {F Obj} t.
Arguments logged {F Obj} t.
Arguments new_events {F Obj} w w'.
Arguments invoked {F Obj} entry w w'.

(** * A concrete instance *)

(** Rational numbers stand for the floats, numbers for the opaque values
    of the libraries, and small executable functions for the routines of
    numpy and scikit-learn.  The instance is used to run the embedding on
    the scenarios of the spec. *)
Module Concrete.

Local Open Scope Q_scope.

Definition qdiv (a c : Q) : Q := Qred (a / c).
Definition qofnat (n : nat) : Q := inject_Z (Z.of_nat n).
Definition qnonzero (x : Q) : bool := negb (Qeq_bool x 0).
Definition qlt (a c : Q) : bool := negb (Qle_bool c a).

Definition qlit (s : string) : Q :=
  if String.eqb s "-0.05" then -(1 # 20)
  else if String.eqb s "1.05" then 21 # 20
  else if String.eqb s "0.0" then 0
  else if String.eqb s "1.01" then 101 # 100
  else if String.eqb s "0.1" then 1 # 10
  else if String.eqb s "1.0" then 1
  else if String.eqb s "1.1" then 11 # 10
  else if String.eqb s "0.5" then 1 # 2
  else if String.eqb s "0.2" then 1 # 5
  else 0.

(** [n] points from [a] to [c], both ends included. *)
Definition qlinspace (a c : Q) (n : nat) : list Q :=
  map (fun k => Qred (a + (c - a) * (qofnat k / qofnat (pred n)))) (seq 0 n).

Definition qmin (l : list Q) : Q :=
  fold_right (fun x m => if Qle_bool x m then x else m) (hd 0 l) l.
Definition qmax (l : list Q) : Q :=
  fold_right (fun x m => if Qle_bool m x then x else m) (hd 0 l) l.

(** Insertion of a position into a list of positions sorted by value. *)
Fixpoint insert_by (v : list Q) (k : nat) (l : list nat) : list nat :=
  match l with
  | [] => [k]
  | j :: l' =>
      if Qle_bool (nth k v 0) (nth j v 0) then k :: j :: l'
      else j :: insert_by v k l'
  end.

(** The positions of [v], by increasing value. *)
Definition qargsort (v : list Q) : list nat :=
  fold_right (insert_by v) [] (seq 0 (length v)).

(** Linear interpolation of the curve [(xp, fp)] at [x]. *)
Fixpoint interp_at (x : Q) (xp fp : list Q) : Q :=
  match xp, fp with
  | x0 :: xp', y0 :: fp' =>
      if Qle_bool x x0 then y0
      else
        match xp', fp' with
        | x1 :: _, y1 :: _ =>
            if Qle_bool x x1 then y0 + (y1 - y0) * ((x - x0) / (x1 - x0))
            else interp_at x xp' fp'
        | _, _ => y0
        end
  | _, _ => 0
  end.

Definition qinterp (x xp fp : list Q) : list Q :=
  map (fun xi => Qred (interp_at xi xp fp)) x.

(** Area under a curve by the trapezoidal rule. *)
Fixpoint qauc (x y : list Q) : Q :=
  match x, y with
  | x0 :: ((x1 :: _) as x'), y0 :: ((y1 :: _) as y') =>
      Qred ((x1 - x0) * (y0 + y1) / 2 + qauc x' y')
  | _, _ => 0
  end.

(** Opaque values are numbers.  An estimator has [predict_proba] when its
    number is even, and fitting keeps the parity; the other routines return
    small fixed data that depends on their arguments. *)
Definition has_proba (e : nat) : bool := Nat.even e.
Definition scores (o : nat) : list Q := [Qred (qofnat o / 4); 1 # 2; 3 # 4].
Definition decide_fun (e x : nat) : list Q := [qofnat e; qofnat x; 3].
Definition refit (e x y : nat) : nat := (e + 2 * (x + y))%nat.
Definition proba (e x : nat) : nat := (e + x)%nat.
Definition sub_rows (a idx : nat) : nat := (a + idx)%nat.
Definition calib (y : nat) (prob : list Q) (bins : nat) : list Q * list Q :=
  (prob, prob).
Definition roc (y : nat) (score : list Q) : list Q * list Q * list Q :=
  ([0; 1 # 2; 1], [0; Qred ((3 # 4) + 1 / (qofnat y + 8)); 1], score).
Definition confusion (y y_pred : nat) : nat := (y + y_pred)%nat.

Definition splits_of {F : Type} (cv : CV F) : nat :=
  match cv with
  | StratifiedShuffleSplit (VInt n) _ _ => Z.to_nat n
  | StratifiedKFold (VInt n) _ _ => Z.to_nat n
  | _ => 0
  end.

Definition split_folds (cv : CV Q) (X y : nat) : list (nat * nat) :=
  map (fun k => (k, S k)) (seq 0 (splits_of cv)).

Definition n_splits (cv : CV Q) (X y : nat) : nat := splits_of cv.

Definition learn (e X y : nat) (sizes : list Q) (cv : CV Q)
    (scorer n_jobs verbosity : value Q) : list Q * nat * nat :=
  (sizes, e, S e).

Definition val_curve (e X y : nat) (pname : string) (prange : list Q)
    (cv_folds scorer n_jobs : value Q) : nat * nat :=
  (e, S e).

(** The routines of the module over this instance. *)
Definition q_write_plot := write_plot Q nat.
Definition q_get_partition_data := get_partition_data Q nat.
Definition q_plot_calibration :=
  plot_calibration Q nat Qminus qdiv qlit qmin qmax has_proba decide_fun calib.
Definition q_plot_roc_curve :=
  plot_roc_curve Q nat 0 1 Qplus qdiv qofnat qnonzero qlit " " qlinspace qinterp
    sub_rows scores has_proba refit proba split_folds n_splits roc qauc.
Definition q_plot_boundary := plot_boundary Q nat.
Definition q_plot_importance := plot_importance Q nat " " qargsort.
Definition q_plot_confusion_matrix :=
  plot_confusion_matrix Q nat " " scores confusion.
Definition q_plot_learning_curve :=
  plot_learning_curve Q nat Qplus Qminus qlit " " qlinspace scores scores learn.
Definition q_plot_validation_curve :=
  plot_validation_curve Q nat Qplus Qminus qlt qlit " " scores scores val_curve.
Definition q_plot_scatter := plot_scatter Q nat.
Definition q_generate_plots :=
  generate_plots Q nat 0 1 Qplus Qminus qdiv qofnat qnonzero qlit " " qlinspace
    qmin qmax qargsort qinterp scores scores scores sub_rows scores has_proba
    decide_fun refit proba split_folds n_splits calib roc qauc confusion learn.

(** The model of the scenarios: two algorithms, output under
    [/tmp/out/proj1], three shuffled folds.  The estimator of [svm] has no
    [predict_proba]; importances are stored for [svm] only. *)
Definition the_specs (model_type : ModelType) : gmap string (value Q) :=
  list_to_map
    [("calibration_plot", VBool true); ("confusion_matrix", VBool true);
     ("importances", VBool true); ("learning_curve", VBool true);
     ("roc_curve", VBool true); ("model_type", VModelType model_type);
     ("base_dir", VStr "/tmp/out"); ("project", VStr "proj1");
     ("cv_folds", VInt 3); ("n_jobs", VInt (-1)); ("scorer", VStr "roc_auc");
     ("seed", VInt 0); ("shuffle", VBool true); ("split", VFloat (1 # 5));
     ("verbosity", VInt 0)].

Definition the_model (model_type : ModelType) : Model Q nat :=
  {| specs := the_specs model_type;
     algolist := ["svm"; "rf"];
     estimators := list_to_map [("svm", 1%nat); ("rf", 2%nat)];
     probas := list_to_map [(("rf", "train"), [1 # 4; 3 # 4]);
                            (("rf", "test"), [1 # 3; 2 # 3])];
     preds := list_to_map [(("svm", "train"), 11%nat); (("svm", "test"), 12%nat);
                           (("rf", "train"), 13%nat); (("rf", "test"), 14%nat)];
     importances :=
       list_to_map
         [("svm", [1 # 10; 3 # 10; 1 # 20; 1 # 5; 1 # 25; 1 # 50; 1 # 100;
                   2 # 25; 3 # 50; 7 # 100; 1 # 40])];
     X_train := 100%nat; y_train := 101%nat;
     X_test := 200%nat; y_test := 201%nat |}.

Definition classifier : Model Q nat := the_model classification.
Definition regressor : Model Q nat := the_model (other_model_type 5).

(** The same classifier with estimators that both have [predict_proba],
    and stored probabilities for both. *)
Definition probabilistic : Model Q nat :=
  {| specs := the_specs classification;
     algolist := ["svm"; "rf"];
     estimators := list_to_map [("svm", 4%nat); ("rf", 2%nat)];
     probas := list_to_map [(("svm", "train"), [1 # 5; 4 # 5]);
                            (("svm", "test"), [2 # 5; 3 # 5]);
                            (("rf", "train"), [1 # 4; 3 # 4]);
                            (("rf", "test"), [1 # 3; 2 # 3])];
     preds := preds Q nat classifier;
     importances := importances Q nat classifier;
     X_train := 100%nat; y_train := 101%nat;
     X_test := 200%nat; y_test := 201%nat |}.

(** A world in which nothing has happened; the list object 0 holds two
    feature names. *)
Definition start : world Q nat :=
  {| events := [];
     lists := fun r => if Nat.eqb r 0 then ["age"; "income"] else [] |}.

Definition frame : DataFrame nat :=
  [("age", 1%nat); ("income", 2%nat); ("label", 3%nat)].

(** The model of the scenarios under variations of its configuration and
    of its stored importances. *)
Definition with_specs (s : gmap string (value Q)) (m : Model Q nat) : Model Q nat :=
  {| specs := s;
     algolist := algolist Q nat m;
     estimators := estimators Q nat m;
     probas := probas Q nat m;
     preds := preds Q nat m;
     importances := importances Q nat m;
     X_train := X_train Q nat m; y_train := y_train Q nat m;
     X_test := X_test Q nat m; y_test := y_test Q nat m |}.

(** No [base_dir]. *)
Definition unconfigured : Model Q nat :=
  with_specs (delete "base_dir" (the_specs classification)) classifier.

(** No [importances] flag. *)
Definition unflagged : Model Q nat :=
  with_specs (delete "importances" (the_specs classification)) classifier.

(** The five flags false. *)
Definition disabled : Model Q nat :=
  with_specs
    (foldr (fun k s => <[k := VBool false]> s) (the_specs classification)
       plot_flags)
    classifier.

(** A splitter of zero folds. *)
Definition no_folds : Model Q nat :=
  with_specs (<["cv_folds" := VInt 0]> (the_specs classification)) classifier.

(** An importance vector of two entries for [svm]. *)
Definition sparse : Model Q nat :=
  {| specs := the_specs classification;
     algolist := ["svm"; "rf"];
     estimators := estimators Q nat classifier;
     probas := probas Q nat classifier;
     preds := preds Q nat classifier;
     importances := list_to_map [("svm", [1 # 2; 1 # 4])];
     X_train := 100%nat; y_train := 101%nat;
     X_test := 200%nat; y_test := 201%nat |}.

(** Series are numbers; the operations of pandas are arithmetic on them. *)
Definition upper_char (c : Ascii.ascii) : Ascii.ascii :=
  let n := Ascii.nat_of_ascii c in
  if ((97 <=? n) && (n <=? 122))%nat then Ascii.ascii_of_nat (n - 32) else c.
Fixpoint shout (s : string) : string :=
  match s with
  | EmptyString => EmptyString
  | String c s' => String (upper_char c) (shout s')
  end.
Definition as_datetime (o : nat) : nat := (o + 1000)%nat.
Definition greater (a c : nat) : nat := if (c <? a)%nat then 1%nat else 0%nat.
Definition select_rows (a m : nat) : nat := (a * m)%nat.
Definition q_plot_candlestick :=
  plot_candlestick Q nat qdiv qofnat qlit " " shout as_datetime Nat.add Nat.sub Nat.div
    (fun a => a) greater select_rows (355 # 113).



Definition prices : DataFrame nat :=
  [("date", 1%nat); ("open", 10%nat); ("high", 14%nat); ("low", 9%nat);
   ("close", 12%nat)].
Definition openings : DataFrame nat := [("date", 1%nat); ("open", 10%nat)].

End Concrete.

(** ** The contracts hold of the instance *)

Lemma qlinspace_length (a c : Q) (n : nat) :
  length (Concrete.qlinspace a c n) = n.
Proof. unfold Concrete.qlinspace. rewrite length_map. apply length_seq. Qed.

Lemma qinterp_length (x xp fp : list Q) :
  length (Concrete.qinterp x xp fp) = length x.
Proof. unfold Concrete.qinterp. apply length_map. Qed.

Lemma insert_by_perm (v : list Q) (k : nat) (l : list nat) :
  Permutation (Concrete.insert_by v k l) (k :: l).
Proof.
  induction l as [|j l IH]; simpl; [reflexivity|].
  destruct (Qle_bool _ _); [reflexivity|].
  rewrite IH. apply perm_swap.
Qed.

Lemma qargsort_perm (v : list Q) :
  Permutation (Concrete.qargsort v) (seq 0 (length v)).
Proof.
  unfold Concrete.qargsort. induction (seq 0 (length v)) as [|k l IH]; simpl.
  - reflexivity.
  - rewrite insert_by_perm. apply perm_skip, IH.
Qed.

Lemma refit_keeps_class (e x y : nat) :
  Concrete.has_proba (Concrete.refit e x y) = Concrete.has_proba e.
Proof. unfold Concrete.has_proba, Concrete.refit. apply Nat.even_add_mul_2. Qed.

(** * The scenarios, run *)

Import Concrete.

(** The writer refuses [plotly] on the model of the scenarios. *)
Lemma write_plot_unsupported_backend_witness :
  let r := Concrete.q_write_plot classifier "plotly" None "roc_curve" "test_svm" start in
  (exists e, fst r = inl e) /\
  saved (events (snd r)) = saved (events start) /\
  fst r = inl (ValueError ["Unsupported data visualization library: %s"; "plotly"]).
Proof.
  destruct (write_plot_unsupported_backend Q nat classifier "plotly" None
              "roc_curve" "test_svm" start
              ltac:(discriminate) ltac:(discriminate) ltac:(discriminate))
    as (H1 & H2 & H3).
  split; [exact H1|]. split; [exact H2|].
  apply (H3 "/tmp/out" "proj1"); vm_compute; reflexivity.
Defined.

(** The scenario of the spec under seaborn, with a seaborn grid: the path
    is logged and the grid is saved there. *)
Lemma write_plot_path_witness :
  let grid := {| ident := 7; class := SeabornGrid |} in
  let r := Concrete.q_write_plot classifier "seaborn" (Some grid) "roc_curve"
             "train_svm" start in
  fst r = inr tt /\
  saved (events (snd r)) = ["/tmp/out/proj1/roc_curve_train_svm.png"] /\
  exists t,
    events (snd r)
    = Log "Writing plot to %s"
        [AVal (VStr "/tmp/out/proj1/roc_curve_train_svm.png")] :: t.
Proof.
  destruct (write_plot_path Q nat classifier "seaborn"
              (Some {| ident := 7; class := SeabornGrid |}) "roc_curve"
              "train_svm" "/tmp/out" "proj1" start)
    as (Hlog & Hret & Hsaved & _).
  - vm_compute; reflexivity.
  - vm_compute; reflexivity.
  - right. left. reflexivity.
  - assert (Hok : fst (Concrete.q_write_plot classifier "seaborn"
                         (Some {| ident := 7; class := SeabornGrid |})
                         "roc_curve" "train_svm" start) = inr tt).
    { apply Hret. right. eexists. split; [reflexivity|].
      left. split; reflexivity. }
    split; [exact Hok|]. split; [exact (Hsaved Hok) | exact Hlog].
Defined.

(** The three cases of the partition lookup. *)
Lemma get_partition_data_spec_witness :
  Concrete.q_get_partition_data classifier "train" start = (inr (100, 101), start) /\
  Concrete.q_get_partition_data classifier "test" start = (inr (200, 201), start) /\
  Concrete.q_get_partition_data classifier "validation" start
  = (inl (TypeError "Partition must be train or test"), start).
Proof.
  destruct (get_partition_data_spec Q nat classifier start) as (H1 & H2 & H3).
  split; [exact H1|]. split; [exact H2|].
  apply H3; discriminate.
Defined.

(** The three classification plots on a model of another type. *)
Lemma classification_plots_skipped_witness :
  logged_noop Q nat (Concrete.q_plot_calibration regressor "test" start) start
    ["Generating Calibration Plot"; "Calibration plot is for classification only"] /\
  logged_noop Q nat (Concrete.q_plot_roc_curve regressor "test" start) start
    ["Generating ROC Curves"; "ROC Curves are for classification only"] /\
  logged_noop Q nat (Concrete.q_plot_boundary regressor "test" 0 1 start) start
    ["Generating Boundary Plots"; "Boundary Plots are for classification only"].
Proof.
  unfold Concrete.q_plot_calibration, Concrete.q_plot_roc_curve, Concrete.q_plot_boundary.
  eapply classification_plots_skipped.
  - vm_compute; reflexivity.
  - discriminate.
Defined.

(** The scatter plot of two features and the label: the caller's list has
    the label appended, and the pair plot receives the three columns. *)
Lemma plot_scatter_appends_target_witness :
  let r := Concrete.q_plot_scatter classifier frame 0 "label" "eda" start in
  lists (snd r) 0 = ["age"; "income"; "label"] /\
  In (Draw "sns.pairplot" [AObj 1; AObj 2; AObj 3; AVal (VStr "label")])
     (events (snd r)).
Proof.
  destruct (plot_scatter_appends_target Q nat classifier frame 0 "label" "eda" start)
    as (H1 & _ & H3 & _).
  split; [exact H1|].
  apply (H3 [("age", 1); ("income", 2); ("label", 3)]). reflexivity.
Defined.

(** Importances are stored for [svm] only: [rf] is skipped with its log
    record, and the file of [svm] is the only one written. *)
Lemma plot_importance_skips_absent_witness :
  let r := Concrete.q_plot_importance classifier "train" start in
  fst r = inr tt /\
  In (Log "%s does not have feature importances" [AVal (VStr "rf")])
     (new_events start (snd r)) /\
  saved (events (snd r)) = ["/tmp/out/proj1/feature_importance_train_svm.png"].
Proof.
  destruct (plot_importance_skips_absent Q nat " " qargsort classifier "train" start
              (or_introl eq_refl)) as (H1 & H2 & H3).
  split; [exact H1|]. split.
  - apply H2; [right; left; reflexivity | vm_compute; reflexivity].
  - destruct (H3 "/tmp/out" "proj1") as (files & Hs & Hf & _).
    + vm_compute; reflexivity.
    + vm_compute; reflexivity.
    + exact qargsort_perm.
    + unfold Concrete.q_plot_importance. rewrite Hs, Hf. vm_compute. reflexivity.
Defined.



(** The ROC scenario of the spec, run with two estimators that have
    [predict_proba]. *)
Lemma plot_roc_curve_two_files_witness :
  let r := Concrete.q_plot_roc_curve probabilistic "test" start in
  fst r = inr tt /\
  saved (events (snd r))
  = saved (events start)
      ++ ["/tmp/out/proj1/roc_curve_test_svm.png";
          "/tmp/out/proj1/roc_curve_test_rf.png"].
Proof.
  unfold Concrete.q_plot_roc_curve.
  apply (plot_roc_curve_two_files Q nat 0%Q 1%Q Qplus qdiv qofnat qnonzero qlit " "
           qlinspace qinterp sub_rows scores has_proba refit proba split_folds
           n_splits roc qauc probabilistic (1 # 5)%Q 4 2 start).
  - exact qlinspace_length.
  - exact qinterp_length.
  - exact refit_keeps_class.
  - reflexivity.
  - vm_compute; reflexivity.
  - vm_compute; reflexivity.
  - vm_compute; reflexivity.
  - vm_compute; reflexivity.
  - vm_compute; reflexivity.
  - vm_compute; reflexivity.
  - vm_compute; reflexivity.
  - vm_compute; reflexivity.
  - reflexivity.
  - vm_compute; reflexivity.
  - reflexivity.
  - vm_compute; reflexivity.
Defined.


(** The dispatcher on the test partition of the scenario: all five flags
    are true, the run ends normally, the three routines of either partition
    have run and written their five files, and the two routines of the
    training partition have not run: no file of theirs is written. *)
Lemma generate_plots_gating_witness :
  let r := Concrete.q_generate_plots probabilistic "test" start in
  fst r = inr tt /\
  saved (events (snd r))
  = ["/tmp/out/proj1/calibration_test.png";
     "/tmp/out/proj1/confusion_test_svm.png";
     "/tmp/out/proj1/confusion_test_rf.png";
     "/tmp/out/proj1/roc_curve_test_svm.png";
     "/tmp/out/proj1/roc_curve_test_rf.png"] /\
  invoked "Generating Calibration Plot" start (snd r) /\
  invoked "Generating Confusion Matrices" start (snd r) /\
  invoked "Generating ROC Curves" start (snd r) /\
  ~ invoked "Generating Feature Importance Plots" start (snd r) /\
  ~ invoked "Generating Learning Curves" start (snd r).
Proof.
  destruct (generate_plots_gating Q nat 0%Q 1%Q Qplus Qminus qdiv qofnat qnonzero
              qlit " " qlinspace qmin qmax qargsort qinterp scores scores scores
              sub_rows scores has_proba decide_fun refit proba split_folds n_splits
              calib roc qauc confusion learn probabilistic "test" start)
    as (Hrun & Htest & _ & _ & _ & _ & _ & Hdone).
  assert (Hflags : forall k, In k plot_flags ->
                     is_Some (specs Q nat probabilistic !! k)).
  { intros k [<-|[<-|[<-|[<-|[<-|[]]]]]]; eexists; vm_compute; reflexivity. }
  assert (Hok : fst (Concrete.q_generate_plots probabilistic "test" start) = inr tt).
  { unfold Concrete.q_generate_plots. rewrite (Hrun Hflags).
    vm_compute. reflexivity. }
  destruct (Hdone Hok) as (Hcal & Hcm & Hroc & _).
  destruct (Htest ltac:(discriminate)) as (Himp & Hlc).
  split; [exact Hok|].
  split; [unfold Concrete.q_generate_plots; rewrite (Hrun Hflags);
          vm_compute; reflexivity|].
  split; [apply Hcal; exists (VBool true); split; vm_compute; reflexivity|].
  split; [apply Hcm; exists (VBool true); split; vm_compute; reflexivity|].
  split; [apply Hroc; exists (VBool true); split; vm_compute; reflexivity|].
  split; [exact Himp | exact Hlc].
Defined.

(** ** Further scenarios *)

(** C5, at the failing input.  The model [sparse] stores a vector of two
    importances for [svm] and none for [rf].  [plot_importance] returns
    normally, but it reports [svm] too as having no feature importances
    and writes no file for it: the absent vector of [rf] is skipped, and
    the other algorithm does not have its plot written. *)
Theorem plot_importance_drops_stored_vector :
  let r := Concrete.q_plot_importance sparse "train" start in
  importances Q nat sparse !! "svm" = Some [1 # 2; 1 # 4]%Q /\
  importances Q nat sparse !! "rf" = None /\
  fst r = inr tt /\
  In (Log "%s does not have feature importances" [AVal (VStr "svm")])
     (new_events start (snd r)) /\
  saved (events (snd r)) = [].
Proof.
  split; [vm_compute; reflexivity|]. split; [vm_compute; reflexivity|].
  split; [vm_compute; reflexivity|]. split; [|vm_compute; reflexivity].
  vm_compute. repeat first [left; reflexivity | right].
Qed.

(** Without [base_dir] the writer raises and leaves no file. *)
Lemma write_plot_all_or_nothing_witness :
  let r := Concrete.q_write_plot unconfigured "matplotlib" None "roc_curve"
             "test_svm" start in
  saved (events (snd r)) = saved (events start).
Proof.
  apply (proj1 (write_plot_all_or_nothing Q nat unconfigured "matplotlib" None
                  "roc_curve" "test_svm" start) (KeyError ["base_dir"])).
  vm_compute; reflexivity.
Defined.

(** The [KeyError] of a configuration without [base_dir]. *)
Lemma write_plot_errors_witness :
  Concrete.q_write_plot unconfigured "seaborn"
    (Some {| ident := 3; class := SeabornGrid |}) "scatter_plot" "eda" start
  = (inl (KeyError ["base_dir"]), start).
Proof.
  apply (proj1 (write_plot_errors Q nat unconfigured "seaborn"
                  (Some {| ident := 3; class := SeabornGrid |})
                  "scatter_plot" "eda" start)).
  vm_compute; reflexivity.
Defined.

(** The two routines that read undefined names, on the test partition of
    the classifier. *)
Lemma undefined_names_block_plots_witness :
  fst (plot_partial_dependence Q nat classifier "test" [0; 1] start)
  = inl (NameError "fetch_california_housing") /\
  fst (Concrete.q_plot_boundary classifier "test" 0 1 start)
  = inl (NameError "classifiers").
Proof.
  destruct (undefined_names_block_plots Q nat classifier "test" [0; 1] 0 1 start)
    as (_ & _ & _ & _ & _ & _ & H).
  destruct (H (or_intror eq_refl)) as (H1 & H2).
  split; [exact H1|]. apply H2. vm_compute; reflexivity.
Defined.

(** A partition named [validation]. *)
Lemma invalid_partition_rejected_witness :
  let bad (entry : string) : (exn + unit) * world Q nat :=
    (inl (TypeError "Partition must be train or test"),
     emit Q nat (Log entry []) start) in
  Concrete.q_plot_importance classifier "validation" start
  = bad "Generating Feature Importance Plots" /\
  Concrete.q_plot_confusion_matrix classifier "validation" start
  = bad "Generating Confusion Matrices" /\
  Concrete.q_plot_calibration classifier "validation" start
  = bad "Generating Calibration Plot" /\
  Concrete.q_plot_roc_curve classifier "validation" start
  = bad "Generating ROC Curves".
Proof.
  destruct (invalid_partition_rejected Q nat 0%Q 1%Q Qplus Qminus qdiv qofnat
              qnonzero qlt qlit " " qlinspace qmin qmax qargsort qinterp scores
              scores scores sub_rows scores has_proba decide_fun refit proba
              split_folds n_splits calib roc qauc confusion learn val_curve
              classifier "validation" "C" [1%Q] start
              ltac:(discriminate) ltac:(discriminate))
    as (H1 & H2 & H3 & H4 & _).
  split; [exact H1|]. split; [exact H2|]. split.
  - apply H3. vm_compute; reflexivity.
  - apply H4; [vm_compute; reflexivity | | | |]; eexists; vm_compute; reflexivity.
Defined.

(** The third flag is missing. *)
Lemma generate_plots_missing_flag_witness :
  let r := Concrete.q_generate_plots unflagged "test" start in
  fst r = inl (KeyError ["importances"]) /\
  events (snd r) = [Log "Generating Plots for Partition: %s" [AVal (VStr "test")]].
Proof.
  pose proof (generate_plots_missing_flag Q nat 0%Q 1%Q Qplus Qminus qdiv qofnat
                qnonzero qlit " " qlinspace qmin qmax qargsort qinterp scores
                scores scores sub_rows scores has_proba decide_fun refit proba
                split_folds n_splits calib roc qauc confusion learn unflagged
                "test" start ["calibration_plot"; "confusion_matrix"]
                "importances" ["learning_curve"; "roc_curve"] eq_refl) as H.
  unfold Concrete.q_generate_plots. rewrite H.
  - split; reflexivity.
  - intros k [<-|[<-|[]]]; eexists; vm_compute; reflexivity.
  - vm_compute; reflexivity.
Defined.

(** The five flags false, and a partition that does not exist. *)
Lemma generate_plots_all_disabled_witness :
  let r := Concrete.q_generate_plots disabled "nowhere" start in
  fst r = inr tt /\
  events (snd r)
  = [Log "Generating Plots for Partition: %s" [AVal (VStr "nowhere")]].
Proof.
  pose proof (generate_plots_all_disabled Q nat 0%Q 1%Q Qplus Qminus qdiv qofnat
                qnonzero qlit " " qlinspace qmin qmax qargsort qinterp scores
                scores scores sub_rows scores has_proba decide_fun refit proba
                split_folds n_splits calib roc qauc confusion learn disabled
                "nowhere" start) as H.
  unfold Concrete.q_generate_plots. rewrite H.
  - split; reflexivity.
  - intros k [<-|[<-|[<-|[<-|[<-|[]]]]]]; exists (VBool false);
      split; vm_compute; reflexivity.
Defined.

(** The five files of the test partition, in the order of the routines,
    for the classifier whose estimators have [predict_proba]. *)
Lemma generate_plots_files_witness :
  saved (events (snd (Concrete.q_generate_plots probabilistic "test" start)))
  = ["/tmp/out/proj1/calibration_test.png";
     "/tmp/out/proj1/confusion_test_svm.png";
     "/tmp/out/proj1/confusion_test_rf.png";
     "/tmp/out/proj1/roc_curve_test_svm.png";
     "/tmp/out/proj1/roc_curve_test_rf.png"].
Proof.
  pose proof (generate_plots_files Q nat 0%Q 1%Q Qplus Qminus qdiv qofnat qnonzero
                qlit " " qlinspace qmin qmax qargsort qinterp scores scores scores
                sub_rows scores has_proba decide_fun refit proba split_folds
                n_splits calib roc qauc confusion learn probabilistic
                "/tmp/out" "proj1"
                ltac:(vm_compute; reflexivity) ltac:(vm_compute; reflexivity)
                "test" qargsort_perm start tt) as H.
  unfold Concrete.q_generate_plots.
  etransitivity; [apply H|]; vm_compute; reflexivity.
Defined.

(** Both algorithms have stored predictions for the test partition. *)
Lemma plot_confusion_matrix_outcome_witness :
  let r := Concrete.q_plot_confusion_matrix classifier "test" start in
  fst r = inr tt /\
  saved (events (snd r))
  = saved (events start)
      ++ map (algo_file "/tmp/out" "proj1" "confusion" "test") ["svm"; "rf"].
Proof.
  apply (plot_confusion_matrix_outcome Q nat " " scores confusion classifier
           "/tmp/out" "proj1" ltac:(vm_compute; reflexivity)
           ltac:(vm_compute; reflexivity) "test" start (or_intror eq_refl)).
  intros a [<-|[<-|[]]]; eexists; vm_compute; reflexivity.
Defined.


(** Without [base_dir], [svm] is reported as having no feature
    importances although its vector is stored. *)
Lemma plot_importance_hides_writer_errors_witness :
  let r := Concrete.q_plot_importance unconfigured "train" start in
  is_Some (importances Q nat unconfigured !! "svm") /\
  fst r = inr tt /\
  saved (events (snd r)) = saved (events start) /\
  In (Log "%s does not have feature importances" [AVal (VStr "svm")])
     (new_events start (snd r)).
Proof.
  split; [eexists; vm_compute; reflexivity|].
  destruct (plot_importance_hides_writer_errors Q nat " " qargsort unconfigured
              "train" start (or_introl eq_refl))
    as (H1 & H2 & H3).
  - left. vm_compute; reflexivity.
  - split; [exact H1|]. split; [exact H2|].
    apply H3. left. reflexivity.
Defined.

(** A vector of two importances. *)
Lemma plot_importance_short_vector_witness :
  In (Log "%s does not have feature importances" [AVal (VStr "svm")])
     (new_events start (snd (Concrete.q_plot_importance sparse "train" start))).
Proof.
  apply (plot_importance_short_vector Q nat " " qargsort sparse "train" "svm"
           [1 # 2; 1 # 4]%Q start qargsort_perm (or_introl eq_refl)).
  - left. reflexivity.
  - vm_compute; reflexivity.
  - vm_compute. repeat constructor.
Defined.

(** A splitter of zero folds: the division by the number of splits fails. *)
Lemma plot_roc_curve_no_folds_witness :
  let r := Concrete.q_plot_roc_curve no_folds "test" start in
  fst r = inl (ZeroDivisionError "float division by zero") /\
  saved (events (snd r)) = saved (events start).
Proof.
  unfold Concrete.q_plot_roc_curve.
  apply (plot_roc_curve_no_folds Q nat 0%Q 1%Q Qplus qdiv qofnat qnonzero qlit " "
           qlinspace qinterp sub_rows scores has_proba refit proba split_folds
           n_splits roc qauc no_folds "test" 200 201 (VInt 0) (VInt 0) (VBool true)
           (VFloat (1 # 5)%Q) "svm" ["rf"] 1 start).
  - intros w0. reflexivity.
  - vm_compute; reflexivity.
  - vm_compute; reflexivity.
  - vm_compute; reflexivity.
  - vm_compute; reflexivity.
  - vm_compute; reflexivity.
  - reflexivity.
  - vm_compute; reflexivity.
  - reflexivity.
Defined.

(** An empty range on the classifier: the error comes from
    [validation_curve], before anything is drawn for the first algorithm. *)
Lemma plot_validation_curve_empty_range_witness :
  let r := Concrete.q_plot_validation_curve classifier "test" "C" [] start in
  (exists msg, fst r = inl (IndexError msg)) /\
  saved (events (snd r)) = saved (events start) /\
  drawn (events (snd r)) = drawn (events start).
Proof.
  unfold Concrete.q_plot_validation_curve.
  destruct (plot_validation_curve_empty_range Q nat Qplus Qminus qlt qlit " "
              scores scores val_curve classifier "test" "C" 200 201 start)
    as (_ & H).
  - intros w0. reflexivity.
  - eexists; vm_compute; reflexivity.
  - eexists; vm_compute; reflexivity.
  - eexists; vm_compute; reflexivity.
  - eexists; vm_compute; reflexivity.
  - apply (H "svm" ["rf"]); [reflexivity | eexists; vm_compute; reflexivity].
Defined.

(** Two scatter plots that share the list object 0: the second one also
    selects the target of the first. *)
Lemma plot_scatter_accumulates_witness :
  let w1 := snd (Concrete.q_plot_scatter classifier frame 0 "label" "eda" start) in
  let r := Concrete.q_plot_scatter regressor frame 0 "age" "eda2" w1 in
  lists (snd r) 0 = ["age"; "income"; "label"; "age"] /\
  In (Draw "sns.pairplot"
        [AObj 1; AObj 2; AObj 3; AObj 1; AVal (VStr "age")])
     (events (snd r)).
Proof.
  destruct (plot_scatter_accumulates Q nat classifier frame "label" "eda"
              regressor frame "age" "eda2" 0 start) as (H1 & H2).
  split; [exact H1|].
  apply (H2 [("age", 1); ("income", 2); ("label", 3); ("age", 1)]). reflexivity.
Defined.

(** The four confusion matrices of the classifier. *)
Lemma confusion_files_distinct_witness :
  let r := Concrete.q_plot_confusion_matrix classifier "train" start in
  let r' := Concrete.q_plot_confusion_matrix classifier "test" start in
  exists files files',
    saved (events (snd r)) = saved (events start) ++ files /\
    saved (events (snd r')) = saved (events start) ++ files' /\
    length files = 2 /\ length files' = 2 /\
    NoDup (files ++ files').
Proof.
  apply (confusion_files_distinct Q nat " " scores confusion classifier
           "/tmp/out" "proj1" start start).
  - vm_compute; reflexivity.
  - vm_compute; reflexivity.
  - apply (bool_decide_unpack _). vm_compute. exact I.
  - vm_compute; reflexivity.
  - vm_compute; reflexivity.
Defined.

(** The learning curves of the two algorithms of the classifier. *)
Lemma plot_learning_curve_carries_sizes_witness :
  let cv := StratifiedShuffleSplit (VInt 3) (VFloat (1 # 5)%Q) (VInt 0) in
  let grid := qlinspace (1 # 10)%Q 1%Q 5 in
  let first := learn 1 100 101 grid cv (VStr "roc_auc") (VInt (-1)) (VInt 0) in
  let second :=
    learn 2 100 101 (fst (fst first)) cv (VStr "roc_auc") (VInt (-1)) (VInt 0) in
  let t := new_events start
             (snd (Concrete.q_plot_learning_curve classifier "train" start)) in
  In (training_score_plot Q nat scores first) t /\
  In (training_score_plot Q nat scores second) t.
Proof.
  unfold Concrete.q_plot_learning_curve.
  apply (plot_learning_curve_carries_sizes Q nat Qplus Qminus qlit " " qlinspace
           scores scores learn classifier "/tmp/out" "proj1"
           ltac:(vm_compute; reflexivity) ltac:(vm_compute; reflexivity)
           "train" 100 101 (VInt 3) (VInt (-1)) (VStr "roc_auc") (VInt 0)
           (VBool true) (VFloat (1 # 5)%Q) (VInt 0) "svm" "rf" [] 1 2 start).
  - intros w0. reflexivity.
  - vm_compute; reflexivity.
  - vm_compute; reflexivity.
  - vm_compute; reflexivity.
  - vm_compute; reflexivity.
  - vm_compute; reflexivity.
  - vm_compute; reflexivity.
  - vm_compute; reflexivity.
  - reflexivity.
  - vm_compute; reflexivity.
  - vm_compute; reflexivity.
Defined.

(** A frame of prices has its dates converted; a frame without dates is
    refused. *)
Lemma plot_candlestick_converts_dates_witness :
  Concrete.q_plot_candlestick frame "ibm" [] None start
  = (inl (KeyError ["date"]), frame, start) /\
  let df' := snd (fst (Concrete.q_plot_candlestick prices "ibm" [] None start)) in
  column_of nat df' "date" = inr 1001 /\
  map fst df' = map fst prices /\
  column_of nat df' "close" = inr 12.
Proof.
  destruct (plot_candlestick_converts_dates Q nat qdiv qofnat qlit " " shout as_datetime
              Nat.add Nat.sub Nat.div (fun a => a) greater select_rows (355 # 113)%Q
              frame "ibm" [] None start) as (H1 & _).
  destruct (plot_candlestick_converts_dates Q nat qdiv qofnat qlit " " shout as_datetime
              Nat.add Nat.sub Nat.div (fun a => a) greater select_rows (355 # 113)%Q
              prices "ibm" [] None start) as (_ & H2).
  split; [apply H1; reflexivity|].
  destruct (H2 1 eq_refl) as (Hd & Hn & Ho).
  split; [exact Hd|]. split; [exact Hn|].
  rewrite Ho by discriminate. reflexivity.
Defined.

(** The candlestick chart of [ibm], titled in upper case: shown without a
    model; with the classifier its path is logged under the symbol as
    given, and the save fails on the bokeh figure. *)
Lemma plot_candlestick_output_witness :
  let title := Draw "p.title" [AVal (VStr "IBM Candlestick")] in
  let out := Concrete.q_plot_candlestick prices "ibm" [] None start in
  let out' := Concrete.q_plot_candlestick prices "ibm" [] (Some classifier) start in
  (fst (fst out) = inr tt /\
   saved (events (snd out)) = [] /\
   In title (events (snd out)) /\
   In "show" (drawn (events (snd out)))) /\
  ((exists msg, fst (fst out') = inl (AttributeError msg)) /\
   saved (events (snd out')) = [] /\
   In title (events (snd out')) /\
   In (Log "Writing plot to %s"
         [AVal (VStr (output_path "/tmp/out" "proj1" "candlestick_chart" "ibm"))])
      (events (snd out')) /\
   ~ In "show" (drawn (new_events start (snd out')))).
Proof.
  destruct (plot_candlestick_output Q nat qdiv qofnat qlit " " shout as_datetime
              Nat.add Nat.sub Nat.div (fun a => a) greater select_rows (355 # 113)%Q
              prices "ibm" [] start) as (H1 & H2).
  - intros name Hin. simpl in Hin.
    destruct Hin as [<-|[<-|[<-|[<-|[<-|[]]]]]]; eexists; reflexivity.
  - split; [exact H1|].
    apply (H2 classifier "/tmp/out" "proj1"); vm_compute; reflexivity.
Defined.

(** A frame with dates and opening prices only. *)
Lemma plot_candlestick_missing_price_witness :
  Concrete.q_plot_candlestick openings "ibm" [] (Some classifier) start
  = (inl (AttributeError "'DataFrame' object has no attribute 'close'"),
     [("date", 1001); ("open", 10)], start).
Proof.
  destruct (plot_candlestick_missing_price Q nat qdiv qofnat qlit " " shout as_datetime
              Nat.add Nat.sub Nat.div (fun a => a) greater select_rows (355 # 113)%Q
              openings "ibm" [] (Some classifier) start 1 eq_refl) as (_ & H).
  apply (H 10); reflexivity.
Defined.
